(** * Workspace manager: a shallow embedding and its verified properties

    The development follows the Python sources module by module:
    [models.py] (records and their dictionary form), [virtual_desktops.py]
    (the virtual-desktop layer), [windows_api.py] (window positioning),
    [config.py] (the configuration store), [launcher.py] (launch and retry)
    and [capture.py] (the default capture filter).

    Python integers are unbounded and are modelled by [Z]; [str] values are
    modelled by [string]; [None] by [option].  The operating system, pyvda,
    the file system and the process launcher are outside the repository:
    their answers are taken from a scripted environment, one answer per call,
    so that every behaviour the code can observe is covered. *)

From stdpp Require Import base option list strings pretty sorting gmap.
From Stdlib Require Import ZArith Lia Ascii.

Local Open Scope string_scope.
Local Open Scope Z_scope.

(** ** Exceptions and results *)

(** The exceptions that the modelled code raises, catches or converts.
    Library and operating-system errors carry the text that [str(e)]
    yields. *)
Inductive exn : Type :=
| KeyError (key : string)
| AttributeError (msg : string)
| TypeError (msg : string)
| FileNotFoundError (msg : string)
| PermissionError (msg : string)
| OSError (msg : string)
| JSONDecodeError (msg : string)
| NoSuchProcess (msg : string)
| AccessDenied (msg : string)
| ZombieProcess (msg : string)
| VirtualDesktopError (msg : string)
| ConfigError (msg : string)
| OtherError (msg : string).

(** [str(e)]; a [KeyError] prints the repr of its key. *)
Definition str_exn (e : exn) : string :=
  match e with
  | KeyError k => "'" +:+ k +:+ "'"
  | AttributeError m | TypeError m | FileNotFoundError m
  | PermissionError m | OSError m | JSONDecodeError m
  | NoSuchProcess m | AccessDenied m | ZombieProcess m
  | VirtualDesktopError m | ConfigError m | OtherError m => m
  end.

(** [isinstance(e, OSError)]: [FileNotFoundError] and [PermissionError] are
    subclasses of [OSError]. *)
Definition is_OSError (e : exn) : bool :=
  match e with
  | OSError _ | FileNotFoundError _ | PermissionError _ => true
  | _ => false
  end.

Definition is_AttributeError (e : exn) : bool :=
  match e with
  | AttributeError _ => true
  | _ => false
  end.

Inductive result (A : Type) : Type :=
| Ok (a : A)
| Raise (e : exn).
Arguments Ok {A} a.
Arguments Raise {A} e.

Definition rbind {A B} (r : result A) (k : A -> result B) : result B :=
  match r with
  | Ok a => k a
  | Raise e => Raise e
  end.

Declare Scope result_scope.
Delimit Scope result_scope with result.
Notation "'let*' x ':=' r 'in' k" := (rbind r (fun x => k))
  (at level 10, x name, r at level 100, k at level 200) : result_scope.

(** [[f(x) for x in l]] where [f] may raise: the first exception wins. *)
Fixpoint rmap {A B} (f : A -> result B) (l : list A) : result (list B) :=
  match l with
  | [] => Ok []
  | a :: l' =>
      (let* b := f a in let* bs := rmap f l' in Ok (b :: bs))%result
  end.

(** ** Dictionary form (what [to_dict] builds and [json] reads and writes) *)

#[warnings="-register-all"]
Inductive json : Type :=
| JNull
| JBool (b : bool)
| JInt (n : Z)
| JStr (s : string)
| JList (l : list json)
| JDict (d : list (string * json)).

(** A Python [dict] with string keys, in insertion order. *)
Abbreviation dict := (list (string * json)).

(** [d.get(k)] / [k in d] / [d[k]]. *)
Fixpoint dict_get (d : dict) (k : string) : option json :=
  match d with
  | [] => None
  | (k', v) :: d' => if String.eqb k k' then Some v else dict_get d' k
  end.

Definition dict_get_default (d : dict) (k : string) (dflt : json) : json :=
  default dflt (dict_get d k).

Definition dict_index (d : dict) (k : string) : result json :=
  match dict_get d k with
  | Some v => Ok v
  | None => Raise (KeyError k)
  end.

(** The dataclasses annotate their fields ([int], [str], [List[str]],
    [Optional[str]]); the records below carry exactly these types.  Python
    itself stores whatever object the dictionary holds, so a dictionary value
    outside the annotated type has no counterpart in the record: decoding it
    is reported as a [TypeError]. *)
Definition as_int (field : string) (v : json) : result Z :=
  match v with
  | JInt n => Ok n
  | _ => Raise (TypeError field)
  end.

Definition as_str (field : string) (v : json) : result string :=
  match v with
  | JStr s => Ok s
  | _ => Raise (TypeError field)
  end.

Definition as_opt_str (field : string) (v : json) : result (option string) :=
  match v with
  | JNull => Ok None
  | JStr s => Ok (Some s)
  | _ => Raise (TypeError field)
  end.

Definition as_str_list (field : string) (v : json) : result (list string) :=
  match v with
  | JList l => rmap (as_str field) l
  | _ => Raise (TypeError field)
  end.

(** [for item in v]: a list yields its items, a string its characters, a
    dictionary its keys; nothing else is iterable. *)
Definition py_iter (v : json) : result (list json) :=
  match v with
  | JList l => Ok l
  | JStr s =>
      Ok ((fun c => JStr (String c "")) <$> String.list_ascii_of_string s)
  | JDict d => Ok ((fun kv => JStr (fst kv)) <$> d)
  | _ => Raise (TypeError "object is not iterable")
  end.

(** [v.get] exists only on dictionaries. *)
Definition as_dict (v : json) : result dict :=
  match v with
  | JDict d => Ok d
  | _ => Raise (AttributeError "object has no attribute 'get'")
  end.

(** [v["key"]] is defined only on dictionaries. *)
Definition as_subscriptable (v : json) : result dict :=
  match v with
  | JDict d => Ok d
  | _ => Raise (TypeError "object is not subscriptable with a string")
  end.

(** ** models.py *)

Module WindowConfig.

Record t : Type := mk { x : Z; y : Z; width : Z; height : Z }.

Definition to_dict (self : t) : dict :=
  [("x", JInt (x self)); ("y", JInt (y self));
   ("width", JInt (width self)); ("height", JInt (height self))].

Definition from_dict (data : dict) : result t :=
  (let* vx := as_int "x" (dict_get_default data "x" (JInt 0)) in
   let* vy := as_int "y" (dict_get_default data "y" (JInt 0)) in
   let* vw := as_int "width" (dict_get_default data "width" (JInt 800)) in
   let* vh := as_int "height" (dict_get_default data "height" (JInt 600)) in
   Ok (mk vx vy vw vh))%result.

End WindowConfig.

Module AppInstance.

Record t : Type := mk {
  id : string;
  exe : string;
  args : list string;
  working_dir : option string;
  virtual_desktop : Z;
  window : WindowConfig.t
}.

Definition json_of_opt_str (o : option string) : json :=
  match o with
  | None => JNull
  | Some s => JStr s
  end.

Definition to_dict (self : t) : dict :=
  [("id", JStr (id self));
   ("exe", JStr (exe self));
   ("args", JList (JStr <$> args self));
   ("working_dir", json_of_opt_str (working_dir self));
   ("virtual_desktop", JInt (virtual_desktop self));
   ("window", JDict (WindowConfig.to_dict (window self)))].

Definition from_dict (data : dict) : result t :=
  (let* vid := (let* v := dict_index data "id" in as_str "id" v) in
   let* vexe := (let* v := dict_index data "exe" in as_str "exe" v) in
   let* vargs :=
     as_str_list "args" (dict_get_default data "args" (JList [])) in
   let* vwd :=
     as_opt_str "working_dir" (dict_get_default data "working_dir" JNull) in
   let* vvd :=
     as_int "virtual_desktop"
       (dict_get_default data "virtual_desktop" (JInt 0)) in
   let* vwin :=
     (let* d := as_dict (dict_get_default data "window" (JDict [])) in
      WindowConfig.from_dict d) in
   Ok (mk vid vexe vargs vwd vvd vwin))%result.

End AppInstance.

Module Workspace.

Record t : Type := mk {
  name : string;
  description : string;
  apps : list AppInstance.t
}.

Definition to_dict (self : t) : dict :=
  [("name", JStr (name self));
   ("description", JStr (description self));
   ("apps",
    JList ((fun app => JDict (AppInstance.to_dict app)) <$> apps self))].

Definition from_dict (data : dict) : result t :=
  (let* vname := (let* v := dict_index data "name" in as_str "name" v) in
   let* vdesc :=
     as_str "description" (dict_get_default data "description" (JStr "")) in
   let* vapps :=
     (let* l := py_iter (dict_get_default data "apps" (JList [])) in
      rmap (fun app =>
              let* d := as_subscriptable app in AppInstance.from_dict d) l) in
   Ok (mk vname vdesc vapps))%result.

(** [max(app.virtual_desktop for app in self.apps) + 1], or [1] without
    apps. *)
Definition get_required_desktops (self : t) : Z :=
  match apps self with
  | [] => 1
  | app :: rest =>
      foldl (fun m a => Z.max m (AppInstance.virtual_desktop a))
            (AppInstance.virtual_desktop app) rest + 1
  end.

Definition add_app (self : t) (app : AppInstance.t) : t :=
  mk (name self) (description self) (apps self ++ [app]).

(** Returns the updated workspace and whether anything was removed. *)
Definition remove_app (self : t) (app_id : string) : t * bool :=
  let kept := filter (fun app => AppInstance.id app ≠ app_id) (apps self) in
  (mk (name self) (description self) kept,
   bool_decide (length kept < length (apps self))%nat).

Definition get_app (self : t) (app_id : string) : option AppInstance.t :=
  head (filter (fun app => AppInstance.id app = app_id) (apps self)).

End Workspace.

Module WorkspaceCollection.

Record t : Type := mk { workspaces : list Workspace.t }.

Definition to_dict (self : t) : dict :=
  [("workspaces",
    JList ((fun ws => JDict (Workspace.to_dict ws)) <$> workspaces self))].

Definition from_dict (data : dict) : result t :=
  (let* l := py_iter (dict_get_default data "workspaces" (JList [])) in
   let* wss :=
     rmap (fun ws => let* d := as_subscriptable ws in Workspace.from_dict d)
       l in
   Ok (mk wss))%result.

Definition add_workspace (self : t) (workspace : Workspace.t) : t :=
  mk (workspaces self ++ [workspace]).

(** Returns the updated collection and whether anything was removed. *)
Definition remove_workspace (self : t) (name : string) : t * bool :=
  let kept :=
    filter (fun ws => Workspace.name ws ≠ name) (workspaces self) in
  (mk kept, bool_decide (length kept < length (workspaces self))%nat).

Definition get_workspace (self : t) (name : string) : option Workspace.t :=
  head (filter (fun ws => Workspace.name ws = name) (workspaces self)).

Definition list_workspace_names (self : t) : list string :=
  Workspace.name <$> workspaces self.

End WorkspaceCollection.

(** ** The scripted environment

    Everything outside the repository (win32gui, win32api, win32process,
    psutil, pyvda, shutil, subprocess, time) is reached through [os_call]:
    the call is appended to the log of the world and its answer is read from
    the script of the environment at the current call number.  An answer is
    a value or an exception, so every behaviour of the outside world, at
    every call, is covered. *)

(** A window rectangle [(left, top, right, bottom)]. *)
Record Rect : Type := mkRect { left : Z; top : Z; right : Z; bottom : Z }.

(** What [get_process_info] reads from psutil. *)
Record ProcInfo : Type := mkProcInfo {
  proc_name : string;
  proc_exe : string;
  proc_cmdline : list string;
  proc_cwd : string
}.

Inductive call : Type :=
| Sleep (ms : Z)
(* pyvda *)
| GetVirtualDesktops
| VirtualDesktopCreate
| VirtualDesktopNew (number : Z)
| VirtualDesktopGo (number : Z)
| VirtualDesktopCurrent
| AppViewMove (hwnd number : Z)
| AppViewDesktop (hwnd : Z)
| AppViewPin (hwnd : Z)
| AppViewUnpin (hwnd : Z)
| AppViewIsPinned (hwnd : Z)
(* win32api / win32gui / win32process / psutil *)
| KeybdEvent (vk flags : Z)
| GetWindowText (hwnd : Z)
| GetClassName (hwnd : Z)
| IsWindowVisible (hwnd : Z)
| GetWindowLong (hwnd index : Z)
| GetWindowRect (hwnd : Z)
| GetWindowThreadProcessId (hwnd : Z)
| PsutilProcess (pid : Z)
| EnumWindows
| ShowWindow (hwnd cmd : Z)
| SetForegroundWindow (hwnd : Z)
| MoveWindow (hwnd x y width height : Z)
| SetWindowPos (hwnd after x y width height flags : Z)
| SendMessageTimeout (hwnd timeout_ms : Z)
| IsIconic (hwnd : Z)
| BringWindowToTop (hwnd : Z)
| PostMessage (hwnd msg : Z)
| ProcessTerminate (pid : Z)
| EnumDisplayMonitors
| GetMonitorInfo (hmon : Z)
(* shutil / subprocess / time *)
| Which (name : string)
| PathExists (path : string)
| Popen (cmd : list string) (shell : bool) (creationflags : Z)
    (cwd : option string)
| SubprocessRun (cmd : list string)
| Deadline (timeout_ms : Z)
(* the file system *)
| PathReplace (src dst : string)
| Mkdir (path : string)
| OpenWrite (path : string)
| JsonDump (path : string)
| OpenRead (path : string).

Record Env : Type := mkEnv {
  (* pyvda *)
  get_virtual_desktops : nat -> result nat;   (* length of the list *)
  virtual_desktop_create : nat -> result unit;
  virtual_desktop_new : nat -> result unit;
  virtual_desktop_go : nat -> result unit;
  virtual_desktop_current : nat -> result Z;  (* [.number], 1-based *)
  app_view_move : nat -> result unit;
  app_view_desktop : nat -> result Z;         (* [.desktop.number] *)
  app_view_pin : nat -> result unit;
  app_view_unpin : nat -> result unit;
  app_view_is_pinned : nat -> result bool;
  (* win32 *)
  keybd_event : nat -> result unit;
  window_text : nat -> result string;
  class_name_of : nat -> result string;
  is_window_visible : nat -> result bool;
  window_long : nat -> result Z;
  window_rect : nat -> result Rect;
  window_pid : nat -> result Z;
  psutil_process : nat -> result ProcInfo;
  (* the handles passed to the callback, and the exception that EnumWindows
     raises after them, if any *)
  enum_windows : nat -> list Z * option exn;
  show_window : nat -> result unit;
  set_foreground_window : nat -> result unit;
  move_window_call : nat -> result unit;
  set_window_pos : nat -> result unit;
  send_message_timeout : nat -> result bool;  (* result is not None *)
  is_iconic : nat -> result bool;
  bring_window_to_top : nat -> result unit;
  post_message : nat -> result unit;
  process_terminate : nat -> result unit;
  (* the monitors passed to the callback (handle and rectangle), and the
     exception raised afterwards, if any *)
  enum_display_monitors : nat -> list (Z * Rect) * option exn;
  (* info['Work'], info['Flags'], info.get('Device', '') *)
  get_monitor_info_call : nat -> result (Rect * Z * string);
  (* shutil, subprocess *)
  which : nat -> result (option string);
  path_exists : nat -> result bool;
  popen : nat -> result Z;                    (* the pid *)
  subprocess_run : nat -> result unit;
  (* how many times the polling loop of [find_window_by_pid] started at this
     call number finds its deadline not yet reached *)
  polls_before_timeout : nat -> nat;
  (* the file system: the error of an operation, if it fails, and the text
     that a failed [json.dump] leaves in the file *)
  fs_error : nat -> option exn;
  partial_text : nat -> string;
  (* pure functions of pathlib and of the Python runtime *)
  path_name : string -> string;               (* Path(p).name *)
  path_str : string -> string;                (* str(Path(p)) *)
  path_parent : string -> string;             (* Path(p).parent *)
  path_is_absolute : string -> bool;          (* Path(p).is_absolute() *)
  with_suffix : string -> string -> string;   (* Path(p).with_suffix(s) *)
  format_json : json -> string                (* str(v) in an f-string *)
}.

(** What a file holds: a JSON document, or text that is not JSON. *)
Inductive content : Type :=
| Doc (j : json)
| Malformed (text : string).

(** [LaunchResult] of launcher.py. *)
Module LaunchResult.

Record t : Type := mk {
  app_id : string;
  success : bool;
  pid : option Z;
  hwnd : option Z;
  error : option string
}.

End LaunchResult.

(** The mutable state: the number of calls made so far and their log, the
    files, and the two attributes that the objects of the program update in
    place, [ConfigManager.collection] and
    [WorkspaceLauncher.launch_results]. *)
Record World : Type := mkWorld {
  tick : nat;
  calls : list call;
  files : gmap string content;
  cfg_collection : option WorkspaceCollection.t;
  launch_results : list LaunchResult.t
}.

Definition set_files (f : gmap string content) (w : World) : World :=
  {| tick := tick w; calls := calls w; files := f;
     cfg_collection := cfg_collection w;
     launch_results := launch_results w |}.

Definition set_cfg_collection (c : option WorkspaceCollection.t) (w : World)
    : World :=
  {| tick := tick w; calls := calls w; files := files w;
     cfg_collection := c; launch_results := launch_results w |}.

Definition set_launch_results (rs : list LaunchResult.t) (w : World)
    : World :=
  {| tick := tick w; calls := calls w; files := files w;
     cfg_collection := cfg_collection w; launch_results := rs |}.

(** The call is logged and numbered. *)
Definition log_call (c : call) (w : World) : World :=
  {| tick := S (tick w); calls := calls w ++ [c]; files := files w;
     cfg_collection := cfg_collection w;
     launch_results := launch_results w |}.

(** Computations that talk to the environment and may raise. *)
Definition M (A : Type) : Type := Env -> World -> result A * World.

Definition ret {A} (a : A) : M A := fun _ w => (Ok a, w).

Definition raise {A} (e : exn) : M A := fun _ w => (Raise e, w).

Definition bind {A B} (m : M A) (k : A -> M B) : M B :=
  fun env w =>
    match m env w with
    | (Ok a, w') => k a env w'
    | (Raise e, w') => (Raise e, w')
    end.

(** [try: m except <classes selected by catches> as e: handler e]. *)
Definition try_except {A} (m : M A) (catches : exn -> bool)
    (handler : exn -> M A) : M A :=
  fun env w =>
    match m env w with
    | (Ok a, w') => (Ok a, w')
    | (Raise e, w') => if catches e then handler e env w' else (Raise e, w')
    end.

(** A [try] with several [except] clauses: the first clause that matches
    the exception handles it, and what a handler raises is not caught by the
    clauses after it. *)
Fixpoint handle_with {A} (clauses : list ((exn -> bool) * (exn -> M A)))
    (e : exn) : M A :=
  match clauses with
  | [] => raise e
  | (catches, handler) :: clauses' =>
      if catches e then handler e else handle_with clauses' e
  end.

Definition try_excepts {A} (m : M A)
    (clauses : list ((exn -> bool) * (exn -> M A))) : M A :=
  fun env w =>
    match m env w with
    | (Ok a, w') => (Ok a, w')
    | (Raise e, w') => handle_with clauses e env w'
    end.

(** [except Exception]: every modelled exception. *)
Definition any_exception (e : exn) : bool := true.

Declare Scope M_scope.
Delimit Scope M_scope with M.
Notation "'let*' x ':=' m 'in' k" := (bind m (fun x => k))
  (at level 10, x name, m at level 100, k at level 200) : M_scope.
Notation "m ';;' k" := (bind m (fun _ => k))
  (at level 100, k at level 200, right associativity) : M_scope.

Definition os_call {A} (c : call) (answer : Env -> nat -> result A) : M A :=
  fun env w => (answer env (tick w), log_call c w).

(** Reading and updating the state. *)
Definition get_world : M World := fun _ w => (Ok w, w).

Definition update_world (f : World -> World) : M unit :=
  fun _ w => (Ok tt, f w).

(** A pure function of the runtime, read from the environment. *)
Definition ask {A} (f : Env -> A) : M A := fun env w => (Ok (f env), w).

(** [time.sleep]; the duration is kept in milliseconds. *)
Definition sleep (ms : Z) : M unit :=
  os_call (Sleep ms) (fun _ _ => Ok tt).

(** win32con constants used by the code. *)
Definition VK_LWIN : Z := 0x5B.
Definition VK_CONTROL : Z := 0x11.
Definition VK_D : Z := 0x44.
Definition KEYEVENTF_KEYUP : Z := 0x0002.

(** ** virtual_desktops.py *)

Module VirtualDesktopManager.

Record t : Type := mk { pyvda_available : bool }.

Definition get_desktop_count (self : t) : M Z :=
  if negb (pyvda_available self) then ret 1
  else
    try_except
      (let* desktops := os_call GetVirtualDesktops get_virtual_desktops in
       ret (Z.of_nat desktops))%M
      any_exception
      (fun e =>
         raise (VirtualDesktopError
                  ("Failed to get desktop count: " +:+ str_exn e))).

(** The keyboard fallback of [create_desktop]: Win+Ctrl+D. *)
Definition send_win_ctrl_d : M unit :=
  (os_call (KeybdEvent VK_LWIN 0) keybd_event ;; sleep 50 ;;
   os_call (KeybdEvent VK_CONTROL 0) keybd_event ;; sleep 50 ;;
   os_call (KeybdEvent VK_D 0) keybd_event ;; sleep 50 ;;
   os_call (KeybdEvent VK_D KEYEVENTF_KEYUP) keybd_event ;; sleep 50 ;;
   os_call (KeybdEvent VK_CONTROL KEYEVENTF_KEYUP) keybd_event ;; sleep 50 ;;
   os_call (KeybdEvent VK_LWIN KEYEVENTF_KEYUP) keybd_event ;;
   sleep 500)%M.

Definition create_desktop (self : t) : M bool :=
  if negb (pyvda_available self) then ret false
  else
    try_except
      (let* before_count := get_desktop_count self in
       try_except
         (os_call VirtualDesktopCreate virtual_desktop_create ;; sleep 300)
         any_exception
         (fun _ => send_win_ctrl_d) ;;
       let* after_count := get_desktop_count self in
       ret (before_count <? after_count))%M
      any_exception
      (fun _ => ret false).

(** The loop [for i in range(desktops_to_create)] of [ensure_desktop_count];
    [false] is the early [return False]. *)
Fixpoint create_desktops (self : t) (desktops_to_create : Z)
    (remaining : nat) (i : Z) : M bool :=
  match remaining with
  | O => ret true
  | S remaining' =>
      (let* created := create_desktop self in
       if negb created then ret false
       else
         (if i <? desktops_to_create - 1 then sleep 300 else ret tt) ;;
         create_desktops self desktops_to_create remaining' (i + 1))%M
  end.

Definition ensure_desktop_count (self : t) (required_count : Z) : M bool :=
  if negb (pyvda_available self) then ret (required_count <=? 1)
  else
    try_except
      (let* current_count := get_desktop_count self in
       if required_count <=? current_count then ret true
       else
         let desktops_to_create := required_count - current_count in
         let* all_created :=
           create_desktops self desktops_to_create
             (Z.to_nat desktops_to_create) 0 in
         if negb all_created then ret false
         else
           let* final_count := get_desktop_count self in
           ret (required_count <=? final_count))%M
      any_exception
      (fun e =>
         raise (VirtualDesktopError
                  ("Failed to ensure desktop count: " +:+ str_exn e))).

Definition move_window_to_desktop (self : t) (hwnd desktop_index : Z)
    : M bool :=
  if negb (pyvda_available self) then ret (desktop_index =? 0)
  else
    try_except
      (let* desktops := os_call GetVirtualDesktops get_virtual_desktops in
       if Z.of_nat desktops <=? desktop_index then ret false
       else
         os_call (VirtualDesktopNew (desktop_index + 1)) virtual_desktop_new ;;
         let* moved :=
           try_except
             (os_call (AppViewMove hwnd (desktop_index + 1)) app_view_move ;;
              ret true)
             any_exception
             (fun _ => ret false) in
         if negb moved then ret false
         else sleep 200 ;; ret true)%M
      any_exception
      (fun _ => ret false).

Definition get_current_desktop (self : t) : M Z :=
  if negb (pyvda_available self) then ret 0
  else
    try_except
      (let* number := os_call VirtualDesktopCurrent virtual_desktop_current in
       ret (number - 1))%M
      any_exception
      (fun _ => ret 0).

Definition get_window_desktop (self : t) (hwnd : Z) : M Z :=
  if negb (pyvda_available self) then ret 0
  else
    try_except
      (try_except
         (let* number := os_call (AppViewDesktop hwnd) app_view_desktop in
          ret (number - 1))%M
         (fun e => is_OSError e || is_AttributeError e)
         (fun _ => get_current_desktop self))
      any_exception
      (fun _ => ret 0).

Definition switch_to_desktop (self : t) (desktop_index : Z) : M bool :=
  if negb (pyvda_available self) then ret (desktop_index =? 0)
  else
    try_except
      (let* desktops := os_call GetVirtualDesktops get_virtual_desktops in
       if Z.of_nat desktops <=? desktop_index then ret false
       else
         let desktop_number := desktop_index + 1 in
         os_call (VirtualDesktopNew desktop_number) virtual_desktop_new ;;
         os_call (VirtualDesktopGo desktop_number) virtual_desktop_go ;;
         sleep 200 ;;
         let* current := get_current_desktop self in
         ret (current =? desktop_index))%M
      any_exception
      (fun _ => ret false).

Definition pin_window (self : t) (hwnd : Z) : M bool :=
  if negb (pyvda_available self) then ret false
  else
    try_except
      (os_call (AppViewPin hwnd) app_view_pin ;; ret true)%M
      any_exception
      (fun _ => ret false).

Definition unpin_window (self : t) (hwnd : Z) : M bool :=
  if negb (pyvda_available self) then ret false
  else
    try_except
      (os_call (AppViewUnpin hwnd) app_view_unpin ;; ret true)%M
      any_exception
      (fun _ => ret false).

Definition is_window_pinned (self : t) (hwnd : Z) : M bool :=
  if negb (pyvda_available self) then ret false
  else
    try_except
      (os_call (AppViewIsPinned hwnd) app_view_is_pinned)
      any_exception
      (fun _ => ret false).

(** [_send_hotkey]: runs PowerShell; every exception is logged and
    dropped.  The script text, a constant wrapped around the hotkey, is
    recorded in the log by the hotkey alone. *)
Definition _send_hotkey (self : t) (hotkey : string) : M unit :=
  try_except
    (os_call (SubprocessRun ["powershell"; "-Command"; hotkey])
       subprocess_run)
    any_exception
    (fun _ => ret tt).

Definition close_desktop (self : t) (desktop_index : Z) : M bool :=
  if negb (pyvda_available self) then ret false
  else
    try_except
      (let* desktop_count := get_desktop_count self in
       if desktop_count <=? 1 then ret false
       else if desktop_count <=? desktop_index then ret false
       else
         switch_to_desktop self desktop_index ;;
         _send_hotkey self "win+ctrl+{F4}" ;;
         sleep 500 ;;
         let* new_count := get_desktop_count self in
         ret (new_count <? desktop_count))%M
      any_exception
      (fun _ => ret false).

End VirtualDesktopManager.

(** ** Strings

    A [string] is a sequence of characters with code points below 256. *)

(** [c.lower()] on the ASCII letters. *)
Definition lower_ascii (c : ascii) : ascii :=
  let n := N_of_ascii c in
  if ((65 <=? n) && (n <=? 90))%N then ascii_of_N (n + 32) else c.

(** [s.lower()]. *)
Fixpoint lower (s : string) : string :=
  match s with
  | EmptyString => EmptyString
  | String c s' => String (lower_ascii c) (lower s')
  end.

(** [needle in hay]. *)
Definition contains (needle hay : string) : bool :=
  match String.index 0 needle hay with
  | Some _ => true
  | None => false
  end.

(** [s.startswith(p)]. *)
Definition startswith (s p : string) : bool := String.prefix p s.

(** [c.isspace()]: the characters that [strip()] removes. *)
Definition is_space (c : ascii) : bool :=
  let n := N_of_ascii c in
  (((9 <=? n) && (n <=? 13)) || ((28 <=? n) && (n <=? 32))
   || (n =? 133) || (n =? 160))%N.

(** [s.strip() == '']. *)
Fixpoint strip_is_empty (s : string) : bool :=
  match s with
  | EmptyString => true
  | String c s' => is_space c && strip_is_empty s'
  end.

(** A string used as a condition: [None] and [""] are false. *)
Definition truthy_str (o : option string) : bool :=
  match o with
  | Some s => negb (String.eqb s "")
  | None => false
  end.

(** [sep.join(l)]. *)
Fixpoint join (sep : string) (l : list string) : string :=
  match l with
  | [] => ""
  | [s] => s
  | s :: l' => s +:+ sep +:+ join sep l'
  end.

(** ** windows_api.py *)

Module WindowInfo.

Record t : Type := mk {
  hwnd : Z;
  title : string;
  class_name : string;
  rect : Rect;
  pid : Z;
  exe_path : option string;
  is_visible : bool
}.

End WindowInfo.

(** win32con constants. *)
Definition GWL_STYLE : Z := -16.
Definition GWL_EXSTYLE : Z := -20.
Definition WS_VISIBLE : Z := 0x10000000.
Definition WS_CHILD : Z := 0x40000000.
Definition WS_EX_TOOLWINDOW : Z := 0x80.
Definition WS_EX_APPWINDOW : Z := 0x40000.
Definition SW_RESTORE : Z := 9.
Definition SW_MINIMIZE : Z := 6.
Definition SW_MAXIMIZE : Z := 3.
Definition HWND_TOP : Z := 0.
Definition SWP_NOSIZE : Z := 0x0001.
Definition SWP_NOMOVE : Z := 0x0002.
Definition SWP_NOZORDER : Z := 0x0004.
Definition SWP_NOACTIVATE : Z := 0x0010.
Definition SWP_SHOWWINDOW : Z := 0x0040.

Module WindowsApi.

Definition get_window_text_safe (hwnd : Z) : M string :=
  try_except (os_call (GetWindowText hwnd) window_text)
    any_exception (fun _ => ret "").

Definition get_class_name_safe (hwnd : Z) : M string :=
  try_except (os_call (GetClassName hwnd) class_name_of)
    any_exception (fun _ => ret "").

(** Truth value of an integer used as a condition. *)
Definition truthy (n : Z) : bool := negb (n =? 0).

Definition is_alt_tab_window (hwnd : Z) : M bool :=
  try_except
    (let* visible := os_call (IsWindowVisible hwnd) is_window_visible in
     if negb visible then ret false
     else
       let* style := os_call (GetWindowLong hwnd GWL_STYLE) window_long in
       let* ex_style := os_call (GetWindowLong hwnd GWL_EXSTYLE) window_long in
       if negb (truthy (Z.land style WS_VISIBLE)) then ret false
       else if truthy (Z.land ex_style WS_EX_TOOLWINDOW) then ret false
       else if truthy (Z.land style WS_CHILD) then ret false
       else
         let* title := get_window_text_safe hwnd in
         if String.eqb title ""
            && negb (truthy (Z.land ex_style WS_EX_APPWINDOW))
         then ret false
         else
           try_except
             (let* r := os_call (GetWindowRect hwnd) window_rect in
              let width := right r - left r in
              let height := bottom r - top r in
              if (width <? 50) || (height <? 50) then ret false
              else ret true)
             any_exception
             (fun _ => ret false))%M
    any_exception
    (fun _ => ret false).

Definition is_psutil_access_error (e : exn) : bool :=
  match e with
  | NoSuchProcess _ | AccessDenied _ | ZombieProcess _ => true
  | _ => false
  end.

(** One call stands for [psutil.Process(pid)] and the reads of its name,
    exe, cmdline, cwd and creation time: its answer is the first exception
    among them, or the values read. *)
Definition get_process_info (pid : Z) : M (option ProcInfo) :=
  try_except
    (let* info := os_call (PsutilProcess pid) psutil_process in
     ret (Some info))%M
    is_psutil_access_error
    (fun _ => ret None).

(** The callback that [enumerate_windows] hands to [EnumWindows]. *)
Definition enum_callback (windows : list WindowInfo.t) (hwnd : Z)
    : M (list WindowInfo.t) :=
  try_except
    (let* shown := is_alt_tab_window hwnd in
     if shown then
       let* title := get_window_text_safe hwnd in
       let* class_name := get_class_name_safe hwnd in
       let* r := os_call (GetWindowRect hwnd) window_rect in
       let* pid := os_call (GetWindowThreadProcessId hwnd) window_pid in
       let* proc_info := get_process_info pid in
       let exe_path := proc_exe <$> proc_info in
       ret (windows ++
            [WindowInfo.mk hwnd title class_name r pid exe_path true])%list
     else ret windows)%M
    any_exception
    (fun _ => ret windows).

Fixpoint enum_callbacks (windows : list WindowInfo.t) (handles : list Z)
    : M (list WindowInfo.t) :=
  match handles with
  | [] => ret windows
  | h :: handles' =>
      (let* windows' := enum_callback windows h in
       enum_callbacks windows' handles')%M
  end.

(** [EnumWindows] passes the top-level handles to the callback one by one;
    an exception it raises afterwards is logged and dropped. *)
Definition enumerate_windows : M (list WindowInfo.t) :=
  (let* answer := os_call EnumWindows (fun e t => Ok (enum_windows e t)) in
   enum_callbacks [] (fst answer))%M.

(** The first window of the process, honouring the title hint. *)
Definition match_window (wanted_pid : Z) (title_hint : option string)
    (window : WindowInfo.t) : bool :=
  (WindowInfo.pid window =? wanted_pid) &&
  match title_hint with
  | None => true
  | Some hint =>
      String.eqb hint "" ||
      contains (lower hint) (lower (WindowInfo.title window))
  end.

(** The loop [while time.time() - start_time < timeout] of
    [find_window_by_pid]; [polls] is the number of times the clock lets the
    condition hold. *)
Fixpoint find_window_polls (wanted_pid : Z) (title_hint : option string)
    (polls : nat) : M (option Z) :=
  match polls with
  | O => ret None
  | S polls' =>
      (let* windows := enumerate_windows in
       match
         filter (fun w => match_window wanted_pid title_hint w = true) windows
       with
       | window :: _ => ret (Some (WindowInfo.hwnd window))
       | [] => sleep 500 ;; find_window_polls wanted_pid title_hint polls'
       end)%M
  end.

Definition find_window_by_pid (wanted_pid : Z) (timeout_ms : Z)
    (title_hint : option string) : M (option Z) :=
  (let* polls :=
     os_call (Deadline timeout_ms)
       (fun e t => Ok (polls_before_timeout e t)) in
   find_window_polls wanted_pid title_hint polls)%M.

Definition console_classes : list string :=
  ["ConsoleWindowClass"; "PseudoConsoleWindow";
   "CASCADIA_HOSTING_WINDOW_CLASS"; "Cascadia_HOSTING_WINDOW_CLASS"].

(** [abs(a - b) < tolerance] on both coordinates of the position. *)
Definition position_ok (r : Rect) (x y tolerance : Z) : bool :=
  (Z.abs (left r - x) <? tolerance) && (Z.abs (top r - y) <? tolerance).

Definition size_ok (r : Rect) (width height tolerance : Z) : bool :=
  (Z.abs ((right r - left r) - width) <? tolerance) &&
  (Z.abs ((bottom r - top r) - height) <? tolerance).

(** The loop [for attempt in range(3)] of [move_window] for console
    windows, left by [break] once the position is within tolerance. *)
Fixpoint console_attempts (hwnd x y width height tolerance : Z)
    (remaining : nat) (attempt : Z) : M unit :=
  match remaining with
  | O => ret tt
  | S remaining' =>
      ((if 0 <? attempt then sleep 200 else ret tt) ;;
       try_except
         (os_call (SetForegroundWindow hwnd) set_foreground_window ;;
          sleep 50)
         any_exception (fun _ => ret tt) ;;
       try_except
         (os_call (MoveWindow hwnd x y width height) move_window_call ;;
          sleep 150)
         any_exception (fun _ => ret tt) ;;
       try_except
         (os_call
            (SetWindowPos hwnd 0 x y width height
               (Z.lor SWP_NOACTIVATE SWP_NOZORDER))
            set_window_pos ;;
          sleep 150)
         any_exception (fun _ => ret tt) ;;
       try_except
         (os_call
            (SetWindowPos hwnd HWND_TOP 0 0 width height
               (Z.lor SWP_NOMOVE SWP_NOACTIVATE))
            set_window_pos ;;
          sleep 100 ;;
          os_call
            (SetWindowPos hwnd 0 x y 0 0
               (Z.lor (Z.lor SWP_NOSIZE SWP_NOACTIVATE) SWP_NOZORDER))
            set_window_pos ;;
          sleep 150)
         any_exception (fun _ => ret tt) ;;
       let* check_rect := os_call (GetWindowRect hwnd) window_rect in
       if position_ok check_rect x y tolerance then ret tt
       else console_attempts hwnd x y width height tolerance remaining'
              (attempt + 1))%M
  end.

(** [tolerance = 100 if is_console else 50]. *)
Definition tolerance_of (is_console : bool) : Z :=
  if is_console then 100 else 50.

(** [move_window] up to and including the final [GetWindowRect]: class
    detection, restore, the positioning attempts and the readback.  Yields
    [is_console] and [new_rect]. *)
Definition move_window_readback (hwnd x y width height : Z)
    : M (bool * Rect) :=
  (let* class_name := get_class_name_safe hwnd in
   let is_console := bool_decide (class_name ∈ console_classes) in
   let tolerance := tolerance_of is_console in
   os_call (ShowWindow hwnd SW_RESTORE) show_window ;;
   sleep 150 ;;
   (if is_console then
      console_attempts hwnd x y width height tolerance 3 0
    else
      os_call (SetWindowPos hwnd HWND_TOP x y width height SWP_SHOWWINDOW)
        set_window_pos ;;
      sleep 100) ;;
   sleep 150 ;;
   let* new_rect := os_call (GetWindowRect hwnd) window_rect in
   ret (is_console, new_rect))%M.

(** The [if position_ok and size_ok / elif size_ok and not position_ok /
    else] that ends [move_window]. *)
Definition verify_move (is_console : bool) (new_rect : Rect)
    (x y width height : Z) : bool :=
  let tolerance := tolerance_of is_console in
  let pos_ok := position_ok new_rect x y tolerance in
  let sz_ok := size_ok new_rect width height tolerance in
  if pos_ok && sz_ok then true
  else if sz_ok && negb pos_ok then is_console
  else false.

Definition move_window (hwnd x y width height : Z) : M bool :=
  try_except
    (let* read := move_window_readback hwnd x y width height in
     ret (verify_move (fst read) (snd read) x y width height))%M
    any_exception
    (fun _ => ret false).

Definition restore_window (hwnd : Z) : M bool :=
  try_except
    (os_call (ShowWindow hwnd SW_RESTORE) show_window ;; ret true)%M
    any_exception (fun _ => ret false).

Definition minimize_window (hwnd : Z) : M bool :=
  try_except
    (os_call (ShowWindow hwnd SW_MINIMIZE) show_window ;; ret true)%M
    any_exception (fun _ => ret false).

Definition maximize_window (hwnd : Z) : M bool :=
  try_except
    (os_call (ShowWindow hwnd SW_MAXIMIZE) show_window ;; ret true)%M
    any_exception (fun _ => ret false).

Definition get_window_rect (hwnd : Z) : M (option Rect) :=
  try_except
    (let* r := os_call (GetWindowRect hwnd) window_rect in ret (Some r))%M
    any_exception (fun _ => ret None).

Definition is_window_responding (hwnd : Z) (timeout_ms : Z) : M bool :=
  try_except
    (os_call (SendMessageTimeout hwnd timeout_ms) send_message_timeout)
    any_exception (fun _ => ret false).

Definition WM_CLOSE : Z := 0x0010.

Definition bring_window_to_front (hwnd : Z) : M bool :=
  try_except
    (let* iconic := os_call (IsIconic hwnd) is_iconic in
     (if iconic then os_call (ShowWindow hwnd SW_RESTORE) show_window
      else ret tt) ;;
     os_call (SetForegroundWindow hwnd) set_foreground_window ;;
     os_call (BringWindowToTop hwnd) bring_window_to_top ;;
     ret true)%M
    any_exception (fun _ => ret false).

Definition close_window (hwnd : Z) (force : bool) : M bool :=
  try_except
    ((if negb force then os_call (PostMessage hwnd WM_CLOSE) post_message
      else
        let* pid := os_call (GetWindowThreadProcessId hwnd) window_pid in
        os_call (ProcessTerminate pid) process_terminate) ;;
     ret true)%M
    any_exception (fun _ => ret false).

Definition find_windows_by_exe (exe_name : string) : M (list WindowInfo.t) :=
  (let* name_of := ask path_name in
   let exe_name_lower := lower (name_of exe_name) in
   let* windows := enumerate_windows in
   ret (filter
          (fun window =>
             match WindowInfo.exe_path window with
             | Some p =>
                 truthy_str (Some p) &&
                 String.eqb (lower (name_of p)) exe_name_lower
             | None => false
             end = true)
          windows))%M.

Record Monitor : Type := mkMonitor {
  handle : Z;
  monitor_rect : Rect;
  work_area : Rect;
  is_primary : bool;
  device : string
}.

Definition monitor_enum_callback (monitors : list Monitor)
    (hmon_rect : Z * Rect) : M (list Monitor) :=
  try_except
    (let* info := os_call (GetMonitorInfo (fst hmon_rect))
                    get_monitor_info_call in
     ret (monitors ++
          [mkMonitor (fst hmon_rect) (snd hmon_rect) (fst (fst info))
             (snd (fst info) =? 1) (snd info)])%list)%M
    any_exception (fun _ => ret monitors).

Fixpoint monitor_enum_callbacks (monitors : list Monitor)
    (found : list (Z * Rect)) : M (list Monitor) :=
  match found with
  | [] => ret monitors
  | m :: found' =>
      (let* monitors' := monitor_enum_callback monitors m in
       monitor_enum_callbacks monitors' found')%M
  end.

Definition get_monitor_info : M (list Monitor) :=
  (let* answer :=
     os_call EnumDisplayMonitors (fun e t => Ok (enum_display_monitors e t)) in
   monitor_enum_callbacks [] (fst answer))%M.

Definition get_primary_monitor_rect : M Rect :=
  (let* monitors := get_monitor_info in
   match filter (fun m => is_primary m = true) monitors with
   | m :: _ => ret (work_area m)
   | [] =>
       match monitors with
       | m :: _ => ret (work_area m)
       | [] => ret (mkRect 0 0 1920 1080)
       end
   end)%M.

End WindowsApi.

(** ** capture.py *)

Module WorkspaceCapturer.

Definition system_processes : list string :=
  ["explorer.exe"; "searchui.exe"; "searchapp.exe";
   "shellexperiencehost.exe"; "systemsettings.exe";
   "textinputhost.exe"; "lockapp.exe"].

(** The body of the loop of [_filter_system_windows]: [true] when the window
    is skipped by one of the two [continue] statements. *)
Definition skips (env : Env) (window : WindowInfo.t) : bool :=
  match WindowInfo.exe_path window with
  | Some p =>
      if truthy_str (Some p) then
        let exe_name := lower (path_name env p) in
        if bool_decide (exe_name ∈ system_processes) then true
        else if String.eqb (WindowInfo.title window) ""
                || strip_is_empty (WindowInfo.title window)
        then true
        else false
      else false
  | None => false
  end.

Fixpoint _filter_system_windows (env : Env) (windows : list WindowInfo.t)
    : list WindowInfo.t :=
  match windows with
  | [] => []
  | window :: windows' =>
      if skips env window then _filter_system_windows env windows'
      else window :: _filter_system_windows env windows'
  end.

(** The attributes of a capturer. *)
Record t : Type := mk {
  vd_manager : VirtualDesktopManager.t;
  captured_windows : list WindowInfo.t;
  selected_windows : list WindowInfo.t
}.

(** [grouped[desktop].append(window)], creating the entry on first use; the
    dictionary is kept in insertion order. *)
Fixpoint window_group_insert (grouped : list (Z * list WindowInfo.t))
    (desktop : Z) (window : WindowInfo.t) : list (Z * list WindowInfo.t) :=
  match grouped with
  | [] => [(desktop, [window])]
  | (d, windows) :: grouped' =>
      if d =? desktop then (d, windows ++ [window])%list :: grouped'
      else (d, windows) :: window_group_insert grouped' desktop window
  end.

(** [if desktop == -1: desktop = 0]. *)
Definition known_desktop (desktop : Z) : Z :=
  if desktop =? -1 then 0 else desktop.

(** The loop [for window in self.captured_windows] of
    [_group_windows_by_desktop]. *)
Fixpoint group_windows (self : t) (windows : list WindowInfo.t)
    (grouped : list (Z * list WindowInfo.t))
    : M (list (Z * list WindowInfo.t)) :=
  match windows with
  | [] => ret grouped
  | window :: windows' =>
      (let* desktop :=
         VirtualDesktopManager.get_window_desktop (vd_manager self)
           (WindowInfo.hwnd window) in
       group_windows self windows'
         (window_group_insert grouped (known_desktop desktop) window))%M
  end.

Definition _group_windows_by_desktop (self : t)
    : M (list (Z * list WindowInfo.t)) :=
  group_windows self (captured_windows self) [].

Definition TODO_EXECUTABLE_PATH : string := "TODO_EXECUTABLE_PATH".

(** [window.exe_path or (proc_info['exe'] if proc_info else None)], then
    the placeholder when that is still empty. *)
Definition captured_exe (window : WindowInfo.t) (proc_info : option ProcInfo)
    : string :=
  let exe_path :=
    if truthy_str (WindowInfo.exe_path window) then WindowInfo.exe_path window
    else proc_exe <$> proc_info in
  match exe_path with
  | Some p => if truthy_str exe_path then p else TODO_EXECUTABLE_PATH
  | None => TODO_EXECUTABLE_PATH
  end.

(** [cmdline[1:]] when the command line has more than one item. *)
Definition captured_args (proc_info : option ProcInfo) : list string :=
  match proc_info with
  | Some info =>
      if bool_decide (1 < length (proc_cmdline info))%nat
      then tail (proc_cmdline info)
      else []
  | None => []
  end.

(** The body of the loop of [_create_workspace_from_windows] for
    [interactive=False]: the app built from window number [idx].
    [path_stem] is [Path(p).stem]. *)
Definition capture_app (path_stem : string -> string) (self : t) (idx : nat)
    (window : WindowInfo.t) : M AppInstance.t :=
  (let* desktop :=
     VirtualDesktopManager.get_window_desktop (vd_manager self)
       (WindowInfo.hwnd window) in
   let desktop := known_desktop desktop in
   let* proc_info := WindowsApi.get_process_info (WindowInfo.pid window) in
   let exe_path := captured_exe window proc_info in
   let args := captured_args proc_info in
   let working_dir := proc_cwd <$> proc_info in
   let exe_name :=
     if String.eqb exe_path TODO_EXECUTABLE_PATH then "app"
     else path_stem exe_path in
   let app_id := exe_name +:+ "_" +:+ pretty idx in
   let rect := WindowInfo.rect window in
   let window_config :=
     WindowConfig.mk (left rect) (top rect) (right rect - left rect)
       (bottom rect - top rect) in
   ret (AppInstance.mk app_id exe_path args working_dir desktop
          window_config))%M.

(** The loop [for idx, window in enumerate(windows, 1)]. *)
Fixpoint capture_apps (path_stem : string -> string) (self : t) (idx : nat)
    (windows : list WindowInfo.t) (workspace : Workspace.t)
    : M Workspace.t :=
  match windows with
  | [] => ret workspace
  | window :: windows' =>
      (let* app := capture_app path_stem self idx window in
       capture_apps path_stem self (S idx) windows'
         (Workspace.add_app workspace app))%M
  end.

(** [_create_workspace_from_windows] for [interactive=False]. *)
Definition _create_workspace_from_windows (path_stem : string -> string)
    (self : t) (name description : string) (windows : list WindowInfo.t)
    : M Workspace.t :=
  capture_apps path_stem self 1 windows (Workspace.mk name description []).

(** [capture_workspace] for [interactive=False].  [prompted] is what the
    user answers when the name is asked for, which happens when no name is
    given.  The result comes with the capturer, whose two lists of windows
    the call assigns. *)
Definition capture_workspace (path_stem : string -> string) (self : t)
    (workspace_name : option string) (prompted : string) (include_all : bool)
    : M (option Workspace.t * t) :=
  let workspace_name :=
    if truthy_str workspace_name then workspace_name else Some prompted in
  match workspace_name with
  | Some name =>
      if negb (truthy_str workspace_name) then ret (None, self)
      else
        (let* captured := WindowsApi.enumerate_windows in
         let self := mk (vd_manager self) captured (selected_windows self) in
         match captured with
         | [] => ret (None, self)
         | _ =>
             let* env := ask (fun env => env) in
             let selected :=
               if include_all then captured
               else _filter_system_windows env captured in
             let self := mk (vd_manager self) captured selected in
             match selected with
             | [] => ret (None, self)
             | _ =>
                 let* workspace :=
                   _create_workspace_from_windows path_stem self name ""
                     selected in
                 ret (Some workspace, self)
             end
         end)%M
  | None => ret (None, self)
  end.

End WorkspaceCapturer.

(** ** config.py *)

(** A file-system operation that may fail: logged, numbered, and failing
    with the error that the environment scripts for it. *)
Definition fs_op (c : call) : M unit :=
  os_call c
    (fun env t =>
       match fs_error env t with
       | Some e => Raise e
       | None => Ok tt
       end).

(** [Path(p).exists()] for the files of the configuration store. *)
Definition file_exists (p : string) : M bool :=
  (let* w := get_world in
   ret (bool_decide (is_Some (files w !! p))))%M.

(** [Path(src).replace(dst)]: rename, overwriting the destination. *)
Definition path_replace (src dst : string) : M unit :=
  (fs_op (PathReplace src dst) ;;
   let* w := get_world in
   match files w !! src with
   | None => raise (FileNotFoundError src)
   | Some c => update_world (set_files (<[dst := c]> (delete src (files w))))
   end)%M.

(** [open(p, 'w')]: the file is created or truncated. *)
Definition open_write (p : string) : M unit :=
  (fs_op (OpenWrite p) ;;
   let* w := get_world in
   update_world (set_files (<[p := Malformed ""]> (files w))))%M.

(** [json.dump(data, f)] into the file just opened: when it fails the file
    keeps the text written so far. *)
Definition json_dump (p : string) (data : json) : M unit :=
  fun env w =>
    let w' := log_call (JsonDump p) w in
    match fs_error env (tick w) with
    | Some e =>
        (Raise e,
         set_files (<[p := Malformed (partial_text env (tick w))]> (files w'))
           w')
    | None => (Ok tt, set_files (<[p := Doc data]> (files w')) w')
    end.

(** [with open(p, 'r') as f: json.load(f)]. *)
Definition read_json (p : string) : M json :=
  (fs_op (OpenRead p) ;;
   let* w := get_world in
   match files w !! p with
   | None => raise (FileNotFoundError p)
   | Some (Doc j) => ret j
   | Some (Malformed text) => raise (JSONDecodeError text)
   end)%M.

(** Lifting of a pure result. *)
Definition lift {A} (r : result A) : M A := fun _ w => (r, w).

(** [type(v)] as an f-string prints it. *)
Definition type_repr (v : json) : string :=
  match v with
  | JNull => "<class 'NoneType'>"
  | JBool _ => "<class 'bool'>"
  | JInt _ => "<class 'int'>"
  | JStr _ => "<class 'str'>"
  | JList _ => "<class 'list'>"
  | JDict _ => "<class 'dict'>"
  end.

Definition is_FileNotFoundError (e : exn) : bool :=
  match e with
  | FileNotFoundError _ => true
  | _ => false
  end.

Definition is_PermissionError (e : exn) : bool :=
  match e with
  | PermissionError _ => true
  | _ => false
  end.

Definition is_JSONDecodeError (e : exn) : bool :=
  match e with
  | JSONDecodeError _ => true
  | _ => false
  end.

Module ConfigManager.

Record t : Type := mk { config_file : string }.

Definition backup_file (self : t) : M string :=
  ask (fun env => with_suffix env (config_file self) ".json.bak").

Definition save (self : t) (collection : WorkspaceCollection.t) : M unit :=
  try_except
    (let* target_exists := file_exists (config_file self) in
     (if target_exists then
        let* backup := backup_file self in
        path_replace (config_file self) backup
      else ret tt) ;;
     let data := WorkspaceCollection.to_dict collection in
     let* parent := ask (fun env => path_parent env (config_file self)) in
     fs_op (Mkdir parent) ;;
     open_write (config_file self) ;;
     json_dump (config_file self) (JDict data) ;;
     update_world (set_cfg_collection (Some collection)))%M
    any_exception
    (fun e =>
       (let* backup := backup_file self in
        let* backup_exists := file_exists backup in
        (if backup_exists then path_replace backup (config_file self)
         else ret tt) ;;
        raise (ConfigError ("Error saving configuration: " +:+ str_exn e)))%M).

Definition ensure_config_exists (self : t) : M unit :=
  (let* present := file_exists (config_file self) in
   if negb present then save self (WorkspaceCollection.mk []) else ret tt)%M.

(** The checks that [load] makes on the apps of one workspace. *)
Fixpoint validate_apps (env : Env) (ws_name : json) (app_idx : nat)
    (apps : list json) : result unit :=
  match apps with
  | [] => Ok tt
  | app :: apps' =>
      match app with
      | JDict d =>
          if negb (bool_decide (is_Some (dict_get d "id"))) then
            Raise (ConfigError
                     ("App at index " +:+ pretty app_idx +:+ " in workspace '"
                      +:+ format_json env ws_name +:+ "' missing 'id' field"))
          else if negb (bool_decide (is_Some (dict_get d "exe"))) then
            Raise (ConfigError
                     ("App '"
                      +:+ format_json env
                            (dict_get_default d "id" (JStr "unknown"))
                      +:+ "' in workspace '" +:+ format_json env ws_name
                      +:+ "' missing 'exe' field"))
          else validate_apps env ws_name (S app_idx) apps'
      | _ =>
          Raise (ConfigError
                   ("App at index " +:+ pretty app_idx +:+ " in workspace '"
                    +:+ format_json env ws_name
                    +:+ "' must be a JSON object"))
      end
  end.

(** The checks that [load] makes on the workspaces. *)
Fixpoint validate_workspaces (env : Env) (idx : nat) (wss : list json)
    : result unit :=
  match wss with
  | [] => Ok tt
  | ws :: wss' =>
      match ws with
      | JDict d =>
          match dict_get d "name" with
          | None =>
              Raise (ConfigError
                       ("Workspace at index " +:+ pretty idx
                        +:+ " missing required 'name' field"))
          | Some ws_name =>
              (let* apps := py_iter (dict_get_default d "apps" (JList [])) in
               let* _ := validate_apps env ws_name O apps in
               validate_workspaces env (S idx) wss')%result
          end
      | _ =>
          Raise (ConfigError
                   ("Workspace at index " +:+ pretty idx
                    +:+ " must be a JSON object"))
      end
  end.

Definition load (self : t) : M WorkspaceCollection.t :=
  try_excepts
    (ensure_config_exists self ;;
     let* data := read_json (config_file self) in
     match data with
     | JDict d =>
         let d' :=
           if bool_decide (is_Some (dict_get d "workspaces")) then d
           else [("workspaces", JList [])] in
         let* env := ask (fun env => env) in
         lift (let* wss :=
                 py_iter (dict_get_default d' "workspaces" (JList [])) in
               validate_workspaces env O wss)%result ;;
         let* collection := lift (WorkspaceCollection.from_dict d') in
         update_world (set_cfg_collection (Some collection)) ;;
         ret collection
     | _ =>
         raise (ConfigError
                  ("Configuration file must contain a JSON object, got "
                   +:+ type_repr data))
     end)%M
    [(is_FileNotFoundError,
      fun _ =>
        raise (ConfigError
                 ("Configuration file not found: " +:+ config_file self)));
     (is_JSONDecodeError,
      fun e =>
        raise (ConfigError
                 ("Invalid JSON in configuration file: " +:+ str_exn e)));
     (any_exception,
      fun e =>
        raise (ConfigError ("Error loading configuration: " +:+ str_exn e)))].

(** [if self.collection is None: self.load()], then the collection. *)
Definition loaded_collection (self : t) : M WorkspaceCollection.t :=
  (let* w := get_world in
   match cfg_collection w with
   | Some collection => ret collection
   | None => load self
   end)%M.

Definition add_workspace (self : t) (workspace : Workspace.t)
    (overwrite : bool) : M unit :=
  (let* collection := loaded_collection self in
   let existing :=
     WorkspaceCollection.get_workspace collection (Workspace.name workspace) in
   if bool_decide (is_Some existing) && negb overwrite then
     raise (ConfigError
              ("Workspace '" +:+ Workspace.name workspace
               +:+ "' already exists. Use --overwrite to replace it."))
   else
     let removed :=
       if bool_decide (is_Some existing) then
         fst (WorkspaceCollection.remove_workspace collection
                (Workspace.name workspace))
       else collection in
     update_world (set_cfg_collection (Some removed)) ;;
     let added := WorkspaceCollection.add_workspace removed workspace in
     update_world (set_cfg_collection (Some added)) ;;
     save self added)%M.

Definition remove_workspace (self : t) (name : string) : M bool :=
  (let* collection := loaded_collection self in
   let removal := WorkspaceCollection.remove_workspace collection name in
   update_world (set_cfg_collection (Some (fst removal))) ;;
   if snd removal then save self (fst removal) ;; ret true
   else ret false)%M.

Definition get_workspace (self : t) (name : string)
    : M (option Workspace.t) :=
  (let* collection := loaded_collection self in
   ret (WorkspaceCollection.get_workspace collection name))%M.

Definition list_workspaces (self : t) : M (list string) :=
  (let* collection := loaded_collection self in
   ret (WorkspaceCollection.list_workspace_names collection))%M.

(** [not s or not s.strip()]. *)
Definition empty_or_blank (s : string) : bool :=
  String.eqb s "" || strip_is_empty s.

(** The body of the loop [for app in workspace.apps] of
    [validate_workspace]; the two existence checks only log a warning. *)
Definition validate_app (app : AppInstance.t) (errors : list string)
    : M (list string) :=
  (let errors :=
     if empty_or_blank (AppInstance.id app)
     then (errors ++ ["App ID cannot be empty"])%list
     else errors in
   let errors :=
     if empty_or_blank (AppInstance.exe app)
     then (errors ++ ["App '" +:+ AppInstance.id app
                      +:+ "' has empty executable path"])%list
     else errors in
   os_call (PathExists (AppInstance.exe app)) path_exists ;;
   match AppInstance.working_dir app with
   | Some wd =>
       if truthy_str (Some wd)
       then os_call (PathExists wd) path_exists ;; ret tt
       else ret tt
   | None => ret tt
   end ;;
   let errors :=
     if AppInstance.virtual_desktop app <? 0
     then (errors ++ ["App '" +:+ AppInstance.id app
                      +:+ "' has invalid virtual desktop index: "
                      +:+ pretty (AppInstance.virtual_desktop app)])%list
     else errors in
   let errors :=
     if (WindowConfig.width (AppInstance.window app) <=? 0)
        || (WindowConfig.height (AppInstance.window app) <=? 0)
     then (errors ++ ["App '" +:+ AppInstance.id app
                      +:+ "' has invalid window dimensions"])%list
     else errors in
   ret errors)%M.

Fixpoint validate_each_app (apps : list AppInstance.t) (errors : list string)
    : M (list string) :=
  match apps with
  | [] => ret errors
  | app :: apps' =>
      (let* errors' := validate_app app errors in
       validate_each_app apps' errors')%M
  end.

Definition validate_workspace (self : t) (workspace : Workspace.t)
    : M (list string) :=
  let errors :=
    if empty_or_blank (Workspace.name workspace)
    then ["Workspace name cannot be empty"]
    else [] in
  let app_ids := AppInstance.id <$> Workspace.apps workspace in
  let errors :=
    if bool_decide
         (length app_ids ≠ size (list_to_set app_ids : gset string))
    then (errors ++ ["Duplicate app IDs found in workspace"])%list
    else errors in
  validate_each_app (Workspace.apps workspace) errors.

Definition export_workspace (self : t) (name output_file : string)
    : M unit :=
  (let* workspace := get_workspace self name in
   match workspace with
   | None => raise (ConfigError ("Workspace '" +:+ name +:+ "' not found"))
   | Some ws =>
       try_except
         (let* parent := ask (fun env => path_parent env output_file) in
          fs_op (Mkdir parent) ;;
          open_write output_file ;;
          json_dump output_file (JDict (Workspace.to_dict ws)))
         any_exception
         (fun e =>
            raise (ConfigError
                     ("Failed to export workspace: " +:+ str_exn e)))
   end)%M.

Definition import_workspace (self : t) (input_file : string)
    (overwrite : bool) : M unit :=
  try_excepts
    (let* data := read_json input_file in
     let* workspace :=
       lift (let* d := as_subscriptable data in Workspace.from_dict d)%result in
     let* errors := validate_workspace self workspace in
     match errors with
     | [] => add_workspace self workspace overwrite
     | _ =>
         raise (ConfigError ("Invalid workspace: " +:+ join ", " errors))
     end)%M
    [(is_FileNotFoundError,
      fun _ =>
        raise (ConfigError ("Import file not found: " +:+ input_file)));
     (is_JSONDecodeError,
      fun e =>
        raise (ConfigError ("Invalid JSON in import file: " +:+ str_exn e)));
     (any_exception,
      fun e =>
        raise (ConfigError ("Failed to import workspace: " +:+ str_exn e)))].

End ConfigManager.

(** ** launcher.py *)

(** The double-quote character, as a string. *)
Definition dquote : string := String (ascii_of_nat 34) EmptyString.

Module WorkspaceLauncher.

Record t : Type := mk { vd_manager : VirtualDesktopManager.t }.

(** subprocess constants. *)
Definition DETACHED_PROCESS : Z := 0x00000008.
Definition CREATE_NEW_CONSOLE : Z := 0x00000010.

(** [exe_path] is a [Path] object or a plain string. *)
Inductive exe_ref : Type :=
| AsPath (p : string)
| AsStr (s : string).

Definition call_which (name : string) : M (option string) :=
  os_call (Which name) which.

(** [Path(p).exists()] for a path of the machine. *)
Definition call_exists (p : string) : M bool :=
  os_call (PathExists p) path_exists.

(** The special cases cmd, powershell and wt. *)
Definition special_exe (app : AppInstance.t) : M exe_ref :=
  let exe_lower := lower (AppInstance.exe app) in
  if bool_decide
       (exe_lower ∈ ["cmd"; "cmd.exe"; "powershell"; "powershell.exe";
                     "wt"; "wt.exe"])
  then
    if startswith exe_lower "cmd" then
      ret (AsPath "C:/Windows/System32/cmd.exe")
    else if startswith exe_lower "powershell" then
      ret (AsPath "C:/Windows/System32/WindowsPowerShell/v1.0/powershell.exe")
    else if startswith exe_lower "wt" then
      (let* wt_found := call_which "wt.exe" in
       match wt_found with
       | Some found =>
           if truthy_str wt_found then
             if contains "WindowsApps" found then ret (AsStr "wt.exe")
             else ret (AsPath found)
           else ret (AsStr "wt.exe")
       | None => ret (AsStr "wt.exe")
       end)%M
    else ret (AsPath (AppInstance.exe app))
  else ret (AsPath (AppInstance.exe app)).

(** The lookup in PATH of a relative path that does not exist, and the
    existence check that only logs a warning. *)
Definition lookup_in_path (app : AppInstance.t) (exe_path : exe_ref)
    : M exe_ref :=
  match exe_path with
  | AsPath p =>
      (let* present := call_exists p in
       let* absolute := ask (fun env => path_is_absolute env p) in
       let* p' :=
         if negb present && negb absolute then
           let* as_text := ask (fun env => path_str env p) in
           let* found_path := call_which as_text in
           match found_path with
           | Some found => if truthy_str found_path then ret found else ret p
           | None => ret p
           end
         else ret p in
       call_exists p' ;;
       ret (AsPath p'))%M
  | AsStr _ => ret exe_path
  end.

Definition exe_text (env : Env) (exe_path : exe_ref) : string :=
  match exe_path with
  | AsPath p => path_str env p
  | AsStr s => s
  end.

Definition creation_flags (exe_lower : string) : Z :=
  if contains "wt.exe" exe_lower || String.eqb "wt" exe_lower
     || contains "windowsterminal" exe_lower
  then DETACHED_PROCESS
  else if contains "cmd.exe" exe_lower || contains "powershell.exe" exe_lower
  then CREATE_NEW_CONSOLE
  else DETACHED_PROCESS.

(** The loop that drops every [-d] and the argument after it. *)
Fixpoint filter_d_args (skip_next : bool) (args : list string)
    : list string :=
  match args with
  | [] => []
  | arg :: args' =>
      if skip_next then filter_d_args false args'
      else if String.eqb arg "-d" then filter_d_args true args'
      else arg :: filter_d_args false args'
  end.

Definition quote_arg (arg : string) : string :=
  if contains " " arg then dquote +:+ arg +:+ dquote else arg.

(** What is handed to [subprocess.Popen]. *)
Record launch_plan : Type := mkPlan {
  cmd : list string;     (* the argument vector, or the one shell command *)
  use_shell : bool;
  creationflags : Z;
  cwd : option string;
  is_windows_terminal : bool
}.

(** The working directory, when it is given and exists. *)
Definition usable_working_dir (app : AppInstance.t) : M bool :=
  match AppInstance.working_dir app with
  | Some wd =>
      if truthy_str (Some wd) then call_exists wd else ret false
  | None => ret false
  end.

Definition prepare_launch (app : AppInstance.t) : M launch_plan :=
  (let* exe_path0 := special_exe app in
   let* exe_path := lookup_in_path app exe_path0 in
   let* exe_str := ask (fun env => exe_text env exe_path) in
   let cmd0 := exe_str :: AppInstance.args app in
   let flags := creation_flags (lower exe_str) in
   let* cwd_ok := usable_working_dir app in
   let* cwd0 :=
     match AppInstance.working_dir app with
     | Some wd =>
         if cwd_ok then
           let* as_text := ask (fun env => path_str env wd) in
           ret (Some as_text)
         else ret None
     | None => ret None
     end in
   let direct := mkPlan cmd0 false flags cwd0 false in
   match exe_path with
   | AsStr s =>
       if String.eqb (lower s) "wt.exe" then
         let* wt_location := call_which "wt.exe" in
         match wt_location with
         | Some location =>
             if truthy_str wt_location && contains "WindowsApps" location
             then
               let* wd_ok := usable_working_dir app in
               let cmd_d :=
                 match AppInstance.working_dir app with
                 | Some wd =>
                     if wd_ok then
                       "wt.exe" +:+ " -d " +:+ dquote +:+ wd +:+ dquote
                     else "wt.exe"
                 | None => "wt.exe"
                 end in
               let cwd1 := if wd_ok then None else cwd0 in
               let filtered_args :=
                 filter_d_args false (AppInstance.args app) in
               let cmd_str :=
                 match filtered_args with
                 | [] => cmd_d
                 | _ => cmd_d +:+ " " +:+ join " " (quote_arg <$> filtered_args)
                 end in
               ret (mkPlan [cmd_str] true flags cwd1 true)
             else ret direct
         | None => ret direct
         end
       else ret direct
   | AsPath _ => ret direct
   end)%M.

(** A window handle used as a condition: [None] and [0] are false. *)
Definition truthy_hwnd (h : option Z) : bool :=
  match h with
  | Some n => negb (n =? 0)
  | None => false
  end.

(** The loop [for retry in range(max_retries)] that looks for the new
    window; it yields the value of the variable [hwnd] when the loop is
    left.  The [windows_before.add(hwnd)] that precedes the second [break]
    updates a local set that is not read again. *)
Fixpoint find_new_window (pid : Z) (window_timeout : Z)
    (windows_before : gset Z) (remaining : nat) (retry : Z)
    (hwnd : option Z) : M (option Z) :=
  match remaining with
  | O => ret hwnd
  | S remaining' =>
      ((if 0 <? retry then sleep 2000 else ret tt) ;;
       let* by_pid := WindowsApi.find_window_by_pid pid window_timeout None in
       if truthy_hwnd by_pid then ret by_pid
       else
         sleep 1000 ;;
         let* windows_now := WindowsApi.enumerate_windows in
         match
           filter (fun w => WindowInfo.hwnd w ∉ windows_before) windows_now
         with
         | new_window :: _ => ret (Some (WindowInfo.hwnd new_window))
         | [] =>
             find_new_window pid window_timeout windows_before remaining'
               (retry + 1) by_pid
         end)%M
  end.

(** The three [except] clauses of [_launch_app]. *)
Definition launch_error (e : exn) : string :=
  if is_FileNotFoundError e then "Executable not found: " +:+ str_exn e
  else if is_PermissionError e then "Permission denied: " +:+ str_exn e
  else str_exn e.

(** [_launch_app] before the process is started: the command is prepared,
    the desktop is switched to unless that was done for the group, and the
    handles of the windows that exist are recorded. *)
Definition before_popen (self : t) (app : AppInstance.t) (desktop_index : Z)
    (skip_desktop_switch : bool) : M (launch_plan * gset Z) :=
  (let* plan := prepare_launch app in
   (if negb skip_desktop_switch then
      VirtualDesktopManager.switch_to_desktop (vd_manager self)
        desktop_index ;;
      sleep 300
    else ret tt) ;;
   let* before := WindowsApi.enumerate_windows in
   ret (plan, list_to_set (WindowInfo.hwnd <$> before)))%M.

(** [subprocess.Popen(cmd, ...)] and [process.pid]. *)
Definition start_process (plan : launch_plan) : M Z :=
  os_call (Popen (cmd plan) (use_shell plan) (creationflags plan) (cwd plan))
    popen.

(** The search for the window of the process just started. *)
Definition locate_window (plan : launch_plan) (pid : Z)
    (windows_before : gset Z) : M (option Z) :=
  let max_retries := if is_windows_terminal plan then 5%nat else 3%nat in
  let window_timeout := if is_windows_terminal plan then 3000 else 2000 in
  find_new_window pid window_timeout windows_before max_retries 0 None.

(** [_launch_app] once the window is found: it is moved to its desktop,
    restored, positioned and probed; no result is looked at. *)
Definition arrange_window (self : t) (app : AppInstance.t)
    (desktop_index h : Z) : M unit :=
  (VirtualDesktopManager.move_window_to_desktop (vd_manager self) h
     desktop_index ;;
   sleep 500 ;;
   WindowsApi.restore_window h ;;
   sleep 200 ;;
   WindowsApi.move_window h
     (WindowConfig.x (AppInstance.window app))
     (WindowConfig.y (AppInstance.window app))
     (WindowConfig.width (AppInstance.window app))
     (WindowConfig.height (AppInstance.window app)) ;;
   WindowsApi.is_window_responding h 5000 ;;
   ret tt)%M.

Definition window_not_detected : string :=
  "Window not detected (app may be running in background or loading)".

Definition _launch_app (self : t) (app : AppInstance.t) (desktop_index : Z)
    (skip_desktop_switch : bool) : M LaunchResult.t :=
  try_except
    (let* prepared :=
       before_popen self app desktop_index skip_desktop_switch in
     let* pid := start_process (fst prepared) in
     let* hwnd := locate_window (fst prepared) pid (snd prepared) in
     match hwnd with
     | Some h =>
         if truthy_hwnd hwnd then
           arrange_window self app desktop_index h ;;
           ret (LaunchResult.mk (AppInstance.id app) true (Some pid) (Some h)
                  None)
         else
           ret (LaunchResult.mk (AppInstance.id app) true (Some pid) None
                  (Some window_not_detected))
     | None =>
         ret (LaunchResult.mk (AppInstance.id app) true (Some pid) None
                (Some window_not_detected))
     end)%M
    any_exception
    (fun e =>
       ret (LaunchResult.mk (AppInstance.id app) false None None
              (Some (launch_error e)))).

(** [grouped[desktop].append(app)], creating the entry on first use; the
    dictionary is kept in insertion order. *)
Fixpoint group_insert (grouped : list (Z * list AppInstance.t))
    (desktop : Z) (app : AppInstance.t) : list (Z * list AppInstance.t) :=
  match grouped with
  | [] => [(desktop, [app])]
  | (d, apps) :: grouped' =>
      if d =? desktop then (d, apps ++ [app])%list :: grouped'
      else (d, apps) :: group_insert grouped' desktop app
  end.

Definition _group_apps_by_desktop (apps : list AppInstance.t)
    : list (Z * list AppInstance.t) :=
  foldl (fun grouped app =>
           group_insert grouped (AppInstance.virtual_desktop app) app)
    [] apps.

(** [apps_by_desktop[desktop_idx]]. *)
Fixpoint group_get (grouped : list (Z * list AppInstance.t)) (desktop : Z)
    : list AppInstance.t :=
  match grouped with
  | [] => []
  | (d, apps) :: grouped' =>
      if d =? desktop then apps else group_get grouped' desktop
  end.

Definition append_result (result : LaunchResult.t) : M unit :=
  update_world
    (fun w => set_launch_results (launch_results w ++ [result])%list w).

(** The inner loop [for app in apps] of [launch_workspace]. *)
Fixpoint launch_group (self : t) (dry_run sequential : bool)
    (desktop_idx : Z) (apps : list AppInstance.t) : M unit :=
  match apps with
  | [] => ret tt
  | app :: apps' =>
      (let* result :=
         if dry_run then
           ret (LaunchResult.mk (AppInstance.id app) true None None
                  (Some "Dry run - not launched"))
         else _launch_app self app desktop_idx true in
       append_result result ;;
       (if sequential && negb dry_run then sleep 2000 else ret tt) ;;
       launch_group self dry_run sequential desktop_idx apps')%M
  end.

(** The outer loop [for desktop_idx in sorted(apps_by_desktop.keys())]. *)
Fixpoint launch_groups (self : t) (dry_run sequential : bool)
    (apps_by_desktop : list (Z * list AppInstance.t)) (keys : list Z)
    : M unit :=
  match keys with
  | [] => ret tt
  | desktop_idx :: keys' =>
      let apps := group_get apps_by_desktop desktop_idx in
      ((if negb dry_run && bool_decide (0 < length apps)%nat then
          VirtualDesktopManager.switch_to_desktop (vd_manager self)
            desktop_idx ;;
          sleep 500
        else ret tt) ;;
       launch_group self dry_run sequential desktop_idx apps ;;
       launch_groups self dry_run sequential apps_by_desktop keys')%M
  end.

Definition launch_workspace (self : t) (workspace : Workspace.t)
    (dry_run sequential : bool) : M bool :=
  match Workspace.apps workspace with
  | [] => ret true
  | _ =>
      (update_world (set_launch_results []) ;;
       let required_desktops := Workspace.get_required_desktops workspace in
       (if negb dry_run then
          VirtualDesktopManager.ensure_desktop_count (vd_manager self)
            required_desktops ;;
          ret tt
        else ret tt) ;;
       let apps_by_desktop :=
         _group_apps_by_desktop (Workspace.apps workspace) in
       launch_groups self dry_run sequential apps_by_desktop
         (merge_sort Z.le (fst <$> apps_by_desktop)) ;;
       let* w := get_world in
       let critical_failures :=
         filter (fun r => LaunchResult.success r = false) (launch_results w) in
       ret (bool_decide (length critical_failures = 0%nat)))%M
  end.

Definition get_failed_apps (results : list LaunchResult.t) : list string :=
  LaunchResult.app_id <$>
    filter (fun r => LaunchResult.success r = false) results.

(** The loop [for app in failed_apps] of [retry_failed_apps], threading
    [all_success]. *)
Fixpoint retry_apps (self : t) (failed_apps : list AppInstance.t)
    (all_success : bool) : M bool :=
  match failed_apps with
  | [] => ret all_success
  | app :: failed_apps' =>
      (let* result :=
         _launch_app self app (AppInstance.virtual_desktop app) false in
       append_result result ;;
       sleep 1000 ;;
       retry_apps self failed_apps'
         (if LaunchResult.success result then all_success else false))%M
  end.

Definition retry_failed_apps (self : t) (workspace : Workspace.t) : M bool :=
  (let* w := get_world in
   let failed_ids := get_failed_apps (launch_results w) in
   match failed_ids with
   | [] => ret true
   | _ =>
       let failed_apps :=
         filter (fun app => AppInstance.id app ∈ failed_ids)
           (Workspace.apps workspace) in
       update_world
         (set_launch_results
            (filter (fun r => LaunchResult.app_id r ∉ failed_ids)
               (launch_results w))) ;;
       retry_apps self failed_apps true
   end)%M.

End WorkspaceLauncher.

(** ** cli.py *)

Definition is_ConfigError (e : exn) : bool :=
  match e with
  | ConfigError _ => true
  | _ => false
  end.

Module WorkspaceCLI.

Record t : Type := mk {
  launcher : WorkspaceLauncher.t;
  capturer : WorkspaceCapturer.t
}.

(** [s[0]]; the [IndexError] of the empty string is an [OtherError]. *)
Definition first_char (s : string) : result ascii :=
  match s with
  | String c _ => Ok c
  | EmptyString => Raise (OtherError "string index out of range")
  end.

(** [n[0].lower() == name[0].lower()]. *)
Definition same_initial (name n : string) : result bool :=
  (let* cn := first_char n in
   let* c := first_char name in
   Ok (Ascii.eqb (lower_ascii cn) (lower_ascii c)))%result.

(** The names found are only printed. *)
Definition _suggest_similar_workspace (config_manager : ConfigManager.t)
    (name : string) : M unit :=
  (let* all_names := ConfigManager.list_workspaces config_manager in
   match all_names with
   | [] => ret tt
   | _ =>
       lift (let* similar := rmap (same_initial name) all_names in
             Ok tt)%result
   end)%M.

(** Every command starts by assigning [config_manager.config_file]: the
    manager it uses is the one of the file named by [config].  The value is
    the exit code. *)
Definition cmd_launch (self : t) (config name : string)
    (dry_run sequential retry_failed : bool) : M Z :=
  let config_manager := ConfigManager.mk config in
  try_except
    (let* workspace := ConfigManager.get_workspace config_manager name in
     match workspace with
     | None =>
         _suggest_similar_workspace config_manager name ;;
         ret 1
     | Some ws =>
         let* success :=
           WorkspaceLauncher.launch_workspace (launcher self) ws dry_run
             sequential in
         (if retry_failed && negb dry_run then
            let* w := get_world in
            match WorkspaceLauncher.get_failed_apps (launch_results w) with
            | [] => ret tt
            | _ =>
                WorkspaceLauncher.retry_failed_apps (launcher self) ws ;;
                ret tt
            end
          else ret tt) ;;
         ret (if success then 0 else 1)
     end)%M
    any_exception
    (fun _ => ret 1).

(** [cmd_capture] when no window is picked by hand: [args.interactive] is
    off or [args.all] is set, so that [capture_workspace] is called with
    [interactive=False].  [prompted] is the name typed when [args.name] is
    missing.  The lists that the capture stores in the capturer are not read
    again by the command. *)
Definition cmd_capture (path_stem : string -> string) (self : t)
    (config : string) (name : option string) (prompted : string)
    (all overwrite : bool) : M Z :=
  try_excepts
    (let* captured :=
       WorkspaceCapturer.capture_workspace path_stem (capturer self) name
         prompted all in
     match fst captured with
     | None => ret 1
     | Some workspace =>
         ConfigManager.add_workspace (ConfigManager.mk config) workspace
           overwrite ;;
         ret 0
     end)%M
    [(is_ConfigError, fun _ => ret 1); (any_exception, fun _ => ret 1)].

Definition cmd_export (self : t) (config name output : string) : M Z :=
  try_excepts
    (ConfigManager.export_workspace (ConfigManager.mk config) name output ;;
     ret 0)%M
    [(is_ConfigError, fun _ => ret 1); (any_exception, fun _ => ret 1)].

Definition cmd_import (self : t) (config file : string) (overwrite : bool)
    : M Z :=
  try_excepts
    (ConfigManager.import_workspace (ConfigManager.mk config) file
       overwrite ;;
     ret 0)%M
    [(is_ConfigError, fun _ => ret 1); (any_exception, fun _ => ret 1)].

(** The loop [for workspace in collection.workspaces] of [cmd_validate],
    threading [all_valid]. *)
Fixpoint validate_all (config_manager : ConfigManager.t)
    (workspaces : list Workspace.t) (all_valid : bool) : M bool :=
  match workspaces with
  | [] => ret all_valid
  | workspace :: workspaces' =>
      (let* errors :=
         ConfigManager.validate_workspace config_manager workspace in
       validate_all config_manager workspaces'
         (match errors with [] => all_valid | _ => false end))%M
  end.

Definition cmd_validate (self : t) (config : string) (name : option string)
    : M Z :=
  let config_manager := ConfigManager.mk config in
  try_except
    (let* collection := ConfigManager.load config_manager in
     match name with
     | Some n =>
         if truthy_str name then
           match WorkspaceCollection.get_workspace collection n with
           | None => ret 1
           | Some workspace =>
               let* errors :=
                 ConfigManager.validate_workspace config_manager workspace in
               match errors with
               | [] => ret 0
               | _ => ret 1
               end
           end
         else
           let* all_valid :=
             validate_all config_manager
               (WorkspaceCollection.workspaces collection) true in
           ret (if all_valid then 0 else 1)
     | None =>
         let* all_valid :=
           validate_all config_manager
             (WorkspaceCollection.workspaces collection) true in
         ret (if all_valid then 0 else 1)
     end)%M
    any_exception
    (fun _ => ret 1).

End WorkspaceCLI.

(** ** Vocabulary of the statements *)

(** The computation returns a value, whatever the world it starts in. *)
Definition never_raises {A} (m : M A) : Prop :=
  forall env w, exists a w', m env w = (Ok a, w').

(** In environment [env], from world [w], the computation raises [e]. *)
Definition raises {A} (m : M A) (env : Env) (w : World) (e : exn) : Prop :=
  exists w', m env w = (Raise e, w').

(** The text before the last dot of [s], when [s] has a dot. *)
Fixpoint before_last_dot (s : string) : option string :=
  match s with
  | EmptyString => None
  | String c s' =>
      match before_last_dot s' with
      | Some t => Some (String c t)
      | None => if Ascii.eqb c "." then Some EmptyString else None
      end
  end.

(** [Path(p).with_suffix(suffix)] for a file name given without directory:
    the last extension, if there is one, is replaced. *)
Definition replace_suffix (p suffix : string) : string :=
  default p (before_last_dot p) +:+ suffix.

(** An environment in which every call answers with an exception; used to
    build concrete worlds. *)
Definition failing_env : Env :=
  let boom {A} : nat -> result A := fun _ => Raise (OSError "boom") in
  {| get_virtual_desktops := boom;
     virtual_desktop_create := boom;
     virtual_desktop_new := boom;
     virtual_desktop_go := boom;
     virtual_desktop_current := boom;
     app_view_move := boom;
     app_view_desktop := boom;
     app_view_pin := boom;
     app_view_unpin := boom;
     app_view_is_pinned := boom;
     keybd_event := boom;
     window_text := boom;
     class_name_of := boom;
     is_window_visible := boom;
     window_long := boom;
     window_rect := boom;
     window_pid := boom;
     psutil_process := boom;
     enum_windows := fun _ => ([], None);
     show_window := boom;
     set_foreground_window := boom;
     move_window_call := boom;
     set_window_pos := boom;
     send_message_timeout := boom;
     is_iconic := boom;
     bring_window_to_top := boom;
     post_message := boom;
     process_terminate := boom;
     enum_display_monitors := fun _ => ([], None);
     get_monitor_info_call := boom;
     which := boom;
     path_exists := boom;
     popen := boom;
     subprocess_run := boom;
     polls_before_timeout := fun _ => O;
     fs_error := fun _ => Some (OSError "boom");
     partial_text := fun _ => "";
     path_name := fun p => p;
     path_str := fun p => p;
     path_parent := fun _ => ".";
     path_is_absolute := fun _ => false;
     with_suffix := replace_suffix;
     format_json := fun _ => "" |}.

(** The world before any call. *)
Definition start : World :=
  {| tick := O; calls := []; files := ∅; cfg_collection := None;
     launch_results := [] |}.

(** An environment in which every call succeeds: three desktops, no
    top-level window enumerated, a file system without errors, paths taken as
    they are written; a window that is asked for has class [cls] and
    rectangle [r]. *)
Definition window_env (cls : string) (r : Rect) : Env :=
  {| get_virtual_desktops := fun _ => Ok 3%nat;
     virtual_desktop_create := fun _ => Ok tt;
     virtual_desktop_new := fun _ => Ok tt;
     virtual_desktop_go := fun _ => Ok tt;
     virtual_desktop_current := fun _ => Ok 1;
     app_view_move := fun _ => Ok tt;
     app_view_desktop := fun _ => Ok 1;
     app_view_pin := fun _ => Ok tt;
     app_view_unpin := fun _ => Ok tt;
     app_view_is_pinned := fun _ => Ok false;
     keybd_event := fun _ => Ok tt;
     window_text := fun _ => Ok "window";
     class_name_of := fun _ => Ok cls;
     is_window_visible := fun _ => Ok true;
     window_long := fun _ => Ok WS_VISIBLE;
     window_rect := fun _ => Ok r;
     window_pid := fun _ => Ok 4242;
     psutil_process := fun _ => Ok (mkProcInfo "app.exe" "C:/app.exe" [] "C:/");
     enum_windows := fun _ => ([], None);
     show_window := fun _ => Ok tt;
     set_foreground_window := fun _ => Ok tt;
     move_window_call := fun _ => Ok tt;
     set_window_pos := fun _ => Ok tt;
     send_message_timeout := fun _ => Ok true;
     is_iconic := fun _ => Ok false;
     bring_window_to_top := fun _ => Ok tt;
     post_message := fun _ => Ok tt;
     process_terminate := fun _ => Ok tt;
     enum_display_monitors := fun _ => ([], None);
     get_monitor_info_call := fun _ => Ok (mkRect 0 0 1920 1080, 1, "DISPLAY1");
     which := fun _ => Ok None;
     path_exists := fun _ => Ok true;
     popen := fun _ => Ok 4242;
     subprocess_run := fun _ => Ok tt;
     polls_before_timeout := fun _ => 4%nat;
     fs_error := fun _ => None;
     partial_text := fun _ => "";
     path_name := fun p => p;
     path_str := fun p => p;
     path_parent := fun _ => ".";
     path_is_absolute := fun _ => false;
     with_suffix := replace_suffix;
     format_json := fun _ => "" |}.

Definition ok_env : Env := window_env "Notepad" (mkRect 0 0 800 600).

(** The write phase of [save] (create the directory, open the file, dump the
    JSON), whose first operation has number [t], fails with [e] at its
    operation [k], the earlier ones having succeeded. *)
Definition write_phase_fails (env : Env) (t k : nat) (e : exn) : Prop :=
  (k < 3)%nat /\
  (forall j, (j < k)%nat -> fs_error env (j + t) = None) /\
  fs_error env (k + t) = Some e.

(** The write phase of [save] starting at operation [t] succeeds. *)
Definition write_phase_succeeds (env : Env) (t : nat) : Prop :=
  forall j, (j < 3)%nat -> fs_error env (j + t) = None.

(** Two file systems agree outside the target and its backup. *)
Definition same_elsewhere (target backup : string)
    (f1 f2 : gmap string content) : Prop :=
  forall p, p <> target -> p <> backup -> f1 !! p = f2 !! p.

(** The string is empty or made of whitespace only. *)
Definition blank (s : string) : Prop :=
  Forall (fun c => is_space c = true) (String.list_ascii_of_string s).

(** What the default capture filter drops: a window whose executable path
    is known and not empty, and which belongs to one of the shell-surface
    executables (compared in lower case) or has a blank title. *)
Definition dropped (env : Env) (window : WindowInfo.t) : Prop :=
  match WindowInfo.exe_path window with
  | Some p =>
      p <> "" /\
      (lower (path_name env p) ∈ WorkspaceCapturer.system_processes \/
       blank (WindowInfo.title window))
  | None => False
  end.

#[global] Instance dropped_dec (env : Env) (window : WindowInfo.t) :
  Decision (dropped env window).
Proof.
  unfold dropped, blank. destruct (WindowInfo.exe_path window); apply _.
Defined.

(** The calls that move, resize, restore or raise a window, or move it to
    another desktop. *)
Definition is_positioning (c : call) : bool :=
  match c with
  | ShowWindow _ _ | SetForegroundWindow _ | BringWindowToTop _
  | MoveWindow _ _ _ _ _ | SetWindowPos _ _ _ _ _ _ _
  | AppViewMove _ _ => true
  | _ => false
  end.

(** Every run of the computation relates the world it starts in to the world
    it ends in by [I]. *)
Definition preserves {A} (I : World -> World -> Prop) (m : M A) : Prop :=
  forall env w r w', m env w = (r, w') -> I w w'.

(** The objects of the program and the files are left as they are. *)
Definition same_state (w w' : World) : Prop :=
  launch_results w' = launch_results w /\
  cfg_collection w' = cfg_collection w /\
  files w' = files w.

(** No positioning call is added to the log. *)
Definition no_positioning (w w' : World) : Prop :=
  exists made,
    calls w' = (calls w ++ made)%list /\
    Forall (fun c => is_positioning c = false) made.

(** The results hold an entry of the app (by its id) that is a failure. *)
Definition failed_in (prior : list LaunchResult.t) (app : AppInstance.t)
    : Prop :=
  Exists
    (fun r => LaunchResult.app_id r = AppInstance.id app /\
              LaunchResult.success r = false)
    prior.

#[global] Instance failed_in_dec (prior : list LaunchResult.t)
    (app : AppInstance.t) : Decision (failed_in prior app).
Proof. unfold failed_in. apply _. Defined.

(** The call starts a process. *)
Definition is_popen (c : call) : bool :=
  match c with
  | Popen _ _ _ _ => true
  | _ => false
  end.

(** The coordinates that a window dictionary holds are integers. *)
Definition window_fields_int (d : dict) : Prop :=
  forall k v, k ∈ ["x"; "y"; "width"; "height"] ->
    dict_get d k = Some v -> exists n, v = JInt n.

(** The integer stored under [k], or [dflt] when the key is missing. *)
Definition int_or (d : dict) (k : string) (dflt : Z) : Z :=
  match dict_get d k with
  | Some (JInt n) => n
  | _ => dflt
  end.

(** What [validate_workspace] accepts in an app: an id and an executable
    that are not blank, a desktop index that is not negative, and a window
    of positive width and height. *)
Definition app_well_formed (app : AppInstance.t) : Prop :=
  ~ blank (AppInstance.id app) /\ ~ blank (AppInstance.exe app) /\
  0 <= AppInstance.virtual_desktop app /\
  0 < WindowConfig.width (AppInstance.window app) /\
  0 < WindowConfig.height (AppInstance.window app).

(** What [validate_workspace] accepts: a name that is not blank, app ids
    that are pairwise distinct, and well-formed apps. *)
Definition workspace_well_formed (workspace : Workspace.t) : Prop :=
  ~ blank (Workspace.name workspace) /\
  NoDup (AppInstance.id <$> Workspace.apps workspace) /\
  Forall app_well_formed (Workspace.apps workspace).

(** Every existence check of a path is answered, with a yes or a no. *)
Definition paths_answer (env : Env) : Prop :=
  forall t, exists b, path_exists env t = Ok b.

#[global] Instance app_well_formed_dec (app : AppInstance.t) :
  Decision (app_well_formed app).
Proof. unfold app_well_formed, blank. apply _. Defined.

#[global] Instance workspace_well_formed_dec (workspace : Workspace.t) :
  Decision (workspace_well_formed workspace).
Proof. unfold workspace_well_formed, blank. apply _. Defined.

(** Every run of the computation adds at most [k] calls of the class [P] to
    the log. *)
Definition at_most {A} (P : call -> bool) (k : nat) (m : M A) : Prop :=
  forall env w r w',
    m env w = (r, w') ->
    exists made,
      calls w' = (calls w ++ made)%list /\
      (length (filter (fun c => P c = true) made) <= k)%nat.

(** The call that asks pyvda for a new desktop. *)
Definition is_desktop_creation (c : call) : bool :=
  match c with
  | VirtualDesktopCreate => true
  | _ => false
  end.

(** The calls that only observe: they read the state of windows, processes,
    desktops, monitors or paths, or let time pass. *)
Definition is_query (c : call) : bool :=
  match c with
  | Sleep _ | Deadline _
  | GetVirtualDesktops | VirtualDesktopCurrent | AppViewDesktop _
  | AppViewIsPinned _
  | GetWindowText _ | GetClassName _ | IsWindowVisible _ | GetWindowLong _ _
  | GetWindowRect _ | GetWindowThreadProcessId _ | PsutilProcess _
  | EnumWindows | IsIconic _ | EnumDisplayMonitors | GetMonitorInfo _
  | Which _ | PathExists _ => true
  | _ => false
  end.

(** Every call that a run of the computation adds to the log is a query. *)
Definition only_queries {A} (m : M A) : Prop :=
  forall env w r w',
    m env w = (r, w') ->
    exists made,
      calls w' = (calls w ++ made)%list /\
      Forall (fun c => is_query c = true) made.

(** The result that a dry run records for an app. *)
Definition dry_run_result (app : AppInstance.t) : LaunchResult.t :=
  LaunchResult.mk (AppInstance.id app) true None None
    (Some "Dry run - not launched").

(** Every file whose path is not in [own] is as it was. *)
Definition other_files_kept (own : list string) (w w' : World) : Prop :=
  forall p, p ∉ own -> files w' !! p = files w !! p.

(** In the environment [env], every run of the computation leaves the files
    whose path is not in [own] as they were. *)
Definition touches_only {A} (env : Env) (own : list string) (m : M A)
    : Prop :=
  forall w r w', m env w = (r, w') -> other_files_kept own w w'.

(* ================================================================== *)
(** * Theorems *)

Lemma rmap_ok_fmap {A B} (f : A -> result B) (g : B -> A) (l : list B) :
  (forall b, f (g b) = Ok b) -> rmap f (g <$> l) = Ok l.
Proof.
  intros Hfg. induction l as [|b l IH]; [done|].
  rewrite fmap_cons. cbn [rmap]. by rewrite Hfg, IH.
Qed.

Lemma WindowConfig_round_trip (w : WindowConfig.t) :
  WindowConfig.from_dict (WindowConfig.to_dict w) = Ok w.
Proof. by destruct w. Qed.

Lemma AppInstance_round_trip (a : AppInstance.t) :
  AppInstance.from_dict (AppInstance.to_dict a) = Ok a.
Proof.
  destruct a as [i e ar wd vd [wx wy ww wh]].
  pose proof (rmap_ok_fmap (as_str "args") JStr ar (fun _ => eq_refl)) as Hargs.
  unfold AppInstance.from_dict, AppInstance.to_dict, dict_get_default,
    dict_index; cbn.
  cbn in Hargs. rewrite Hargs. by destruct wd.
Qed.

Lemma Workspace_round_trip (w : Workspace.t) :
  Workspace.from_dict (Workspace.to_dict w) = Ok w.
Proof.
  destruct w as [n d ap].
  pose proof (rmap_ok_fmap
    (fun app => let* d := as_subscriptable app in AppInstance.from_dict d)%result
    (fun app => JDict (AppInstance.to_dict app)) ap
    AppInstance_round_trip) as Happs.
  unfold Workspace.from_dict, Workspace.to_dict, dict_get_default,
    dict_index; cbn [dict_get String.eqb Ascii.eqb Bool.eqb from_option id
    rbind as_str py_iter Workspace.name Workspace.description Workspace.apps].
  by rewrite Happs.
Qed.

(** C7. For every workspace, [to_dict] followed by [from_dict] succeeds and
    gives a workspace with the same name, the same description and the same
    list of apps (field for field), and [get_required_desktops] has the same
    value before and after the round trip. *)
Theorem C7_workspace_round_trip (w : Workspace.t) :
  exists w',
    Workspace.from_dict (Workspace.to_dict w) = Ok w' /\
    Workspace.name w' = Workspace.name w /\
    Workspace.description w' = Workspace.description w /\
    Workspace.apps w' = Workspace.apps w /\
    Workspace.get_required_desktops w' = Workspace.get_required_desktops w.
Proof.
  exists w. by rewrite Workspace_round_trip.
Qed.

(** *** Defaults of the window geometry (models.py) *)

Lemma as_int_get_default (d : dict) (k : string) (dflt : Z) :
  window_fields_int d -> k ∈ ["x"; "y"; "width"; "height"] ->
  as_int k (dict_get_default d k (JInt dflt)) = Ok (int_or d k dflt).
Proof.
  intros Hd Hk. unfold dict_get_default, int_or.
  destruct (dict_get d k) as [v|] eqn:Hget; [|done].
  destruct (Hd k v Hk Hget) as [n ->]. done.
Qed.

Lemma int_or_missing (d : dict) (k : string) (dflt : Z) :
  dict_get d k = None -> int_or d k dflt = dflt.
Proof. intros H. unfold int_or. by rewrite H. Qed.

Lemma WindowConfig_from_dict_int_or (d : dict) :
  window_fields_int d ->
  WindowConfig.from_dict d =
    Ok (WindowConfig.mk (int_or d "x" 0) (int_or d "y" 0)
          (int_or d "width" 800) (int_or d "height" 600)).
Proof.
  intros Hd. unfold WindowConfig.from_dict.
  rewrite !as_int_get_default by (done || set_solver). done.
Qed.



(** *** The virtual-desktop layer (virtual_desktops.py) *)

Lemma never_raises_ret {A} (a : A) : never_raises (ret a).
Proof. intros env w. by exists a, w. Qed.

Lemma never_raises_bind {A B} (m : M A) (k : A -> M B) :
  never_raises m -> (forall a, never_raises (k a)) -> never_raises (bind m k).
Proof.
  intros Hm Hk env w. unfold bind.
  destruct (Hm env w) as (a & w' & ->). apply Hk.
Qed.

Lemma never_raises_try {A} (m : M A) (handler : exn -> M A) :
  (forall e, never_raises (handler e)) ->
  never_raises (try_except m any_exception handler).
Proof.
  intros Hh env w. unfold try_except.
  destruct (m env w) as [[a|e] w']; [by exists a, w'|].
  apply Hh.
Qed.

Lemma never_raises_sleep (ms : Z) : never_raises (sleep ms).
Proof. intros env w. by eexists _, _. Qed.

Lemma never_raises_if {A} (b : bool) (m1 m2 : M A) :
  never_raises m1 -> never_raises m2 -> never_raises (if b then m1 else m2).
Proof. by destruct b. Qed.

Ltac never_raises_tac :=
  repeat first
    [ apply never_raises_ret
    | apply never_raises_sleep
    | apply never_raises_try; intros ?
    | apply never_raises_if
    | apply never_raises_bind; [|intros ?] ].

(** C6. With the virtual-desktop capability unavailable, and without any
    call to the environment: [get_desktop_count] returns 1;
    [ensure_desktop_count n] returns true exactly when [n <= 1];
    [move_window_to_desktop h i] returns true exactly when [i = 0], for every
    handle [h]; [switch_to_desktop i] returns true exactly when [i = 0]. *)
Theorem C6_unavailable_degradation (self : VirtualDesktopManager.t)
    (env : Env) (w : World) :
  VirtualDesktopManager.pyvda_available self = false ->
  VirtualDesktopManager.get_desktop_count self env w = (Ok 1, w) /\
  (forall n, exists b,
     VirtualDesktopManager.ensure_desktop_count self n env w = (Ok b, w) /\
     (b = true <-> n <= 1)) /\
  (forall h i, exists b,
     VirtualDesktopManager.move_window_to_desktop self h i env w = (Ok b, w) /\
     (b = true <-> i = 0)) /\
  (forall i, exists b,
     VirtualDesktopManager.switch_to_desktop self i env w = (Ok b, w) /\
     (b = true <-> i = 0)).
Proof.
  intros Hun.
  unfold VirtualDesktopManager.get_desktop_count,
    VirtualDesktopManager.ensure_desktop_count,
    VirtualDesktopManager.move_window_to_desktop,
    VirtualDesktopManager.switch_to_desktop.
  rewrite Hun. cbn [negb]. repeat split.
  - intros n. exists (n <=? 1). split; [done|]. apply Z.leb_le.
  - intros h i. exists (i =? 0). split; [done|]. apply Z.eqb_eq.
  - intros i. exists (i =? 0). split; [done|]. apply Z.eqb_eq.
Qed.

Lemma C6_unavailable_degradation_witness :
  VirtualDesktopManager.get_desktop_count
    (VirtualDesktopManager.mk false) failing_env start = (Ok 1, start).
Proof.
  exact (proj1 (C6_unavailable_degradation
                  (VirtualDesktopManager.mk false) failing_env start
                  eq_refl)).
Defined.

(** *** Which operations of the two layers can raise *)

Lemma never_raises_os_call_ok {A} (c : call) (f : Env -> nat -> A) :
  never_raises (os_call c (fun e t => Ok (f e t))).
Proof. intros env w. by eexists _, _. Qed.

Lemma never_raises_ask {A} (f : Env -> A) : never_raises (ask f).
Proof. intros env w. by eexists _, _. Qed.

Lemma never_raises_match_list {A B} (l : list A) (m1 : M B)
    (m2 : A -> list A -> M B) :
  never_raises m1 -> (forall a l', never_raises (m2 a l')) ->
  never_raises (match l with [] => m1 | a :: l' => m2 a l' end).
Proof. by destruct l. Qed.

Ltac never_raises_step :=
  first
    [ apply never_raises_ret
    | apply never_raises_sleep
    | apply never_raises_os_call_ok
    | apply never_raises_ask
    | apply never_raises_try; intros ?
    | apply never_raises_if
    | apply never_raises_match_list; [|intros ? ?]
    | apply never_raises_bind; [|intros ?] ].

Lemma enum_callbacks_never_raises (handles : list Z) :
  forall windows, never_raises (WindowsApi.enum_callbacks windows handles).
Proof.
  induction handles as [|h handles IH]; intros windows; simpl.
  - apply never_raises_ret.
  - apply never_raises_bind; [|intros ?; apply IH].
    unfold WindowsApi.enum_callback. repeat never_raises_step.
Qed.

Lemma enumerate_windows_never_raises :
  never_raises WindowsApi.enumerate_windows.
Proof.
  unfold WindowsApi.enumerate_windows.
  apply never_raises_bind; [apply never_raises_os_call_ok|].
  intros ?. apply enum_callbacks_never_raises.
Qed.

Lemma find_window_polls_never_raises (wanted_pid : Z)
    (title_hint : option string) (polls : nat) :
  never_raises (WindowsApi.find_window_polls wanted_pid title_hint polls).
Proof.
  induction polls as [|polls IH]; simpl.
  - apply never_raises_ret.
  - apply never_raises_bind; [apply enumerate_windows_never_raises|].
    intros windows. destruct (filter _ windows).
    + apply never_raises_bind; [apply never_raises_sleep|]. intros _. apply IH.
    + apply never_raises_ret.
Qed.

Lemma find_window_by_pid_never_raises (wanted_pid timeout_ms : Z)
    (title_hint : option string) :
  never_raises (WindowsApi.find_window_by_pid wanted_pid timeout_ms title_hint).
Proof.
  unfold WindowsApi.find_window_by_pid.
  apply never_raises_bind; [apply never_raises_os_call_ok|].
  intros ?. apply find_window_polls_never_raises.
Qed.

Lemma monitor_enum_callbacks_never_raises (found : list (Z * Rect)) :
  forall monitors,
    never_raises (WindowsApi.monitor_enum_callbacks monitors found).
Proof.
  induction found as [|m found IH]; intros monitors; simpl.
  - apply never_raises_ret.
  - apply never_raises_bind; [|intros ?; apply IH].
    unfold WindowsApi.monitor_enum_callback. repeat never_raises_step.
Qed.

Lemma get_monitor_info_never_raises : never_raises WindowsApi.get_monitor_info.
Proof.
  unfold WindowsApi.get_monitor_info.
  apply never_raises_bind; [apply never_raises_os_call_ok|].
  intros ?. apply monitor_enum_callbacks_never_raises.
Qed.

(** The operations of the OS window/process layer, [get_process_info]
    apart, return whatever the environment does. *)
Lemma windows_api_never_raises :
  (forall h, never_raises (WindowsApi.get_window_text_safe h)) /\
  (forall h, never_raises (WindowsApi.get_class_name_safe h)) /\
  (forall h, never_raises (WindowsApi.is_alt_tab_window h)) /\
  never_raises WindowsApi.enumerate_windows /\
  (forall p t hint, never_raises (WindowsApi.find_window_by_pid p t hint)) /\
  (forall exe, never_raises (WindowsApi.find_windows_by_exe exe)) /\
  (forall h x y width height,
     never_raises (WindowsApi.move_window h x y width height)) /\
  (forall h, never_raises (WindowsApi.bring_window_to_front h)) /\
  (forall h, never_raises (WindowsApi.minimize_window h)) /\
  (forall h, never_raises (WindowsApi.maximize_window h)) /\
  (forall h, never_raises (WindowsApi.restore_window h)) /\
  (forall h force, never_raises (WindowsApi.close_window h force)) /\
  (forall h, never_raises (WindowsApi.get_window_rect h)) /\
  never_raises WindowsApi.get_monitor_info /\
  never_raises WindowsApi.get_primary_monitor_rect /\
  (forall h t, never_raises (WindowsApi.is_window_responding h t)).
Proof.
  repeat split; intros;
    try (apply never_raises_try; intros ?; apply never_raises_ret).
  - apply enumerate_windows_never_raises.
  - apply find_window_by_pid_never_raises.
  - unfold WindowsApi.find_windows_by_exe.
    apply never_raises_bind; [apply never_raises_ask|]. intros ?.
    apply never_raises_bind; [apply enumerate_windows_never_raises|].
    intros ?. apply never_raises_ret.
  - apply get_monitor_info_never_raises.
  - unfold WindowsApi.get_primary_monitor_rect.
    apply never_raises_bind; [apply get_monitor_info_never_raises|].
    intros ?. repeat never_raises_step.
Qed.

(** The operations of the virtual-desktop layer other than the two desktop
    counts return whatever the environment does. *)
Lemma virtual_desktops_never_raise (self : VirtualDesktopManager.t) :
  never_raises (VirtualDesktopManager.create_desktop self) /\
  (forall h i,
     never_raises (VirtualDesktopManager.move_window_to_desktop self h i)) /\
  (forall h, never_raises (VirtualDesktopManager.get_window_desktop self h)) /\
  never_raises (VirtualDesktopManager.get_current_desktop self) /\
  (forall i, never_raises (VirtualDesktopManager.switch_to_desktop self i)) /\
  (forall h, never_raises (VirtualDesktopManager.pin_window self h)) /\
  (forall h, never_raises (VirtualDesktopManager.unpin_window self h)) /\
  (forall h, never_raises (VirtualDesktopManager.is_window_pinned self h)) /\
  (forall i, never_raises (VirtualDesktopManager.close_desktop self i)).
Proof.
  unfold VirtualDesktopManager.create_desktop,
    VirtualDesktopManager.move_window_to_desktop,
    VirtualDesktopManager.get_window_desktop,
    VirtualDesktopManager.get_current_desktop,
    VirtualDesktopManager.switch_to_desktop,
    VirtualDesktopManager.pin_window, VirtualDesktopManager.unpin_window,
    VirtualDesktopManager.is_window_pinned,
    VirtualDesktopManager.close_desktop.
  repeat split; intros; apply never_raises_if;
    first [ apply never_raises_ret
          | apply never_raises_try; intros ?; apply never_raises_ret ].
Qed.

Lemma get_desktop_count_cases (self : VirtualDesktopManager.t) (env : Env)
    (w : World) :
  if VirtualDesktopManager.pyvda_available self then
    match get_virtual_desktops env (tick w) with
    | Ok n =>
        VirtualDesktopManager.get_desktop_count self env w =
        (Ok (Z.of_nat n), log_call GetVirtualDesktops w)
    | Raise e0 =>
        VirtualDesktopManager.get_desktop_count self env w =
        (Raise (VirtualDesktopError
                  ("Failed to get desktop count: " +:+ str_exn e0)),
         log_call GetVirtualDesktops w)
    end
  else VirtualDesktopManager.get_desktop_count self env w = (Ok 1, w).
Proof.
  unfold VirtualDesktopManager.get_desktop_count.
  destruct (VirtualDesktopManager.pyvda_available self); [|done].
  cbn [negb]. unfold try_except, bind, os_call.
  by destruct (get_virtual_desktops env (tick w)).
Qed.

Lemma get_desktop_count_raises (self : VirtualDesktopManager.t) (env : Env)
    (w : World) (e : exn) :
  raises (VirtualDesktopManager.get_desktop_count self) env w e <->
  VirtualDesktopManager.pyvda_available self = true /\
  exists e0, get_virtual_desktops env (tick w) = Raise e0 /\
    e = VirtualDesktopError ("Failed to get desktop count: " +:+ str_exn e0).
Proof.
  pose proof (get_desktop_count_cases self env w) as H. unfold raises.
  destruct (VirtualDesktopManager.pyvda_available self).
  - destruct (get_virtual_desktops env (tick w)) as [n|e0]; rewrite H.
    + split; [by intros [w' [=]]|]. by intros [_ (e0 & [=] & _)].
    + split.
      * intros [w' [= <- _]]. split; [done|]. by exists e0.
      * intros [_ (e1 & [= <-] & ->)]. by eexists.
  - rewrite H. split; [by intros [w' [=]]|]. by intros [[=] _].
Qed.

Lemma create_desktops_never_raises (self : VirtualDesktopManager.t)
    (total : Z) (remaining : nat) :
  forall i,
    never_raises (VirtualDesktopManager.create_desktops self total remaining i).
Proof.
  induction remaining as [|remaining IH]; intros i; simpl.
  - apply never_raises_ret.
  - apply never_raises_bind;
      [apply (proj1 (virtual_desktops_never_raise self))|].
    intros created. apply never_raises_if; [apply never_raises_ret|].
    apply never_raises_bind; [|intros _; apply IH].
    apply never_raises_if; [apply never_raises_sleep|apply never_raises_ret].
Qed.

Lemma ensure_desktop_count_raises (self : VirtualDesktopManager.t) (n : Z)
    (env : Env) (w : World) (e : exn) :
  raises (VirtualDesktopManager.ensure_desktop_count self n) env w e ->
  VirtualDesktopManager.pyvda_available self = true /\
  exists t e0, get_virtual_desktops env t = Raise e0 /\
    e = VirtualDesktopError
          ("Failed to ensure desktop count: " +:+
           ("Failed to get desktop count: " +:+ str_exn e0)).
Proof.
  unfold raises, VirtualDesktopManager.ensure_desktop_count.
  destruct (VirtualDesktopManager.pyvda_available self) eqn:Hav;
    [|by intros [w' [=]]].
  cbn [negb]. intros [w' Hrun]. split; [done|].
  unfold try_except, bind at 1 in Hrun.
  pose proof (get_desktop_count_cases self env w) as Hfirst.
  rewrite Hav in Hfirst.
  destruct (get_virtual_desktops env (tick w)) as [c|e0] eqn:Hq.
  - rewrite Hfirst in Hrun.
    destruct (n <=? Z.of_nat c); [done|].
    unfold bind at 1 in Hrun.
    destruct (create_desktops_never_raises self (n - Z.of_nat c)
                (Z.to_nat (n - Z.of_nat c)) 0 env
                (log_call GetVirtualDesktops w)) as (b & w1 & Hloop).
    rewrite Hloop in Hrun. destruct b; cbn [negb] in Hrun; [|done].
    unfold bind in Hrun.
    pose proof (get_desktop_count_cases self env w1) as Hlast.
    rewrite Hav in Hlast.
    destruct (get_virtual_desktops env (tick w1)) as [c'|e1] eqn:Hq1;
      rewrite Hlast in Hrun; [done|].
    cbn in Hrun. injection Hrun as <- _. by exists (tick w1), e1.
  - rewrite Hfirst in Hrun. cbn in Hrun. injection Hrun as <- _.
    by exists (tick w), e0.
Qed.

Lemma ensure_desktop_count_raises_at_first (self : VirtualDesktopManager.t)
    (n : Z) (env : Env) (w : World) (e0 : exn) :
  VirtualDesktopManager.pyvda_available self = true ->
  get_virtual_desktops env (tick w) = Raise e0 ->
  raises (VirtualDesktopManager.ensure_desktop_count self n) env w
    (VirtualDesktopError
       ("Failed to ensure desktop count: " +:+
        ("Failed to get desktop count: " +:+ str_exn e0))).
Proof.
  intros Hav Hq. unfold raises, VirtualDesktopManager.ensure_desktop_count.
  rewrite Hav. cbn [negb]. unfold try_except, bind at 1.
  pose proof (get_desktop_count_cases self env w) as Hfirst.
  rewrite Hav, Hq in Hfirst. rewrite Hfirst. by eexists.
Qed.

Lemma get_process_info_raises (p : Z) (env : Env) (w : World) (e : exn) :
  raises (WindowsApi.get_process_info p) env w e <->
  psutil_process env (tick w) = Raise e /\
  WindowsApi.is_psutil_access_error e = false.
Proof.
  unfold raises, WindowsApi.get_process_info, try_except, bind, os_call.
  destruct (psutil_process env (tick w)) as [info|e1].
  - split; [by intros [w' [=]]|]. by intros [[=] _].
  - destruct (WindowsApi.is_psutil_access_error e1) eqn:Hacc.
    + split; [by intros [w' [=]]|]. intros [[= <-] H]. congruence.
    + split; [by intros [w' [= <- _]]|]. intros [[= <-] _]. by eexists.
Qed.



(** *** Window positioning (windows_api.py) *)

Lemma bind_Ok_inv {A B} (m : M A) (k : A -> M B) env w b w' :
  bind m k env w = (Ok b, w') ->
  exists a w1, m env w = (Ok a, w1) /\ k a env w1 = (Ok b, w').
Proof.
  unfold bind. destruct (m env w) as [[a|e] w1]; [|done].
  intros H. by exists a, w1.
Qed.

Lemma get_class_name_safe_console (h : Z) env w cls w1 :
  WindowsApi.get_class_name_safe h env w = (Ok cls, w1) ->
  (cls ∈ WindowsApi.console_classes <->
   exists c, class_name_of env (tick w) = Ok c /\
             c ∈ WindowsApi.console_classes).
Proof.
  unfold WindowsApi.get_class_name_safe, try_except, os_call.
  destruct (class_name_of env (tick w)) as [c|e]; cbn; intros [= <- _].
  - split; [by exists c|]. by intros (c' & [= <-] & H).
  - split; [|by intros (c' & [=] & _)].
    intros H. apply (bool_decide_pack _) in H. by vm_compute in H.
Qed.

Lemma move_window_readback_inv (h x y width height : Z) env w c r w' :
  WindowsApi.move_window_readback h x y width height env w
    = (Ok (c, r), w') ->
  (c = true <->
   exists cls, class_name_of env (tick w) = Ok cls /\
               cls ∈ WindowsApi.console_classes) /\
  exists w0, w' = log_call (GetWindowRect h) w0 /\
             window_rect env (tick w0) = Ok r.
Proof.
  unfold WindowsApi.move_window_readback. intros H.
  apply bind_Ok_inv in H as (cls & w1 & Hcls & H).
  apply bind_Ok_inv in H as (? & w2 & _ & H).
  apply bind_Ok_inv in H as (? & w3 & _ & H).
  apply bind_Ok_inv in H as (? & w4 & _ & H).
  apply bind_Ok_inv in H as (? & w5 & _ & H).
  apply bind_Ok_inv in H as (r' & w6 & Hr & H).
  unfold ret in H. injection H as <- <- <-.
  split.
  - rewrite <- (get_class_name_safe_console h env w cls w1 Hcls).
    apply bool_decide_eq_true.
  - exists w5. unfold os_call in Hr.
    destruct (window_rect env (tick w5)); by injection Hr as <- <-.
Qed.

Lemma move_window_unfold (h x y width height : Z) env w :
  WindowsApi.move_window h x y width height env w =
  match WindowsApi.move_window_readback h x y width height env w with
  | (Ok read, w') =>
      (Ok (WindowsApi.verify_move (fst read) (snd read) x y width height), w')
  | (Raise _, w') => (Ok false, w')
  end.
Proof.
  unfold WindowsApi.move_window, try_except, bind.
  by destruct (WindowsApi.move_window_readback h x y width height env w)
    as [[read|e] w'].
Qed.

(** C5. [move_window] ends by reading the window rectangle back and
    comparing it with the requested one, under a tolerance of 100 for a
    window of one of the four console classes and 50 otherwise: when position
    and size are both within tolerance it returns true; when the size is
    within tolerance and the position is not, it returns true exactly for a
    console-class window; in every other case it returns false.  The
    rectangle compared is the answer to the last [GetWindowRect] call, and the
    window is of console class exactly when the class name read at the start
    is one of the four.  When an exception ends the attempts before the
    readback, the result is false. *)
Theorem C5_move_window_verdict (h x y width height : Z) (env : Env)
    (w : World) :
  match WindowsApi.move_window_readback h x y width height env w with
  | (Ok (is_console, r), w') =>
      let tolerance := if is_console then 100 else 50 in
      let position_within :=
        Z.abs (left r - x) < tolerance /\ Z.abs (top r - y) < tolerance in
      let size_within :=
        Z.abs ((right r - left r) - width) < tolerance /\
        Z.abs ((bottom r - top r) - height) < tolerance in
      (is_console = true <->
       exists cls, class_name_of env (tick w) = Ok cls /\
         cls ∈ ["ConsoleWindowClass"; "PseudoConsoleWindow";
                "CASCADIA_HOSTING_WINDOW_CLASS";
                "Cascadia_HOSTING_WINDOW_CLASS"]) /\
      (exists w0, w' = log_call (GetWindowRect h) w0 /\
                  window_rect env (tick w0) = Ok r) /\
      exists b,
        WindowsApi.move_window h x y width height env w = (Ok b, w') /\
        (position_within /\ size_within -> b = true) /\
        (size_within /\ ~ position_within -> b = is_console) /\
        (~ size_within -> b = false)
  | (Raise _, w') =>
      WindowsApi.move_window h x y width height env w = (Ok false, w')
  end.
Proof.
  rewrite move_window_unfold.
  destruct (WindowsApi.move_window_readback h x y width height env w)
    as [[[c r]|e] w'] eqn:Hread; [|done].
  apply move_window_readback_inv in Hread as [Hc Hr].
  split; [exact Hc|]. split; [exact Hr|].
  eexists. split; [reflexivity|].
  cbn [fst snd]. cbv zeta.
  unfold WindowsApi.verify_move, WindowsApi.position_ok, WindowsApi.size_ok,
    WindowsApi.tolerance_of.
  set (tolerance := if c then 100 else 50).
  destruct (Z.ltb_spec (Z.abs (left r - x)) tolerance),
    (Z.ltb_spec (Z.abs (top r - y)) tolerance),
    (Z.ltb_spec (Z.abs (right r - left r - width)) tolerance),
    (Z.ltb_spec (Z.abs (bottom r - top r - height)) tolerance);
    cbn [andb negb]; repeat split; intros; try done; exfalso; lia.
Qed.

(** *** The configuration store (config.py) *)

(** Symbolic execution: unfold the combinators and the state accessors. *)
Ltac run :=
  cbv [bind try_except ret raise ask lift get_world update_world os_call
       sleep fs_op file_exists path_replace open_write json_dump read_json
       any_exception tick calls files cfg_collection launch_results log_call
       set_files set_cfg_collection set_launch_results fst snd negb andb orb
       ConfigManager.backup_file].

(** Rewriting with what is known of the environment and of the files. *)
Ltac use_hyps :=
  repeat match goal with
    | H : fs_error _ _ = _ |- _ => rewrite H
    | H : _ !! _ = _ |- _ => rewrite H
    | H : cfg_collection _ = _ |- _ => rewrite H
    end.

Ltac go :=
  repeat
    (progress
       (run; use_hyps;
        rewrite ?lookup_insert_eq;
        rewrite ?lookup_insert_ne by done;
        rewrite ?bool_decide_eq_true_2 by done;
        rewrite ?bool_decide_eq_false_2 by (by intros [? [=]]))).

Lemma write_phase_succeeds_inv (env : Env) (t : nat) :
  write_phase_succeeds env t ->
  fs_error env t = None /\ fs_error env (S t) = None /\
  fs_error env (S (S t)) = None.
Proof.
  intros H. repeat split.
  - apply (H 0%nat). lia.
  - apply (H 1%nat). lia.
  - apply (H 2%nat). lia.
Qed.

Lemma write_phase_fails_inv (env : Env) (t k : nat) (e : exn) :
  write_phase_fails env t k e ->
  (k = 0%nat /\ fs_error env t = Some e) \/
  (k = 1%nat /\ fs_error env t = None /\ fs_error env (S t) = Some e) \/
  (k = 2%nat /\ fs_error env t = None /\ fs_error env (S t) = None /\
   fs_error env (S (S t)) = Some e).
Proof.
  intros (Hk & Hbefore & Hat).
  destruct k as [|[|[|k]]]; [| | |lia].
  - left. done.
  - right; left. split; [done|]. split; [|done]. apply (Hbefore 0%nat). lia.
  - right; right. split; [done|]. split; [apply (Hbefore 0%nat); lia|].
    split; [apply (Hbefore 1%nat); lia|done].
Qed.



(** A double fault: the write fails and so does the rename that restores
    the backup; the error of that rename leaves [save] as it is, not wrapped
    in a [ConfigError], and the backup stays where it is. *)
Example save_restore_can_fail :
  let before :=
    set_files {[ "workspaces.json.bak" := Doc JNull ]} start in
  let run :=
    ConfigManager.save (ConfigManager.mk "workspaces.json")
      (WorkspaceCollection.mk []) failing_env before in
  fst run = Raise (OSError "boom") /\
  calls (snd run) =
    [Mkdir "."; PathReplace "workspaces.json.bak" "workspaces.json"] /\
  files (snd run) = files before.
Proof. by vm_compute. Qed.

Lemma filter_all_id {A} (P : A -> Prop) `{forall x, Decision (P x)}
    (l : list A) :
  (forall x, x ∈ l -> P x) -> filter P l = l.
Proof.
  induction l as [|a l IH]; intros Hall; [done|].
  rewrite filter_cons_True by (apply Hall; left).
  f_equal. apply IH. intros x Hx. apply Hall. by right.
Qed.

Lemma filter_none_nil {A} (P : A -> Prop) `{forall x, Decision (P x)}
    (l : list A) :
  (forall x, x ∈ l -> ~ P x) -> filter P l = [].
Proof.
  induction l as [|a l IH]; intros Hall; [done|].
  rewrite filter_cons_False by (apply Hall; left).
  apply IH. intros x Hx. apply Hall. by right.
Qed.

Lemma get_workspace_is_Some (coll : WorkspaceCollection.t) (name : string) :
  is_Some (WorkspaceCollection.get_workspace coll name) <->
  name ∈ WorkspaceCollection.list_workspace_names coll.
Proof.
  unfold WorkspaceCollection.get_workspace,
    WorkspaceCollection.list_workspace_names.
  rewrite head_is_Some, list_elem_of_fmap. split.
  - intros Hne. destruct (filter _ _) as [|ws l] eqn:Hf; [done|].
    assert (ws ∈ filter (fun ws => Workspace.name ws = name)
                   (WorkspaceCollection.workspaces coll)) as Hin
      by (rewrite Hf; left).
    apply list_elem_of_filter in Hin as [Hn Hin]. by exists ws.
  - intros (ws & -> & Hin) Hnil.
    assert (ws ∈ filter (fun ws' => Workspace.name ws' = Workspace.name ws)
                   (WorkspaceCollection.workspaces coll)) as Hin'
      by (by apply list_elem_of_filter).
    rewrite Hnil in Hin'. by apply elem_of_nil in Hin'.
Qed.

(** The collection after [add_workspace] with [overwrite]: every workspace
    of that name removed, the new one appended. *)
Lemma removed_then_added (coll : WorkspaceCollection.t)
    (workspace : Workspace.t) :
  WorkspaceCollection.add_workspace
    (if bool_decide
          (is_Some (WorkspaceCollection.get_workspace coll
                      (Workspace.name workspace)))
     then fst (WorkspaceCollection.remove_workspace coll
                 (Workspace.name workspace))
     else coll)
    workspace =
  WorkspaceCollection.mk
    (filter (fun ws => Workspace.name ws <> Workspace.name workspace)
       (WorkspaceCollection.workspaces coll) ++ [workspace]).
Proof.
  unfold WorkspaceCollection.add_workspace. f_equal. f_equal.
  case_bool_decide as Hex; [done|].
  symmetry. apply filter_all_id. intros ws Hin Heq. apply Hex.
  apply get_workspace_is_Some.
  unfold WorkspaceCollection.list_workspace_names.
  apply list_elem_of_fmap. by exists ws.
Qed.

Lemma save_cfg_collection (self : ConfigManager.t)
    (collection : WorkspaceCollection.t) env w r w' :
  ConfigManager.save self collection env w = (r, w') ->
  (r = Ok tt /\ cfg_collection w' = Some collection) \/
  ((exists e, r = Raise e) /\ cfg_collection w' = cfg_collection w).
Proof.
  destruct w as [t cs f cc lr].
  unfold ConfigManager.save. run.
  repeat
    (match goal with
     | |- context [fs_error ?e ?t] => destruct (fs_error e t) eqn:?
     | |- context [bool_decide ?P] => destruct (bool_decide P) eqn:?
     | |- context [@lookup _ _ _ _ ?k ?m] => destruct (m !! k) eqn:?
     end; run);
    intros [= <- <-]; cbn [cfg_collection]; eauto.
Qed.

Lemma save_succeeds (self : ConfigManager.t)
    (collection : WorkspaceCollection.t) env w :
  (forall t, fs_error env t = None) ->
  exists w',
    ConfigManager.save self collection env w = (Ok tt, w') /\
    files w' !! ConfigManager.config_file self =
      Some (Doc (JDict (WorkspaceCollection.to_dict collection))) /\
    cfg_collection w' = Some collection.
Proof.
  intros Hfs. destruct w as [t cs f cc lr].
  unfold ConfigManager.save.
  destruct (f !! ConfigManager.config_file self) as [c|] eqn:Hfile;
    repeat
      (progress
         (run; rewrite ?Hfs, ?Hfile, ?lookup_insert_eq;
          rewrite ?bool_decide_eq_true_2 by done;
          rewrite ?bool_decide_eq_false_2 by (by intros [? [=]])));
    (eexists; split; [reflexivity|]; cbn [files cfg_collection];
     by rewrite lookup_insert_eq).
Qed.

(** C4. With a collection loaded: adding a workspace whose name is taken,
    without [overwrite], raises a [ConfigError] and changes nothing, neither
    the collection in memory nor any file; with [overwrite], every workspace
    of that name is removed, the new one is appended and the result is saved,
    so that the collection holds exactly one workspace of that name, the new
    one, and so does the file once the save succeeds. *)
Theorem C4_add_workspace (self : ConfigManager.t) (workspace : Workspace.t)
    (coll : WorkspaceCollection.t) (env : Env) (w : World) :
  cfg_collection w = Some coll ->
  let name := Workspace.name workspace in
  let replaced :=
    WorkspaceCollection.mk
      (filter (fun ws => Workspace.name ws <> name)
         (WorkspaceCollection.workspaces coll) ++ [workspace]) in
  (name ∈ WorkspaceCollection.list_workspace_names coll ->
   ConfigManager.add_workspace self workspace false env w =
     (Raise (ConfigError
               ("Workspace '" +:+ name +:+
                "' already exists. Use --overwrite to replace it.")),
      w)) /\
  ConfigManager.add_workspace self workspace true env w =
    ConfigManager.save self replaced env
      (set_cfg_collection (Some replaced) w) /\
  (forall r w',
     ConfigManager.add_workspace self workspace true env w = (r, w') ->
     cfg_collection w' = Some replaced) /\
  length (filter (fun ws => Workspace.name ws = name)
            (WorkspaceCollection.workspaces replaced)) = 1%nat /\
  WorkspaceCollection.get_workspace replaced name = Some workspace /\
  ((forall t, fs_error env t = None) ->
   exists w',
     ConfigManager.add_workspace self workspace true env w = (Ok tt, w') /\
     files w' !! ConfigManager.config_file self =
       Some (Doc (JDict (WorkspaceCollection.to_dict replaced))) /\
     cfg_collection w' = Some replaced).
Proof.
  intros Hloaded name replaced.
  assert (filter (fun ws => Workspace.name ws = name)
            (WorkspaceCollection.workspaces replaced) = [workspace]) as Hone.
  { unfold replaced. cbn [WorkspaceCollection.workspaces].
    rewrite filter_app, filter_cons_True, filter_nil by done.
    rewrite filter_none_nil; [done|].
    by intros ws [Hn _]%list_elem_of_filter. }
  assert (ConfigManager.add_workspace self workspace true env w =
          ConfigManager.save self replaced env
            (set_cfg_collection (Some replaced) w)) as Hadd.
  { unfold ConfigManager.add_workspace, ConfigManager.loaded_collection.
    cbv [bind get_world]. rewrite Hloaded. cbv [ret]. rewrite andb_false_r.
    cbv [update_world]. rewrite removed_then_added.
    fold name replaced. by destruct w. }
  split; [|split; [exact Hadd|split; [|split; [by rewrite Hone|split]]]].
  - intros Hex%get_workspace_is_Some.
    unfold ConfigManager.add_workspace, ConfigManager.loaded_collection.
    cbv [bind get_world]. rewrite Hloaded. cbv [ret].
    fold name. by rewrite bool_decide_eq_true_2.
  - intros r w' Hrun. rewrite Hadd in Hrun.
    apply save_cfg_collection in Hrun as [[_ ->]|[_ ->]]; [done|].
    by destruct w.
  - unfold WorkspaceCollection.get_workspace. by rewrite Hone.
  - intros Hfs. rewrite Hadd. by apply save_succeeds.
Qed.

(** Adding a second workspace named "dev" without [overwrite]. *)
Lemma C4_add_workspace_witness :
  ConfigManager.add_workspace (ConfigManager.mk "workspaces.json")
    (Workspace.mk "dev" "new" []) false ok_env
    (set_cfg_collection
       (Some (WorkspaceCollection.mk [Workspace.mk "dev" "old" []])) start) =
  (Raise (ConfigError
            "Workspace 'dev' already exists. Use --overwrite to replace it."),
   set_cfg_collection
     (Some (WorkspaceCollection.mk [Workspace.mk "dev" "old" []])) start).
Proof.
  apply (proj1 (C4_add_workspace (ConfigManager.mk "workspaces.json")
                  (Workspace.mk "dev" "new" [])
                  (WorkspaceCollection.mk [Workspace.mk "dev" "old" []])
                  ok_env
                  (set_cfg_collection
                     (Some (WorkspaceCollection.mk
                              [Workspace.mk "dev" "old" []])) start)
                  eq_refl)).
  by left.
Defined.

(** *** The default capture filter (capture.py) *)

Lemma strip_is_empty_blank (s : string) :
  strip_is_empty s = true <-> blank s.
Proof.
  unfold blank. induction s as [|c s IH]; cbn.
  - split; [constructor|done].
  - rewrite andb_true_iff, IH, Forall_cons. done.
Qed.

Lemma eqb_empty_blank (s : string) : String.eqb s "" = true -> blank s.
Proof. intros ->%String.eqb_eq. constructor. Qed.

Lemma skips_dropped (env : Env) (window : WindowInfo.t) :
  WorkspaceCapturer.skips env window = true <-> dropped env window.
Proof.
  unfold WorkspaceCapturer.skips, dropped, truthy_str.
  destruct (WindowInfo.exe_path window) as [p|]; [|done].
  destruct (String.eqb_spec p "") as [->|Hp]; cbn [negb].
  { split; [done|]. by intros [? _]. }
  case_bool_decide as Hsys.
  { split; [|done]. intros _. split; [done|by left]. }
  destruct (String.eqb (WindowInfo.title window) "") eqn:Hempty; cbn [orb].
  { split; [|done]. intros _. split; [done|].
    right. by apply eqb_empty_blank. }
  destruct (strip_is_empty (WindowInfo.title window)) eqn:Hstrip.
  - split; [|done]. intros _. split; [done|].
    right. by apply strip_is_empty_blank.
  - split; [done|]. intros [_ [Hin|Hblank]]; [done|].
    apply strip_is_empty_blank in Hblank. congruence.
Qed.



(** *** Launching (launcher.py) *)

Lemma never_raises_match_option {A B} (o : option A) (m1 : A -> M B)
    (m2 : M B) :
  (forall a, never_raises (m1 a)) -> never_raises m2 ->
  never_raises (match o with Some a => m1 a | None => m2 end).
Proof. by destruct o. Qed.

Ltac never_raises_launch :=
  repeat first
    [ apply never_raises_ret
    | apply never_raises_sleep
    | apply never_raises_ask
    | apply enumerate_windows_never_raises
    | apply find_window_by_pid_never_raises
    | apply (proj1 (proj2 (proj2 (proj2 (proj2
               (virtual_desktops_never_raise _))))))
    | apply (proj1 (proj2 (virtual_desktops_never_raise _)))
    | apply never_raises_if
    | apply never_raises_match_option; [intros ?|]
    | apply never_raises_match_list; [|intros ? ?]
    | apply never_raises_bind; [|intros ?] ].

Lemma find_new_window_never_raises (pid timeout : Z) (before : gset Z)
    (remaining : nat) :
  forall retry hwnd,
    never_raises
      (WorkspaceLauncher.find_new_window pid timeout before remaining retry
         hwnd).
Proof.
  induction remaining as [|remaining IH]; intros retry hwnd; simpl.
  - apply never_raises_ret.
  - apply never_raises_bind; [never_raises_launch|]. intros _.
    apply never_raises_bind; [never_raises_launch|]. intros by_pid.
    apply never_raises_if; [apply never_raises_ret|].
    apply never_raises_bind; [never_raises_launch|]. intros _.
    apply never_raises_bind; [never_raises_launch|]. intros windows_now.
    destruct (filter _ windows_now); [apply IH|apply never_raises_ret].
Qed.

Lemma locate_window_never_raises (plan : WorkspaceLauncher.launch_plan)
    (pid : Z) (before : gset Z) :
  never_raises (WorkspaceLauncher.locate_window plan pid before).
Proof. apply find_new_window_never_raises. Qed.

Lemma arrange_window_never_raises (self : WorkspaceLauncher.t)
    (app : AppInstance.t) (desktop_index h : Z) :
  never_raises (WorkspaceLauncher.arrange_window self app desktop_index h).
Proof.
  unfold WorkspaceLauncher.arrange_window.
  pose proof windows_api_never_raises
    as (_ & _ & _ & _ & _ & _ & Hmove & _ & _ & _ & Hrestore & _ & _ & _ & _
        & Hresp).
  never_raises_launch; first [apply Hmove|apply Hrestore|apply Hresp].
Qed.

Section Frame.

(** A relation between the world before and the world after, kept by every
    step that logs an allowed call. *)
Variable I : World -> World -> Prop.
Variable allowed : call -> Prop.
Hypothesis I_refl : forall w, I w w.
Hypothesis I_trans : forall w1 w2 w3, I w1 w2 -> I w2 w3 -> I w1 w3.
Hypothesis I_log : forall c w, allowed c -> I w (log_call c w).

Lemma preserves_ret {A} (a : A) : preserves I (ret a).
Proof. intros env w r w' [= _ <-]. apply I_refl. Qed.

Lemma preserves_ask {A} (f : Env -> A) : preserves I (ask f).
Proof. intros env w r w' [= _ <-]. apply I_refl. Qed.

Lemma preserves_bind {A B} (m : M A) (k : A -> M B) :
  preserves I m -> (forall a, preserves I (k a)) -> preserves I (bind m k).
Proof.
  intros Hm Hk env w r w'. unfold bind.
  destruct (m env w) as [[a|e] w1] eqn:Hrun.
  - intros Hrun'. eapply I_trans; [by eapply Hm|by eapply Hk].
  - intros [= _ <-]. by eapply Hm.
Qed.

Lemma preserves_try {A} (m : M A) (catches : exn -> bool)
    (handler : exn -> M A) :
  preserves I m -> (forall e, preserves I (handler e)) ->
  preserves I (try_except m catches handler).
Proof.
  intros Hm Hh env w r w'. unfold try_except.
  destruct (m env w) as [[a|e] w1] eqn:Hrun.
  - intros [= _ <-]. by eapply Hm.
  - destruct (catches e).
    + intros Hrun'. eapply I_trans; [by eapply Hm|by eapply Hh].
    + intros [= _ <-]. by eapply Hm.
Qed.

Lemma preserves_raise {A} (e : exn) : preserves I (@raise A e).
Proof. intros env w r w' [= _ <-]. apply I_refl. Qed.

Lemma preserves_os_call {A} (c : call) (answer : Env -> nat -> result A) :
  allowed c -> preserves I (os_call c answer).
Proof. intros Hc env w r w' [= _ <-]. by apply I_log. Qed.

Lemma preserves_if {A} (b : bool) (m1 m2 : M A) :
  preserves I m1 -> preserves I m2 -> preserves I (if b then m1 else m2).
Proof. by destruct b. Qed.

Lemma preserves_match_option {A B} (o : option A) (m1 : A -> M B)
    (m2 : M B) :
  (forall a, preserves I (m1 a)) -> preserves I m2 ->
  preserves I (match o with Some a => m1 a | None => m2 end).
Proof. by destruct o. Qed.

Lemma preserves_match_list {A B} (l : list A) (m1 : M B)
    (m2 : A -> list A -> M B) :
  preserves I m1 -> (forall a l', preserves I (m2 a l')) ->
  preserves I (match l with [] => m1 | a :: l' => m2 a l' end).
Proof. by destruct l. Qed.

(** The computations below log no positioning call. *)
Hypothesis allowed_quiet : forall c, is_positioning c = false -> allowed c.

Ltac frame :=
  repeat first
    [ apply preserves_ret
    | apply preserves_raise
    | apply preserves_ask
    | apply preserves_os_call; apply allowed_quiet; reflexivity
    | apply preserves_try; [|intros ?]
    | apply preserves_if
    | apply preserves_match_option; [intros ?|]
    | apply preserves_match_list; [|intros ? ?]
    | apply preserves_bind; [|intros ?] ].

Lemma preserves_sleep (ms : Z) : preserves I (sleep ms).
Proof. unfold sleep. frame. Qed.

Lemma preserves_enum_callbacks (handles : list Z) :
  forall windows, preserves I (WindowsApi.enum_callbacks windows handles).
Proof.
  induction handles as [|h handles IH]; intros windows; simpl.
  - apply preserves_ret.
  - apply preserves_bind; [|intros ?; apply IH].
    unfold WindowsApi.enum_callback, WindowsApi.is_alt_tab_window,
      WindowsApi.get_window_text_safe, WindowsApi.get_class_name_safe,
      WindowsApi.get_process_info.
    frame.
Qed.

Lemma preserves_enumerate_windows : preserves I WindowsApi.enumerate_windows.
Proof.
  unfold WindowsApi.enumerate_windows.
  apply preserves_bind; [frame|]. intros ?. apply preserves_enum_callbacks.
Qed.

Lemma preserves_find_window_polls (wanted_pid : Z)
    (title_hint : option string) (polls : nat) :
  preserves I (WindowsApi.find_window_polls wanted_pid title_hint polls).
Proof.
  induction polls as [|polls IH]; simpl.
  - apply preserves_ret.
  - apply preserves_bind; [apply preserves_enumerate_windows|].
    intros windows. destruct (filter _ windows); [|apply preserves_ret].
    apply preserves_bind; [apply preserves_sleep|]. intros _. apply IH.
Qed.

Lemma preserves_find_window_by_pid (wanted_pid timeout_ms : Z)
    (title_hint : option string) :
  preserves I (WindowsApi.find_window_by_pid wanted_pid timeout_ms title_hint).
Proof.
  unfold WindowsApi.find_window_by_pid.
  apply preserves_bind; [frame|]. intros ?. apply preserves_find_window_polls.
Qed.

Lemma preserves_get_current_desktop (self : VirtualDesktopManager.t) :
  preserves I (VirtualDesktopManager.get_current_desktop self).
Proof. unfold VirtualDesktopManager.get_current_desktop. frame. Qed.

Lemma preserves_switch_to_desktop (self : VirtualDesktopManager.t) (i : Z) :
  preserves I (VirtualDesktopManager.switch_to_desktop self i).
Proof.
  unfold VirtualDesktopManager.switch_to_desktop.
  frame; first [apply preserves_sleep|apply preserves_get_current_desktop].
Qed.

Lemma preserves_get_desktop_count (self : VirtualDesktopManager.t) :
  preserves I (VirtualDesktopManager.get_desktop_count self).
Proof.
  unfold VirtualDesktopManager.get_desktop_count. frame.
Qed.

Lemma preserves_create_desktop (self : VirtualDesktopManager.t) :
  preserves I (VirtualDesktopManager.create_desktop self).
Proof.
  unfold VirtualDesktopManager.create_desktop,
    VirtualDesktopManager.send_win_ctrl_d.
  frame.
Qed.

Lemma preserves_create_desktops (self : VirtualDesktopManager.t) (total : Z)
    (remaining : nat) :
  forall i,
    preserves I (VirtualDesktopManager.create_desktops self total remaining i).
Proof.
  induction remaining as [|remaining IH]; intros i; simpl.
  - apply preserves_ret.
  - apply preserves_bind; [apply preserves_create_desktop|].
    intros created. apply preserves_if; [apply preserves_ret|].
    apply preserves_bind; [|intros _; apply IH].
    apply preserves_if; [apply preserves_sleep|apply preserves_ret].
Qed.

Lemma preserves_ensure_desktop_count (self : VirtualDesktopManager.t)
    (n : Z) :
  preserves I (VirtualDesktopManager.ensure_desktop_count self n).
Proof.
  unfold VirtualDesktopManager.ensure_desktop_count.
  apply preserves_if; [apply preserves_ret|].
  apply preserves_try; [|intros ?; apply preserves_raise].
  apply preserves_bind; [apply preserves_get_desktop_count|]. intros ?.
  apply preserves_if; [apply preserves_ret|].
  apply preserves_bind; [apply preserves_create_desktops|]. intros ?.
  apply preserves_if; [apply preserves_ret|].
  apply preserves_bind; [apply preserves_get_desktop_count|]. intros ?.
  apply preserves_ret.
Qed.

Lemma preserves_prepare_launch (app : AppInstance.t) :
  preserves I (WorkspaceLauncher.prepare_launch app).
Proof.
  unfold WorkspaceLauncher.prepare_launch.
  apply preserves_bind.
  { unfold WorkspaceLauncher.special_exe, WorkspaceLauncher.call_which.
    frame. }
  intros exe0. apply preserves_bind.
  { unfold WorkspaceLauncher.lookup_in_path, WorkspaceLauncher.call_which,
      WorkspaceLauncher.call_exists.
    destruct exe0; frame. }
  intros exe1. apply preserves_bind; [apply preserves_ask|].
  intros exe_str. apply preserves_bind.
  { unfold WorkspaceLauncher.usable_working_dir,
      WorkspaceLauncher.call_exists. frame. }
  intros cwd_ok. apply preserves_bind; [frame|].
  intros cwd0. destruct exe1; [apply preserves_ret|].
  unfold WorkspaceLauncher.usable_working_dir, WorkspaceLauncher.call_which,
    WorkspaceLauncher.call_exists.
  frame.
Qed.

Lemma preserves_before_popen (self : WorkspaceLauncher.t)
    (app : AppInstance.t) (desktop_index : Z) (skip : bool) :
  preserves I (WorkspaceLauncher.before_popen self app desktop_index skip).
Proof.
  unfold WorkspaceLauncher.before_popen.
  apply preserves_bind; [apply preserves_prepare_launch|]. intros plan.
  apply preserves_bind.
  { apply preserves_if; [|apply preserves_ret].
    apply preserves_bind; [apply preserves_switch_to_desktop|].
    intros _. apply preserves_sleep. }
  intros _. apply preserves_bind; [apply preserves_enumerate_windows|].
  intros ?. apply preserves_ret.
Qed.

Lemma preserves_start_process (plan : WorkspaceLauncher.launch_plan) :
  preserves I (WorkspaceLauncher.start_process plan).
Proof. unfold WorkspaceLauncher.start_process. frame. Qed.

Lemma preserves_find_new_window (pid timeout : Z) (before : gset Z)
    (remaining : nat) :
  forall retry hwnd,
    preserves I
      (WorkspaceLauncher.find_new_window pid timeout before remaining retry
         hwnd).
Proof.
  induction remaining as [|remaining IH]; intros retry hwnd; simpl.
  - apply preserves_ret.
  - apply preserves_bind.
    { apply preserves_if; [apply preserves_sleep|apply preserves_ret]. }
    intros _.
    apply preserves_bind; [apply preserves_find_window_by_pid|].
    intros by_pid. apply preserves_if; [apply preserves_ret|].
    apply preserves_bind; [apply preserves_sleep|]. intros _.
    apply preserves_bind; [apply preserves_enumerate_windows|].
    intros windows_now.
    destruct (filter _ windows_now); [apply IH|apply preserves_ret].
Qed.

Lemma preserves_locate_window (plan : WorkspaceLauncher.launch_plan)
    (pid : Z) (before : gset Z) :
  preserves I (WorkspaceLauncher.locate_window plan pid before).
Proof. apply preserves_find_new_window. Qed.

(** With every call allowed, positioning keeps the relation too. *)
Hypothesis allowed_all : forall c, allowed c.

Ltac frame_all :=
  repeat first
    [ apply preserves_ret
    | apply preserves_ask
    | apply preserves_sleep
    | apply preserves_os_call; apply allowed_all
    | apply preserves_try; [|intros ?]
    | apply preserves_if
    | apply preserves_bind; [|intros ?] ].

Lemma preserves_console_attempts (h x y width height tolerance : Z)
    (remaining : nat) :
  forall attempt,
    preserves I
      (WindowsApi.console_attempts h x y width height tolerance remaining
         attempt).
Proof.
  induction remaining as [|remaining IH]; intros attempt; simpl.
  - apply preserves_ret.
  - do 5 (apply preserves_bind; [frame_all|]; intros ?).
    apply preserves_bind; [frame_all|]. intros check_rect.
    apply preserves_if; [apply preserves_ret|apply IH].
Qed.

Lemma preserves_arrange_window (self : WorkspaceLauncher.t)
    (app : AppInstance.t) (desktop_index h : Z) :
  preserves I (WorkspaceLauncher.arrange_window self app desktop_index h).
Proof.
  unfold WorkspaceLauncher.arrange_window,
    VirtualDesktopManager.move_window_to_desktop, WindowsApi.restore_window,
    WindowsApi.move_window, WindowsApi.move_window_readback,
    WindowsApi.get_class_name_safe, WindowsApi.is_window_responding.
  frame_all; try apply preserves_console_attempts.
Qed.

Lemma preserves_launch_app (self : WorkspaceLauncher.t) (app : AppInstance.t)
    (desktop_index : Z) (skip : bool) :
  preserves I (WorkspaceLauncher._launch_app self app desktop_index skip).
Proof.
  unfold WorkspaceLauncher._launch_app.
  apply preserves_try; [|intros ?; apply preserves_ret].
  apply preserves_bind; [apply preserves_before_popen|]. intros prepared.
  apply preserves_bind; [apply preserves_start_process|]. intros pid.
  apply preserves_bind; [apply preserves_locate_window|]. intros hwnd.
  destruct hwnd as [h|]; [|apply preserves_ret].
  apply preserves_if; [|apply preserves_ret].
  apply preserves_bind; [apply preserves_arrange_window|].
  intros _. apply preserves_ret.
Qed.

End Frame.

Lemma same_state_refl (w : World) : same_state w w.
Proof. by repeat split. Qed.

Lemma same_state_trans (w1 w2 w3 : World) :
  same_state w1 w2 -> same_state w2 w3 -> same_state w1 w3.
Proof.
  intros (H1 & H2 & H3) (H4 & H5 & H6). repeat split; congruence.
Qed.

Lemma same_state_log (c : call) (w : World) :
  True -> same_state w (log_call c w).
Proof. by repeat split. Qed.

Lemma no_positioning_refl (w : World) : no_positioning w w.
Proof. exists []. by rewrite app_nil_r. Qed.

Lemma no_positioning_trans (w1 w2 w3 : World) :
  no_positioning w1 w2 -> no_positioning w2 w3 -> no_positioning w1 w3.
Proof.
  intros (m1 & E1 & F1) (m2 & E2 & F2). exists (m1 ++ m2)%list.
  split; [by rewrite E2, E1, app_assoc|]. by apply Forall_app.
Qed.

Lemma no_positioning_log (c : call) (w : World) :
  is_positioning c = false -> no_positioning w (log_call c w).
Proof. intros Hc. exists [c]. split; [done|]. by constructor. Qed.

(** [_launch_app] always returns a result for its app and leaves the list
    of results, the collection and the files alone. *)
Lemma launch_app_returns (self : WorkspaceLauncher.t) (app : AppInstance.t)
    (desktop_index : Z) (skip : bool) env w :
  exists r w',
    WorkspaceLauncher._launch_app self app desktop_index skip env w
      = (Ok r, w') /\
    LaunchResult.app_id r = AppInstance.id app /\
    same_state w w'.
Proof.
  destruct (WorkspaceLauncher._launch_app self app desktop_index skip env w)
    as [r w'] eqn:Hrun.
  assert (same_state w w') as Hsame.
  { eapply (preserves_launch_app same_state (fun _ => True)); eauto using
      same_state_refl, same_state_trans, same_state_log. }
  revert Hrun. unfold WorkspaceLauncher._launch_app, try_except.
  destruct (bind _ _ env w) as [[r0|e] w0] eqn:Hbody.
  - intros [= <- <-]. exists r0, w0. split; [done|]. split; [|done].
    unfold bind at 1 in Hbody.
    destruct (WorkspaceLauncher.before_popen _ _ _ _ env w)
      as [[prepared|?] w1]; [|done].
    unfold bind at 1 in Hbody.
    destruct (WorkspaceLauncher.start_process _ env w1) as [[pid|?] w2];
      [|done].
    unfold bind at 1 in Hbody.
    destruct (WorkspaceLauncher.locate_window _ _ _ env w2)
      as [[hwnd|?] w3]; [|done].
    destruct hwnd as [h|]; [|by injection Hbody as <- _].
    destruct (WorkspaceLauncher.truthy_hwnd (Some h));
      [|by injection Hbody as <- _].
    unfold bind in Hbody.
    destruct (WorkspaceLauncher.arrange_window _ _ _ _ env w3)
      as [[?|?] w4]; [|done].
    by injection Hbody as <- _.
  - cbn. intros [= <- <-]. by eexists _, _.
Qed.

Lemma quiet_before_popen (self : WorkspaceLauncher.t) (app : AppInstance.t)
    (desktop_index : Z) (skip : bool) :
  preserves no_positioning
    (WorkspaceLauncher.before_popen self app desktop_index skip).
Proof.
  apply (preserves_before_popen no_positioning
           (fun c => is_positioning c = false));
    eauto using no_positioning_refl, no_positioning_trans,
      no_positioning_log.
Qed.

Lemma quiet_start_process (plan : WorkspaceLauncher.launch_plan) :
  preserves no_positioning (WorkspaceLauncher.start_process plan).
Proof.
  apply (preserves_start_process no_positioning
           (fun c => is_positioning c = false));
    eauto using no_positioning_log.
Qed.

Lemma quiet_locate_window (plan : WorkspaceLauncher.launch_plan) (pid : Z)
    (before : gset Z) :
  preserves no_positioning (WorkspaceLauncher.locate_window plan pid before).
Proof.
  apply (preserves_locate_window no_positioning
           (fun c => is_positioning c = false));
    eauto using no_positioning_refl, no_positioning_trans,
      no_positioning_log.
Qed.

(** What [_launch_app] returns, phase by phase. *)
Lemma launch_app_cases (self : WorkspaceLauncher.t) (app : AppInstance.t)
    (desktop_index : Z) (skip : bool) (env : Env) (w : World) :
  match WorkspaceLauncher.before_popen self app desktop_index skip env w with
  | (Ok prepared, w1) =>
      match WorkspaceLauncher.start_process (fst prepared) env w1 with
      | (Raise e, w2) =>
          WorkspaceLauncher._launch_app self app desktop_index skip env w =
          (Ok (LaunchResult.mk (AppInstance.id app) false None None
                 (Some (WorkspaceLauncher.launch_error e))), w2)
      | (Ok pid, w2) =>
          match
            WorkspaceLauncher.locate_window (fst prepared) pid (snd prepared)
              env w2
          with
          | (Ok hwnd, w3) =>
              if WorkspaceLauncher.truthy_hwnd hwnd then
                exists w4,
                  WorkspaceLauncher._launch_app self app desktop_index skip
                    env w =
                  (Ok (LaunchResult.mk (AppInstance.id app) true (Some pid)
                         hwnd None), w4)
              else
                WorkspaceLauncher._launch_app self app desktop_index skip
                  env w =
                (Ok (LaunchResult.mk (AppInstance.id app) true (Some pid)
                       None (Some WorkspaceLauncher.window_not_detected)),
                 w3) /\
                no_positioning w w3
          | (Raise _, _) => False
          end
      end
  | (Raise e, w1) =>
      WorkspaceLauncher._launch_app self app desktop_index skip env w =
      (Ok (LaunchResult.mk (AppInstance.id app) false None None
             (Some (WorkspaceLauncher.launch_error e))), w1)
  end.
Proof.
  destruct (WorkspaceLauncher.before_popen self app desktop_index skip env w)
    as [[prepared|e0] w1] eqn:Hpre.
  2:{ unfold WorkspaceLauncher._launch_app, try_except, bind.
      by rewrite Hpre. }
  destruct (WorkspaceLauncher.start_process (fst prepared) env w1)
    as [[pid|e] w2] eqn:Hstart.
  2:{ unfold WorkspaceLauncher._launch_app, try_except, bind.
      by rewrite Hpre, Hstart. }
  destruct (locate_window_never_raises (fst prepared) pid (snd prepared)
              env w2) as (hwnd & w3 & Hloc).
  rewrite Hloc.
  assert (no_positioning w w3) as Hquiet.
  { eapply no_positioning_trans; [by eapply quiet_before_popen|].
    eapply no_positioning_trans; [by eapply quiet_start_process|].
    by eapply quiet_locate_window. }
  destruct (WorkspaceLauncher.truthy_hwnd hwnd) eqn:Htruthy.
  - destruct hwnd as [h|]; [|done].
    destruct (arrange_window_never_raises self app desktop_index h env w3)
      as ([] & w4 & Harr).
    exists w4. unfold WorkspaceLauncher._launch_app, try_except, bind.
    by rewrite Hpre, Hstart, Hloc, Htruthy, Harr.
  - split; [|done].
    unfold WorkspaceLauncher._launch_app, try_except, bind.
    rewrite Hpre, Hstart, Hloc.
    destruct hwnd as [h|]; [|done]. by rewrite Htruthy.
Qed.

Lemma launch_group_spec (self : WorkspaceLauncher.t) (dry_run sequential : bool)
    (desktop_idx : Z) (apps : list AppInstance.t) :
  forall env w,
    exists fresh w',
      WorkspaceLauncher.launch_group self dry_run sequential desktop_idx apps
        env w = (Ok tt, w') /\
      launch_results w' = (launch_results w ++ fresh)%list /\
      LaunchResult.app_id <$> fresh = AppInstance.id <$> apps.
Proof.
  induction apps as [|app apps IH]; intros env w.
  - exists [], w. by rewrite app_nil_r.
  - cbn [WorkspaceLauncher.launch_group]. unfold bind at 1.
    assert (exists r w1,
      (if dry_run
       then ret (LaunchResult.mk (AppInstance.id app) true None None
                   (Some "Dry run - not launched"))
       else WorkspaceLauncher._launch_app self app desktop_idx true) env w
        = (Ok r, w1) /\
      LaunchResult.app_id r = AppInstance.id app /\
      launch_results w1 = launch_results w) as (r & w1 & -> & Hid & Hres).
    { destruct dry_run; [by eexists _, _|].
      destruct (launch_app_returns self app desktop_idx true env w)
        as (r & w1 & Hrun & Hid & Hsame & _).
      by exists r, w1. }
    unfold bind at 1, WorkspaceLauncher.append_result at 1, update_world at 1.
    unfold bind at 1.
    set (w2 := set_launch_results (launch_results w1 ++ [r]) w1).
    assert (exists w3,
      (if sequential && negb dry_run then sleep 2000 else ret tt) env w2
        = (Ok tt, w3) /\ launch_results w3 = launch_results w2)
      as (w3 & -> & Hres3).
    { destruct (sequential && negb dry_run); by eexists. }
    destruct (IH env w3) as (fresh & w' & -> & Hres' & Hids).
    exists (r :: fresh), w'. split; [done|]. split.
    + rewrite Hres', Hres3. unfold w2. cbn [launch_results set_launch_results].
      by rewrite Hres, <- app_assoc.
    + by rewrite !fmap_cons, Hid, Hids.
Qed.

Lemma switch_to_desktop_returns (self : VirtualDesktopManager.t) (i : Z)
    env w :
  exists b w',
    VirtualDesktopManager.switch_to_desktop self i env w = (Ok b, w') /\
    launch_results w' = launch_results w.
Proof.
  destruct (proj1 (proj2 (proj2 (proj2 (proj2
              (virtual_desktops_never_raise self))))) i env w)
    as (b & w' & Hrun).
  exists b, w'. split; [done|].
  eapply (preserves_switch_to_desktop same_state (fun _ => True));
    eauto using same_state_refl, same_state_trans, same_state_log.
Qed.

Lemma launch_groups_spec (self : WorkspaceLauncher.t)
    (dry_run sequential : bool)
    (apps_by_desktop : list (Z * list AppInstance.t)) (keys : list Z) :
  forall env w,
    exists fresh w',
      WorkspaceLauncher.launch_groups self dry_run sequential apps_by_desktop
        keys env w = (Ok tt, w') /\
      launch_results w' = (launch_results w ++ fresh)%list /\
      LaunchResult.app_id <$> fresh =
        AppInstance.id <$>
          concat (WorkspaceLauncher.group_get apps_by_desktop <$> keys).
Proof.
  induction keys as [|key keys IH]; intros env w.
  - exists [], w. by rewrite app_nil_r.
  - cbn [WorkspaceLauncher.launch_groups]. unfold bind at 1.
    assert (exists w1,
      (if negb dry_run &&
          bool_decide
            (0 < length (WorkspaceLauncher.group_get apps_by_desktop key))%nat
       then
         (VirtualDesktopManager.switch_to_desktop
            (WorkspaceLauncher.vd_manager self) key ;; sleep 500)%M
       else ret tt) env w = (Ok tt, w1) /\
      launch_results w1 = launch_results w) as (w1 & -> & Hres1).
    { destruct (negb dry_run && _); [|by eexists].
      unfold bind.
      destruct (switch_to_desktop_returns
                  (WorkspaceLauncher.vd_manager self) key env w)
        as (b & w1 & -> & Hres).
      by eexists. }
    unfold bind at 1.
    destruct (launch_group_spec self dry_run sequential key
                (WorkspaceLauncher.group_get apps_by_desktop key) env w1)
      as (fresh1 & w2 & -> & Hres2 & Hids1).
    destruct (IH env w2) as (fresh2 & w' & -> & Hres' & Hids2).
    exists (fresh1 ++ fresh2)%list, w'. split; [done|]. split.
    + by rewrite Hres', Hres2, Hres1, app_assoc.
    + rewrite fmap_cons. cbn [concat]. by rewrite !fmap_app, Hids1, Hids2.
Qed.

(** The apps in the order in which [launch_workspace] processes them:
    desktop by desktop in ascending order, in declaration order within a
    desktop. *)
Lemma launch_workspace_spec (self : WorkspaceLauncher.t)
    (workspace : Workspace.t) (dry_run sequential : bool) env w :
  match
    WorkspaceLauncher.launch_workspace self workspace dry_run sequential env w
  with
  | (Ok b, w') =>
      (Workspace.apps workspace = [] -> b = true /\ w' = w) /\
      (Workspace.apps workspace <> [] ->
       (b = true <->
        forall r, r ∈ launch_results w' -> LaunchResult.success r = true) /\
       LaunchResult.app_id <$> launch_results w' =
         AppInstance.id <$>
           concat
             (WorkspaceLauncher.group_get
                (WorkspaceLauncher._group_apps_by_desktop
                   (Workspace.apps workspace)) <$>
              merge_sort Z.le
                (fst <$> WorkspaceLauncher._group_apps_by_desktop
                           (Workspace.apps workspace))))
  | (Raise e, _) =>
      dry_run = false /\ Workspace.apps workspace <> [] /\
      exists msg, e = VirtualDesktopError msg
  end.
Proof.
  unfold WorkspaceLauncher.launch_workspace.
  destruct (Workspace.apps workspace) as [|app apps] eqn:Happs.
  { cbn. split; [done|]. by intros []. }
  rewrite <- Happs.
  assert (Workspace.apps workspace <> []) as Hne by (by rewrite Happs).
  clear Happs.
  unfold bind at 1, update_world at 1.
  set (w0 := set_launch_results [] w).
  unfold bind at 1.
  destruct dry_run; cbn [negb].
  - cbn [ret]. unfold bind at 1.
    destruct (launch_groups_spec self true sequential
                (WorkspaceLauncher._group_apps_by_desktop
                   (Workspace.apps workspace))
                (merge_sort Z.le
                   (fst <$> WorkspaceLauncher._group_apps_by_desktop
                              (Workspace.apps workspace))) env w0)
      as (fresh & w' & -> & Hres & Hids).
    cbn. split; [done|]. intros _. unfold w0 in Hres. cbn in Hres.
    rewrite Hres. split; [|done].
    rewrite bool_decide_eq_true, length_zero_iff_nil. split.
    + intros Hnil r Hr. destruct (LaunchResult.success r) eqn:Hs; [done|].
      assert (r ∈ filter (fun r => LaunchResult.success r = false) fresh)
        as Hin by (by apply list_elem_of_filter).
      rewrite Hnil in Hin. by apply elem_of_nil in Hin.
    + intros Hall. apply filter_none_nil. intros r Hr Hs.
      rewrite (Hall r Hr) in Hs. done.
  - unfold bind at 1.
    destruct (VirtualDesktopManager.ensure_desktop_count
                (WorkspaceLauncher.vd_manager self)
                (Workspace.get_required_desktops workspace) env w0)
      as [[ok|e] w1] eqn:Hensure.
    + assert (launch_results w1 = []) as Hres1.
      { eapply (preserves_ensure_desktop_count same_state (fun _ => True))
          in Hensure as (-> & _);
          eauto using same_state_refl, same_state_trans, same_state_log. }
      cbn [ret]. unfold bind at 1.
      destruct (launch_groups_spec self false sequential
                  (WorkspaceLauncher._group_apps_by_desktop
                     (Workspace.apps workspace))
                  (merge_sort Z.le
                     (fst <$> WorkspaceLauncher._group_apps_by_desktop
                                (Workspace.apps workspace))) env w1)
        as (fresh & w' & -> & Hres & Hids).
      cbn. split; [done|]. intros _. rewrite Hres1 in Hres. cbn in Hres.
      rewrite Hres. split; [|done].
      rewrite bool_decide_eq_true, length_zero_iff_nil. split.
      * intros Hnil r Hr. destruct (LaunchResult.success r) eqn:Hs; [done|].
        assert (r ∈ filter (fun r => LaunchResult.success r = false) fresh)
          as Hin by (by apply list_elem_of_filter).
        rewrite Hnil in Hin. by apply elem_of_nil in Hin.
      * intros Hall. apply filter_none_nil. intros r Hr Hs.
        rewrite (Hall r Hr) in Hs. done.
    + split; [done|]. split; [done|].
      assert (raises (VirtualDesktopManager.ensure_desktop_count
                        (WorkspaceLauncher.vd_manager self)
                        (Workspace.get_required_desktops workspace))
                env w0 e) as Hr by (by exists w1).
      apply ensure_desktop_count_raises in Hr as (_ & t & e0 & _ & ->).
      by eexists.
Qed.

(** *** The launch order is a rearrangement of the apps *)

Lemma concat_Permutation_proper {A} (ls ks : list (list A)) :
  ls ≡ₚ ks -> concat ls ≡ₚ concat ks.
Proof.
  induction 1 as [|l ls ks _ IH|l k ls|ls ks ms _ IH1 _ IH2]; cbn.
  - done.
  - by rewrite IH.
  - rewrite !app_assoc. by rewrite (comm app k l).
  - by rewrite IH1.
Qed.

Lemma group_insert_keys_NoDup (grouped : list (Z * list AppInstance.t))
    (desktop : Z) (app : AppInstance.t) :
  NoDup (fst <$> grouped) ->
  NoDup (fst <$> WorkspaceLauncher.group_insert grouped desktop app) /\
  (forall k, k ∈ (fst <$> WorkspaceLauncher.group_insert grouped desktop app)
             -> k = desktop \/ k ∈ (fst <$> grouped)).
Proof.
  induction grouped as [|[d apps] grouped IH]; cbn.
  - intros _. split; [apply NoDup_singleton|].
    intros k [->|[]%elem_of_nil]%elem_of_cons. by left.
  - rewrite NoDup_cons. intros [Hd Hnd].
    destruct (Z.eqb_spec d desktop) as [->|Hne]; cbn.
    + split; [by apply NoDup_cons|]. intros k Hk. by right.
    + destruct (IH Hnd) as [IHnd IHin]. split.
      * apply NoDup_cons. split; [|done].
        intros [->|Hin]%IHin; [done|by apply Hd].
      * intros k [->|Hk]%elem_of_cons; [right; by left|].
        destruct (IHin k Hk) as [->|Hin]; [by left|right; by right].
Qed.

Lemma group_insert_concat (grouped : list (Z * list AppInstance.t))
    (desktop : Z) (app : AppInstance.t) :
  concat (snd <$> WorkspaceLauncher.group_insert grouped desktop app) ≡ₚ
  concat (snd <$> grouped) ++ [app].
Proof.
  induction grouped as [|[d apps] grouped IH]; cbn; [done|].
  destruct (d =? desktop); cbn.
  - rewrite <- !app_assoc. apply Permutation_app_head.
    apply Permutation_app_comm.
  - by rewrite IH, app_assoc.
Qed.

Lemma group_fold_spec (apps : list AppInstance.t) :
  forall grouped,
    NoDup (fst <$> grouped) ->
    let folded :=
      foldl (fun g app =>
               WorkspaceLauncher.group_insert g
                 (AppInstance.virtual_desktop app) app)
        grouped apps in
    NoDup (fst <$> folded) /\
    concat (snd <$> folded) ≡ₚ concat (snd <$> grouped) ++ apps.
Proof.
  induction apps as [|app apps IH]; intros grouped Hnd; cbn.
  - split; [done|]. by rewrite app_nil_r.
  - destruct (group_insert_keys_NoDup grouped
                (AppInstance.virtual_desktop app) app Hnd) as [Hnd' _].
    destruct (IH _ Hnd') as [Hnd'' Hperm]. split; [done|].
    rewrite Hperm, group_insert_concat. by rewrite <- app_assoc.
Qed.

Lemma group_get_own_keys (grouped : list (Z * list AppInstance.t)) :
  NoDup (fst <$> grouped) ->
  WorkspaceLauncher.group_get grouped <$> (fst <$> grouped) = snd <$> grouped.
Proof.
  induction grouped as [|[d apps] grouped IH]; [done|].
  rewrite !fmap_cons, NoDup_cons. cbn [fst snd]. intros [Hd Hnd].
  cbn [WorkspaceLauncher.group_get]. rewrite Z.eqb_refl. f_equal.
  rewrite <- IH by done. apply list_fmap_ext. intros i k Hk.
  cbn [WorkspaceLauncher.group_get].
  destruct (Z.eqb_spec d k) as [->|Hne]; [|done].
  exfalso. apply Hd. by eapply list_elem_of_lookup_2.
Qed.

(** Grouping by desktop and walking the desktops in ascending order visits
    every app exactly once. *)
Lemma launch_order_Permutation (apps : list AppInstance.t) :
  concat
    (WorkspaceLauncher.group_get
       (WorkspaceLauncher._group_apps_by_desktop apps) <$>
     merge_sort Z.le
       (fst <$> WorkspaceLauncher._group_apps_by_desktop apps))
  ≡ₚ apps.
Proof.
  destruct (group_fold_spec apps [] (NoDup_nil_2)) as [Hnd Hperm].
  fold (WorkspaceLauncher._group_apps_by_desktop apps) in Hnd, Hperm.
  rewrite (concat_Permutation_proper _
             (WorkspaceLauncher.group_get
                (WorkspaceLauncher._group_apps_by_desktop apps) <$>
              (fst <$> WorkspaceLauncher._group_apps_by_desktop apps))).
  - by rewrite group_get_own_keys, Hperm.
  - apply fmap_Permutation, merge_sort_Permutation.
Qed.

(** A launch of a workspace with apps leaves exactly one result per app. *)
Lemma launch_workspace_one_result_per_app (self : WorkspaceLauncher.t)
    (workspace : Workspace.t) (dry_run sequential : bool) env w b w' :
  Workspace.apps workspace <> [] ->
  WorkspaceLauncher.launch_workspace self workspace dry_run sequential env w
    = (Ok b, w') ->
  LaunchResult.app_id <$> launch_results w' ≡ₚ
  AppInstance.id <$> Workspace.apps workspace.
Proof.
  intros Hne Hrun.
  pose proof (launch_workspace_spec self workspace dry_run sequential env w)
    as Hspec.
  rewrite Hrun in Hspec. destruct Hspec as [_ Hspec].
  destruct (Hspec Hne) as [_ ->].
  apply fmap_Permutation, launch_order_Permutation.
Qed.


(** A process that starts while no window ever shows up: the app is reported
    as launched, with the note. *)
Example launch_without_window :
  fst (WorkspaceLauncher._launch_app
         (WorkspaceLauncher.mk (VirtualDesktopManager.mk false))
         (AppInstance.mk "editor" "C:/editor.exe" [] None 0
            (WindowConfig.mk 0 0 800 600))
         0 true ok_env start) =
  Ok (LaunchResult.mk "editor" true (Some 4242) None
        (Some WorkspaceLauncher.window_not_detected)).
Proof. by vm_compute. Qed.

(** A path lookup that raises while the command is prepared: the app is
    reported as failed, with the text of the exception, and no process is
    started. *)
Example launch_fails_before_start :
  let run :=
    WorkspaceLauncher._launch_app
      (WorkspaceLauncher.mk (VirtualDesktopManager.mk false))
      (AppInstance.mk "editor" "C:/editor.exe" [] None 0
         (WindowConfig.mk 0 0 800 600))
      0 true failing_env start in
  fst run = Ok (LaunchResult.mk "editor" false None None (Some "boom")) /\
  forallb (fun c => negb (is_popen c)) (calls (snd run)) = true.
Proof. by vm_compute. Qed.

(** *** The retry pass (launcher.py) *)

Lemma retry_apps_spec (self : WorkspaceLauncher.t)
    (apps : list AppInstance.t) :
  forall all_success env w,
    exists fresh w',
      WorkspaceLauncher.retry_apps self apps all_success env w =
        (Ok (all_success && forallb LaunchResult.success fresh), w') /\
      launch_results w' = (launch_results w ++ fresh)%list /\
      LaunchResult.app_id <$> fresh = AppInstance.id <$> apps.
Proof.
  induction apps as [|app apps IH]; intros all_success env w.
  - exists [], w. cbn. by rewrite andb_true_r, app_nil_r.
  - cbn [WorkspaceLauncher.retry_apps]. unfold bind at 1.
    destruct (launch_app_returns self app (AppInstance.virtual_desktop app)
                false env w) as (r & w1 & -> & Hid & Hres & _).
    unfold bind at 1, WorkspaceLauncher.append_result at 1, update_world at 1.
    unfold bind at 1, sleep at 1, os_call at 1.
    set (w2 := log_call (Sleep 1000)
                 (set_launch_results (launch_results w1 ++ [r]) w1)).
    destruct (IH (if LaunchResult.success r then all_success else false)
                env w2) as (fresh & w' & -> & Hres' & Hids).
    exists (r :: fresh), w'. split; [|split].
    + f_equal. f_equal. cbn [forallb].
      by destruct (LaunchResult.success r), all_success.
    + rewrite Hres'. unfold w2. cbn. by rewrite Hres, <- app_assoc.
    + by rewrite !fmap_cons, Hid, Hids.
Qed.

Lemma NoDup_fmap_inj_on {A B} (f : A -> B) (l : list A) (x y : A) :
  NoDup (f <$> l) -> x ∈ l -> y ∈ l -> f x = f y -> x = y.
Proof.
  induction l as [|a l IH]; [by intros _ ?%elem_of_nil|].
  rewrite fmap_cons, NoDup_cons.
  intros [Hnotin Hnd] [->|Hx]%elem_of_cons [->|Hy]%elem_of_cons Hf;
    [done| | |by apply IH].
  - exfalso. apply Hnotin. rewrite Hf. apply list_elem_of_fmap. by exists y.
  - exfalso. apply Hnotin. rewrite <- Hf. apply list_elem_of_fmap.
    by exists x.
Qed.

Lemma failed_ids_failed_in (prior : list LaunchResult.t)
    (app : AppInstance.t) :
  AppInstance.id app ∈ WorkspaceLauncher.get_failed_apps prior <->
  failed_in prior app.
Proof.
  unfold WorkspaceLauncher.get_failed_apps, failed_in.
  rewrite list_elem_of_fmap, Exists_exists. split.
  - intros (r & Hid & [Hs Hin]%list_elem_of_filter). by exists r.
  - intros (r & Hin & Hid & Hs). exists r. split; [done|].
    by apply list_elem_of_filter.
Qed.

Lemma set_launch_results_same (w : World) :
  set_launch_results (launch_results w) w = w.
Proof. by destruct w. Qed.

Lemma filter_iff_on {A} (P1 P2 : A -> Prop)
    `{!forall x, Decision (P1 x), !forall x, Decision (P2 x)} (l : list A) :
  (forall x, x ∈ l -> P1 x <-> P2 x) -> filter P1 l = filter P2 l.
Proof.
  induction l as [|a l IH]; intros Hiff; [done|].
  assert (filter P1 l = filter P2 l) as Htail
    by (apply IH; intros x Hx; apply Hiff; by right).
  destruct (decide (P1 a)) as [Ha|Ha].
  - rewrite !filter_cons_True, Htail; [done| |done].
    apply Hiff; [by left|done].
  - rewrite !filter_cons_False, Htail; [done| |done].
    intros Ha2. apply Ha. apply Hiff; [by left|done].
Qed.

Lemma filter_fmap_comm {A B} (f : A -> B) (P : B -> Prop)
    `{!forall y, Decision (P y)} (l : list A) :
  filter P (f <$> l) = f <$> filter (fun x => P (f x)) l.
Proof.
  induction l as [|a l IH]; [done|]. rewrite fmap_cons.
  destruct (decide (P (f a))).
  - by rewrite !filter_cons_True, fmap_cons, IH.
  - by rewrite !filter_cons_False, IH.
Qed.

(** With one entry per id, the entries kept by the retry pass are the
    successes. *)
Lemma kept_results_successes (prior : list LaunchResult.t) :
  NoDup (LaunchResult.app_id <$> prior) ->
  filter (fun r => LaunchResult.app_id r ∉
                     WorkspaceLauncher.get_failed_apps prior) prior =
  filter (fun r => LaunchResult.success r = true) prior.
Proof.
  intros Hnd. apply filter_iff_on. intros r Hr. split.
  - intros Hnot. destruct (LaunchResult.success r) eqn:Hs; [done|].
    exfalso. apply Hnot. unfold WorkspaceLauncher.get_failed_apps.
    apply list_elem_of_fmap. exists r. split; [done|].
    by apply list_elem_of_filter.
  - intros Hs. unfold WorkspaceLauncher.get_failed_apps.
    intros (r' & Hid & [Hs' Hin]%list_elem_of_filter)%list_elem_of_fmap.
    assert (r = r') as -> by (by eapply NoDup_fmap_inj_on).
    congruence.
Qed.




(** *** Checks on concrete inputs *)

(** Required desktops: none without apps, three for desktops 0, 2, 1. *)
Example required_desktops_examples :
  let app d := AppInstance.mk "a" "a.exe" [] None d (WindowConfig.mk 0 0 1 1) in
  Workspace.get_required_desktops (Workspace.mk "w" "" []) = 1 /\
  Workspace.get_required_desktops (Workspace.mk "w" "" [app 0; app 2; app 1])
    = 3 /\
  Workspace.get_required_desktops (Workspace.mk "w" "" [app 0; app 0]) = 1.
Proof. by vm_compute. Qed.

(** A readback 80 pixels off in position and exact in size: accepted for a
    console window, refused for another window. *)
Example move_window_tolerance_asymmetry :
  fst (WindowsApi.move_window 5 100 100 800 600
         (window_env "ConsoleWindowClass" (mkRect 180 100 980 700)) start)
    = Ok true /\
  fst (WindowsApi.move_window 5 100 100 800 600
         (window_env "Notepad" (mkRect 180 100 980 700)) start)
    = Ok false.
Proof. by vm_compute. Qed.

(** A difference of exactly the tolerance is not within it. *)
Example move_window_tolerance_is_strict :
  fst (WindowsApi.move_window 5 100 100 800 600
         (window_env "Notepad" (mkRect 150 100 950 700)) start)
    = Ok false /\
  fst (WindowsApi.move_window 5 100 100 800 600
         (window_env "Notepad" (mkRect 149 100 949 700)) start)
    = Ok true.
Proof. by vm_compute. Qed.

(** Apps on desktops 1, 0, 0, 1 are launched desktop 0 first, in declared
    order, with one switch per desktop. *)
Example launch_order_by_desktop :
  let app i d :=
    AppInstance.mk i "C:/app.exe" [] None d (WindowConfig.mk 0 0 800 600) in
  let run :=
    WorkspaceLauncher.launch_workspace
      (WorkspaceLauncher.mk (VirtualDesktopManager.mk true))
      (Workspace.mk "dev" "" [app "p" 1; app "q" 0; app "r" 0; app "s" 1])
      false false ok_env start in
  fst run = Ok true /\
  LaunchResult.app_id <$> launch_results (snd run) = ["q"; "r"; "p"; "s"] /\
  filter (fun c => match c with VirtualDesktopGo _ => true | _ => false end
                   = true)
    (calls (snd run)) = [VirtualDesktopGo 1; VirtualDesktopGo 2].
Proof. by vm_compute. Qed.

(** Loading a file that holds [{}] gives the empty collection. *)
Example load_without_workspaces_key :
  fst (ConfigManager.load (ConfigManager.mk "workspaces.json") ok_env
         (set_files {[ "workspaces.json" := Doc (JDict []) ]} start))
    = Ok (WorkspaceCollection.mk []).
Proof. by vm_compute. Qed.

(** When the file is missing and the empty collection cannot be written,
    [load] wraps the error of [save]. *)
Example load_wraps_errors :
  fst (ConfigManager.load (ConfigManager.mk "workspaces.json") failing_env
         start)
    = Raise (ConfigError
               "Error loading configuration: Error saving configuration: boom").
Proof. by vm_compute. Qed.

(** *** List facts shared by the proofs below *)

Lemma filter_length_lt {A} (P : A -> Prop) `{forall x, Decision (P x)}
    (l : list A) :
  (length (filter P l) < length l)%nat <-> exists x, x ∈ l /\ ~ P x.
Proof.
  induction l as [|y l IH].
  - cbn. split; [lia|]. by intros (x & ?%elem_of_nil & _).
  - pose proof (length_filter P l) as Hle. destruct (decide (P y)) as [Hy|Hy].
    + rewrite filter_cons_True by done. cbn [length].
      rewrite <- Nat.succ_lt_mono, IH. split.
      * intros (x & Hx & Hn). exists x. split; [by right|done].
      * intros (x & [->|Hx]%elem_of_cons & Hn); [done|by exists x].
    + rewrite filter_cons_False by done. cbn [length]. split; [|lia].
      intros _. exists y. split; [by left|done].
Qed.

(** *** Further properties of the records (models.py) *)

Lemma WorkspaceCollection_round_trip (c : WorkspaceCollection.t) :
  WorkspaceCollection.from_dict (WorkspaceCollection.to_dict c) = Ok c.
Proof.
  destruct c as [wss].
  pose proof (rmap_ok_fmap
    (fun ws => let* d := as_subscriptable ws in Workspace.from_dict d)%result
    (fun ws => JDict (Workspace.to_dict ws)) wss Workspace_round_trip) as H.
  unfold WorkspaceCollection.from_dict, WorkspaceCollection.to_dict,
    dict_get_default.
  cbn. cbn in H. by rewrite H.
Qed.

(** X1. A collection survives the round trip through its dictionary form:
    [from_dict (to_dict c)] returns [c], whatever the workspaces and apps it
    holds. *)
Theorem collection_round_trip (c : WorkspaceCollection.t) :
  WorkspaceCollection.from_dict (WorkspaceCollection.to_dict c) = Ok c.
Proof. apply WorkspaceCollection_round_trip. Qed.

Lemma foldl_max_ge (l : list AppInstance.t) (m : Z) :
  m <= foldl (fun m a => Z.max m (AppInstance.virtual_desktop a)) m l /\
  (forall a, a ∈ l ->
     AppInstance.virtual_desktop a <=
     foldl (fun m a => Z.max m (AppInstance.virtual_desktop a)) m l).
Proof.
  revert m. induction l as [|b l IH]; intros m; cbn.
  - split; [lia|]. by intros a ?%elem_of_nil.
  - destruct (IH (Z.max m (AppInstance.virtual_desktop b))) as [H1 H2].
    split; [lia|]. intros a [->|Hin]%elem_of_cons; [lia|by apply H2].
Qed.

Lemma foldl_max_attained (l : list AppInstance.t) (m : Z) :
  foldl (fun m a => Z.max m (AppInstance.virtual_desktop a)) m l = m \/
  exists a, a ∈ l /\
    foldl (fun m a => Z.max m (AppInstance.virtual_desktop a)) m l =
    AppInstance.virtual_desktop a.
Proof.
  revert m. induction l as [|b l IH]; intros m; cbn; [by left|].
  destruct (IH (Z.max m (AppInstance.virtual_desktop b))) as [->|(a & Ha & ->)].
  - destruct (Z.max_spec m (AppInstance.virtual_desktop b)) as [[_ ->]|[_ ->]].
    + right. exists b. split; [by left|done].
    + by left.
  - right. exists a. split; [by right|done].
Qed.

(** X2. [get_required_desktops] is one more than the largest desktop index of
    the apps: every app's index is below it and, when there are apps, some
    app's index is exactly one below it. It is at least 1 as soon as no index
    is negative, and it may be 0 or negative otherwise. *)
Theorem required_desktops_bounds (w : Workspace.t) :
  (forall a, a ∈ Workspace.apps w ->
     AppInstance.virtual_desktop a < Workspace.get_required_desktops w) /\
  (Workspace.apps w <> [] ->
   exists a, a ∈ Workspace.apps w /\
     Workspace.get_required_desktops w = AppInstance.virtual_desktop a + 1) /\
  (Workspace.apps w = [] -> Workspace.get_required_desktops w = 1) /\
  ((forall a, a ∈ Workspace.apps w -> 0 <= AppInstance.virtual_desktop a) ->
   1 <= Workspace.get_required_desktops w).
Proof.
  unfold Workspace.get_required_desktops.
  destruct (Workspace.apps w) as [|b l]; [repeat split; try done; try lia|].
  { by intros a ?%elem_of_nil. }
  destruct (foldl_max_ge l (AppInstance.virtual_desktop b)) as [H1 H2].
  assert (exists a, a ∈ b :: l /\
            foldl (fun m a => Z.max m (AppInstance.virtual_desktop a))
              (AppInstance.virtual_desktop b) l =
            AppInstance.virtual_desktop a) as Hatt.
  { destruct (foldl_max_attained l (AppInstance.virtual_desktop b))
      as [->|(a & Ha & ->)].
    - exists b. split; [by left|done].
    - exists a. split; [by right|done]. }
  repeat split.
  - intros a [->|Hin]%elem_of_cons; [lia|]. specialize (H2 a Hin). lia.
  - intros _. destruct Hatt as (a & Ha & ->). by exists a.
  - done.
  - intros Hpos. specialize (Hpos b (ltac:(by left))). lia.
Qed.

(** X3. Adding an app appends it: the earlier apps keep their place, and
    looking the new id up finds the first app that carries it, which is the new
    app only when the id was not in use. Removing an id removes every app that
    carries it, reports whether there was one, and leaves the other apps in
    order; a lookup of the removed id then finds nothing. *)
Theorem workspace_app_operations (w : Workspace.t) (a : AppInstance.t)
    (i : string) :
  Workspace.apps (Workspace.add_app w a) = (Workspace.apps w ++ [a])%list /\
  Workspace.get_app (Workspace.add_app w a) (AppInstance.id a) =
    Some (default a (Workspace.get_app w (AppInstance.id a))) /\
  (forall j, j <> AppInstance.id a ->
     Workspace.get_app (Workspace.add_app w a) j = Workspace.get_app w j) /\
  Workspace.get_app (fst (Workspace.remove_app w i)) i = None /\
  (forall j, j <> i ->
     Workspace.get_app (fst (Workspace.remove_app w i)) j =
     Workspace.get_app w j) /\
  (snd (Workspace.remove_app w i) = true <->
   i ∈ AppInstance.id <$> Workspace.apps w) /\
  (snd (Workspace.remove_app w i) = false ->
   fst (Workspace.remove_app w i) = w) /\
  (forall b, Workspace.get_app w i = Some b ->
     b ∈ Workspace.apps w /\ AppInstance.id b = i).
Proof.
  destruct w as [n d l]. unfold Workspace.get_app, Workspace.add_app,
    Workspace.remove_app. cbn [Workspace.apps Workspace.name
    Workspace.description fst snd].
  split; [done|]. split.
  { rewrite filter_app, filter_cons_True, filter_nil by done.
    destruct (filter _ l); done. }
  split.
  { intros j Hj. rewrite filter_app, filter_cons_False, filter_nil by done.
    by rewrite app_nil_r. }
  split.
  { rewrite list_filter_filter. rewrite filter_none_nil; [done|].
    intros x _ [H1 H2]. done. }
  split.
  { intros j Hj. rewrite list_filter_filter. f_equal.
    apply list_filter_iff. intros x. split; [by intros [? _]|].
    intros Hx. split; [done|]. congruence. }
  split.
  { rewrite bool_decide_eq_true, filter_length_lt, list_elem_of_fmap.
    split.
    - intros (x & Hx & Hn). exists x. split; [|done].
      by destruct (decide (AppInstance.id x = i)).
    - intros (x & -> & Hx). exists x. split; [done|]. by intros Hn. }
  split.
  { rewrite bool_decide_eq_false, filter_length_lt. intros Hnone. f_equal.
    apply filter_all_id. intros x Hx Hid. apply Hnone. exists x.
    split; [done|]. by intros Hn. }
  intros b Hb. apply head_Some_elem_of in Hb.
  by apply list_elem_of_filter in Hb as [? ?].
Qed.

(** *** Further properties of the configuration store (config.py) *)

Lemma handle_with_three {A} (c1 c2 : exn -> bool) (h1 h2 h3 : exn -> M A)
    (e : exn) env w r w' :
  (forall e0 env0 w0 r0 w0', h1 e0 env0 w0 = (r0, w0') ->
     exists msg, r0 = Raise (ConfigError msg)) ->
  (forall e0 env0 w0 r0 w0', h2 e0 env0 w0 = (r0, w0') ->
     exists msg, r0 = Raise (ConfigError msg)) ->
  (forall e0 env0 w0 r0 w0', h3 e0 env0 w0 = (r0, w0') ->
     exists msg, r0 = Raise (ConfigError msg)) ->
  handle_with [(c1, h1); (c2, h2); (any_exception, h3)] e env w = (r, w') ->
  exists msg, r = Raise (ConfigError msg).
Proof.
  intros H1 H2 H3. cbn [handle_with].
  destruct (c1 e); [by apply H1|]. destruct (c2 e); [by apply H2|].
  cbn. by apply H3.
Qed.

Lemma load_raises_ConfigError (self : ConfigManager.t) env w e :
  raises (ConfigManager.load self) env w e -> exists msg, e = ConfigError msg.
Proof.
  intros [w' Hrun]. unfold ConfigManager.load, try_excepts in Hrun.
  destruct (bind _ _ env w) as [[c|e0] w1]; [done|].
  apply handle_with_three in Hrun as [msg [= ->]]; [by exists msg|..];
    intros e1 env0 w0 r0 w0' [= <- _]; by eexists.
Qed.

Lemma import_raises_ConfigError (self : ConfigManager.t) file overwrite env w
    e :
  raises (ConfigManager.import_workspace self file overwrite) env w e ->
  exists msg, e = ConfigError msg.
Proof.
  intros [w' Hrun]. unfold ConfigManager.import_workspace, try_excepts in Hrun.
  destruct (bind _ _ env w) as [[c|e0] w1]; [done|].
  apply handle_with_three in Hrun as [msg [= ->]]; [by exists msg|..];
    intros e1 env0 w0 r0 w0' [= <- _]; by eexists.
Qed.

Lemma loaded_collection_raises_ConfigError (self : ConfigManager.t) env w e :
  raises (ConfigManager.loaded_collection self) env w e ->
  exists msg, e = ConfigError msg.
Proof.
  intros [w' Hrun]. unfold ConfigManager.loaded_collection in Hrun.
  cbv [bind get_world] in Hrun.
  destruct (cfg_collection w); [done|].
  apply (load_raises_ConfigError self env w). by exists w'.
Qed.

Lemma export_raises_ConfigError (self : ConfigManager.t) name out env w e :
  raises (ConfigManager.export_workspace self name out) env w e ->
  exists msg, e = ConfigError msg.
Proof.
  intros [w' Hrun]. unfold ConfigManager.export_workspace in Hrun.
  unfold bind at 1 in Hrun. unfold ConfigManager.get_workspace in Hrun.
  unfold bind at 1 in Hrun.
  destruct (ConfigManager.loaded_collection self env w) as [[coll|e0] w1]
    eqn:Hload.
  - cbv [ret] in Hrun.
    destruct (WorkspaceCollection.get_workspace coll name) as [ws|].
    + unfold try_except in Hrun.
      destruct (bind _ _ env w1) as [[?|e1] w2]; [done|].
      cbn in Hrun. injection Hrun as <- _. by eexists.
    + cbv [raise] in Hrun. injection Hrun as <- _. by eexists.
  - injection Hrun as <- _.
    apply (loaded_collection_raises_ConfigError self env w). by exists w1.
Qed.

(** X4. Whatever goes wrong while loading, exporting, importing, looking a
    workspace up or listing the names, the caller sees a [ConfigError] and
    nothing else: a missing or unreadable file, malformed JSON, a value of the
    wrong shape, a failed validation or a failed write are all wrapped. *)
Theorem config_errors_are_wrapped (self : ConfigManager.t) (env : Env)
    (w : World) (e : exn) :
  (raises (ConfigManager.load self) env w e ->
   exists msg, e = ConfigError msg) /\
  (forall name out,
     raises (ConfigManager.export_workspace self name out) env w e ->
     exists msg, e = ConfigError msg) /\
  (forall file overwrite,
     raises (ConfigManager.import_workspace self file overwrite) env w e ->
     exists msg, e = ConfigError msg) /\
  (forall name,
     raises (ConfigManager.get_workspace self name) env w e ->
     exists msg, e = ConfigError msg) /\
  (raises (ConfigManager.list_workspaces self) env w e ->
   exists msg, e = ConfigError msg).
Proof.
  split; [apply load_raises_ConfigError|].
  split; [intros; by eapply export_raises_ConfigError|].
  split; [intros; by eapply import_raises_ConfigError|].
  split.
  - intros name [w' Hrun]. unfold ConfigManager.get_workspace in Hrun.
    unfold bind in Hrun.
    destruct (ConfigManager.loaded_collection self env w) as [[coll|e0] w1]
      eqn:Hload; [done|].
    injection Hrun as <- _.
    apply (loaded_collection_raises_ConfigError self env w). by exists w1.
  - intros [w' Hrun]. unfold ConfigManager.list_workspaces in Hrun.
    unfold bind in Hrun.
    destruct (ConfigManager.loaded_collection self env w) as [[coll|e0] w1]
      eqn:Hload; [done|].
    injection Hrun as <- _.
    apply (loaded_collection_raises_ConfigError self env w). by exists w1.
Qed.

Lemma validate_apps_to_dict (env : Env) (ws_name : json)
    (apps : list AppInstance.t) :
  forall idx,
    ConfigManager.validate_apps env ws_name idx
      ((fun app => JDict (AppInstance.to_dict app)) <$> apps) = Ok tt.
Proof.
  induction apps as [|app apps IH]; intros idx; [done|].
  rewrite fmap_cons. cbn [ConfigManager.validate_apps].
  unfold AppInstance.to_dict at 1 2.
  cbn [dict_get String.eqb Ascii.eqb Bool.eqb].
  rewrite !bool_decide_eq_true_2 by done. cbn [negb]. apply IH.
Qed.

Lemma validate_workspaces_to_dict (env : Env) (wss : list Workspace.t) :
  forall idx,
    ConfigManager.validate_workspaces env idx
      ((fun ws => JDict (Workspace.to_dict ws)) <$> wss) = Ok tt.
Proof.
  induction wss as [|ws wss IH]; intros idx; [done|].
  rewrite fmap_cons. cbn [ConfigManager.validate_workspaces].
  unfold Workspace.to_dict at 1 2, dict_get_default.
  cbn [dict_get String.eqb Ascii.eqb Bool.eqb from_option id py_iter rbind].
  rewrite validate_apps_to_dict. cbn [rbind]. apply IH.
Qed.

Lemma load_reads_collection (self : ConfigManager.t)
    (c : WorkspaceCollection.t) env w :
  files w !! ConfigManager.config_file self =
    Some (Doc (JDict (WorkspaceCollection.to_dict c))) ->
  fs_error env (tick w) = None ->
  ConfigManager.load self env w =
    (Ok c,
     set_cfg_collection (Some c)
       (log_call (OpenRead (ConfigManager.config_file self)) w)).
Proof.
  intros Hfile Hfs. destruct w as [t cs f cc lr]. cbn in Hfile, Hfs.
  assert (dict_get (WorkspaceCollection.to_dict c) "workspaces" =
          Some (JList ((fun ws => JDict (Workspace.to_dict ws)) <$>
                       WorkspaceCollection.workspaces c))) as Hkey by done.
  unfold ConfigManager.load, try_excepts, ConfigManager.ensure_config_exists.
  run. rewrite Hfile. rewrite bool_decide_eq_true_2 by done. run.
  rewrite Hfs, Hfile.
  unfold dict_get_default. rewrite Hkey.
  rewrite bool_decide_eq_true_2 by done. rewrite Hkey.
  cbn [from_option id py_iter rbind].
  rewrite validate_workspaces_to_dict.
  by rewrite WorkspaceCollection_round_trip.
Qed.

(** X5. What [save] writes, [load] reads back: after a save on a file system
    without errors, a load returns the collection that was saved, leaves the
    files as the save left them and keeps that collection in memory. *)
Theorem save_then_load (self : ConfigManager.t)
    (collection : WorkspaceCollection.t) (env : Env) (w : World) :
  (forall t, fs_error env t = None) ->
  exists w1 w2,
    ConfigManager.save self collection env w = (Ok tt, w1) /\
    ConfigManager.load self env w1 = (Ok collection, w2) /\
    files w2 = files w1 /\
    cfg_collection w2 = Some collection.
Proof.
  intros Hfs.
  destruct (save_succeeds self collection env w Hfs)
    as (w1 & Hsave & Hfile & _).
  exists w1. eexists. split; [exact Hsave|].
  split; [by apply load_reads_collection|]. by destruct w1.
Qed.

Lemma save_then_load_witness :
  exists w1 w2,
    ConfigManager.save (ConfigManager.mk "workspaces.json")
      (WorkspaceCollection.mk [Workspace.mk "dev" "" []]) ok_env start
      = (Ok tt, w1) /\
    ConfigManager.load (ConfigManager.mk "workspaces.json") ok_env w1
      = (Ok (WorkspaceCollection.mk [Workspace.mk "dev" "" []]), w2).
Proof.
  destruct (save_then_load (ConfigManager.mk "workspaces.json")
              (WorkspaceCollection.mk [Workspace.mk "dev" "" []]) ok_env start
              (fun _ => eq_refl)) as (w1 & w2 & H1 & H2 & _).
  by exists w1, w2.
Defined.

(** X6. Loading when the configuration file does not exist creates it: on a
    file system without errors the file then holds an empty list of workspaces,
    the empty collection is returned and kept in memory, and no other file is
    touched. *)
Theorem load_creates_missing_file (self : ConfigManager.t) (env : Env)
    (w : World) :
  files w !! ConfigManager.config_file self = None ->
  (forall t, fs_error env t = None) ->
  exists w',
    ConfigManager.load self env w = (Ok (WorkspaceCollection.mk []), w') /\
    files w' !! ConfigManager.config_file self =
      Some (Doc (JDict [("workspaces", JList [])])) /\
    cfg_collection w' = Some (WorkspaceCollection.mk []) /\
    (forall p, p <> ConfigManager.config_file self ->
       files w' !! p = files w !! p).
Proof.
  intros Hfile Hfs. destruct w as [t cs f cc lr]. cbn in Hfile.
  unfold ConfigManager.load, try_excepts, ConfigManager.ensure_config_exists,
    ConfigManager.save.
  repeat (progress (run; rewrite ?Hfs, ?Hfile, ?lookup_insert_eq;
                    rewrite ?bool_decide_eq_true_2 by done;
                    rewrite ?bool_decide_eq_false_2 by (by intros [? [=]]))).
  eexists. split; [reflexivity|]. cbn [files cfg_collection].
  split; [by rewrite lookup_insert_eq|]. split; [done|].
  intros p Hp. by rewrite !lookup_insert_ne by done.
Qed.

Lemma load_creates_missing_file_witness :
  exists w',
    ConfigManager.load (ConfigManager.mk "workspaces.json") ok_env start
      = (Ok (WorkspaceCollection.mk []), w') /\
    files w' !! "workspaces.json" =
      Some (Doc (JDict [("workspaces", JList [])])).
Proof.
  destruct (load_creates_missing_file (ConfigManager.mk "workspaces.json")
              ok_env start eq_refl (fun _ => eq_refl))
    as (w' & H1 & H2 & _).
  by exists w'.
Defined.

(** X7. Loading an existing configuration file reads it and nothing more: it
    makes the one call that opens the file, leaves every file as it is whatever
    the file holds, and, when it fails, leaves the collection in memory as it
    was. *)
Theorem load_leaves_existing_file (self : ConfigManager.t) (env : Env)
    (w : World) (held : content) :
  files w !! ConfigManager.config_file self = Some held ->
  forall r w',
    ConfigManager.load self env w = (r, w') ->
    files w' = files w /\
    calls w' = (calls w ++ [OpenRead (ConfigManager.config_file self)])%list /\
    (forall e, r = Raise e -> cfg_collection w' = cfg_collection w) /\
    (forall c, r = Ok c -> cfg_collection w' = Some c).
Proof.
  intros Hfile r w'. destruct w as [t cs f cc lr]. cbn in Hfile.
  unfold ConfigManager.load, try_excepts, ConfigManager.ensure_config_exists.
  run. rewrite Hfile. rewrite bool_decide_eq_true_2 by done. run.
  rewrite Hfile.
  destruct (fs_error env t) as [e0|].
  { cbn [handle_with]. destruct (is_FileNotFoundError e0);
      [|destruct (is_JSONDecodeError e0)]; intros [= <- <-]; by cbn. }
  destruct held as [j|text].
  2:{ cbn. intros [= <- <-]. by cbn. }
  destruct j as [| | | | |d];
    try (cbn; intros [= <- <-]; by cbn).
  destruct (let* wss := py_iter _ in
            ConfigManager.validate_workspaces env 0 wss)%result
    as [[]|e1].
  2:{ cbn [handle_with]. destruct (is_FileNotFoundError e1);
        [|destruct (is_JSONDecodeError e1)]; intros [= <- <-]; by cbn. }
  destruct (WorkspaceCollection.from_dict _) as [c|e2].
  - intros [= <- <-]. cbn. repeat split; try done. by intros c' [= ->].
  - cbn [handle_with]. destruct (is_FileNotFoundError e2);
      [|destruct (is_JSONDecodeError e2)]; intros [= <- <-]; by cbn.
Qed.

Lemma load_leaves_existing_file_witness :
  let before := set_files {[ "workspaces.json" := Malformed "{" ]} start in
  files (snd (ConfigManager.load (ConfigManager.mk "workspaces.json") ok_env
                before)) = files before.
Proof.
  intros before.
  refine (proj1 (load_leaves_existing_file
                   (ConfigManager.mk "workspaces.json") ok_env before
                   (Malformed "{") ltac:(by vm_compute) _ _ _)).
  apply surjective_pairing.
Defined.

(** X8. Removing a workspace by name, with a collection loaded. When no
    workspace has the name, the call returns false and does nothing at all: no
    file operation, no change in memory. When one has it, every workspace of
    that name is dropped, the others keep their order, the result is what is
    saved, and on a file system without errors the call returns true with the
    file holding the remaining workspaces; a lookup of the name then finds
    nothing, and lookups of other names are unchanged. *)
Theorem remove_workspace_from_store (self : ConfigManager.t) (name : string)
    (coll : WorkspaceCollection.t) (env : Env) (w : World) :
  cfg_collection w = Some coll ->
  let kept :=
    WorkspaceCollection.mk
      (filter (fun ws => Workspace.name ws <> name)
         (WorkspaceCollection.workspaces coll)) in
  (name ∉ WorkspaceCollection.list_workspace_names coll ->
   ConfigManager.remove_workspace self name env w = (Ok false, w)) /\
  (name ∈ WorkspaceCollection.list_workspace_names coll ->
   ConfigManager.remove_workspace self name env w =
     match
       ConfigManager.save self kept env (set_cfg_collection (Some kept) w)
     with
     | (Ok _, w') => (Ok true, w')
     | (Raise e, w') => (Raise e, w')
     end) /\
  (name ∈ WorkspaceCollection.list_workspace_names coll ->
   (forall t, fs_error env t = None) ->
   exists w',
     ConfigManager.remove_workspace self name env w = (Ok true, w') /\
     files w' !! ConfigManager.config_file self =
       Some (Doc (JDict (WorkspaceCollection.to_dict kept))) /\
     cfg_collection w' = Some kept) /\
  WorkspaceCollection.get_workspace kept name = None /\
  (forall other, other <> name ->
     WorkspaceCollection.get_workspace kept other =
     WorkspaceCollection.get_workspace coll other).
Proof.
  intros Hloaded kept.
  assert ((length (WorkspaceCollection.workspaces kept) <
           length (WorkspaceCollection.workspaces coll))%nat <->
          name ∈ WorkspaceCollection.list_workspace_names coll) as Hremoved.
  { unfold kept. cbn [WorkspaceCollection.workspaces].
    rewrite filter_length_lt.
    unfold WorkspaceCollection.list_workspace_names.
    rewrite list_elem_of_fmap. split.
    - intros (x & Hx & Hn). exists x. split; [|done].
      by destruct (decide (Workspace.name x = name)).
    - intros (x & -> & Hx). exists x. split; [done|]. by intros Hn. }
  assert (ConfigManager.remove_workspace self name env w =
    (if bool_decide
          (length (WorkspaceCollection.workspaces kept) <
           length (WorkspaceCollection.workspaces coll))%nat
     then
       match
         ConfigManager.save self kept env (set_cfg_collection (Some kept) w)
       with
       | (Ok _, w') => (Ok true, w')
       | (Raise e, w') => (Raise e, w')
       end
     else (Ok false, set_cfg_collection (Some kept) w))) as Hrun.
  { unfold ConfigManager.remove_workspace, ConfigManager.loaded_collection.
    cbv [bind get_world]. rewrite Hloaded. cbv [ret update_world].
    unfold WorkspaceCollection.remove_workspace. cbn [fst snd].
    fold kept. destruct (bool_decide _); [|done].
    by destruct (ConfigManager.save self kept env _) as [[[]|?] ?]. }
  split; [|split; [|split; [|split]]].
  - intros Hnot. rewrite Hrun, bool_decide_eq_false_2 by (by rewrite Hremoved).
    f_equal. assert (kept = coll) as ->.
    { unfold kept. destruct coll as [wss]. f_equal. cbn.
      apply filter_all_id. intros ws Hws Hname. apply Hnot.
      unfold WorkspaceCollection.list_workspace_names.
      apply list_elem_of_fmap. by exists ws. }
    destruct w. cbn in Hloaded. by rewrite <- Hloaded.
  - intros Hin. by rewrite Hrun, bool_decide_eq_true_2 by (by rewrite Hremoved).
  - intros Hin Hfs.
    rewrite Hrun, bool_decide_eq_true_2 by (by rewrite Hremoved).
    destruct (save_succeeds self kept env
                (set_cfg_collection (Some kept) w) Hfs)
      as (w' & -> & Hfile & Hcfg).
    by exists w'.
  - unfold WorkspaceCollection.get_workspace, kept.
    cbn [WorkspaceCollection.workspaces].
    rewrite list_filter_filter. rewrite filter_none_nil; [done|].
    by intros x _ [H1 H2].
  - intros other Hother. unfold WorkspaceCollection.get_workspace, kept.
    cbn [WorkspaceCollection.workspaces].
    rewrite list_filter_filter. f_equal.
    apply list_filter_iff. intros x. split; [by intros [? _]|].
    intros Hx. split; [done|]. congruence.
Qed.

Lemma remove_workspace_from_store_witness :
  let before :=
    set_cfg_collection
      (Some (WorkspaceCollection.mk [Workspace.mk "dev" "" []])) start in
  ConfigManager.remove_workspace (ConfigManager.mk "workspaces.json") "web"
    ok_env before = (Ok false, before).
Proof.
  intros before.
  apply (proj1 (remove_workspace_from_store
                  (ConfigManager.mk "workspaces.json") "web"
                  (WorkspaceCollection.mk [Workspace.mk "dev" "" []])
                  ok_env before eq_refl)).
  apply (bool_decide_unpack _). by vm_compute.
Defined.

Lemma empty_or_blank_spec (s : string) :
  ConfigManager.empty_or_blank s = true <-> blank s.
Proof.
  unfold ConfigManager.empty_or_blank. rewrite orb_true_iff.
  rewrite strip_is_empty_blank. split; [|by right].
  intros [H|H]; [by apply eqb_empty_blank|done].
Qed.

Lemma empty_or_blank_false (s : string) :
  ConfigManager.empty_or_blank s = false <-> ~ blank s.
Proof.
  rewrite <- empty_or_blank_spec.
  by destruct (ConfigManager.empty_or_blank s).
Qed.

Lemma size_list_to_set_le (l : list string) :
  (size (list_to_set l : gset string) <= length l)%nat.
Proof.
  induction l as [|x l IH]; [done|]. cbn [list_to_set length].
  pose proof (size_union_alt ({[x]} : gset string) (list_to_set l)) as Hsz.
  rewrite size_singleton in Hsz.
  assert (size (list_to_set l ∖ {[x]} : gset string) <=
          size (list_to_set l : gset string))%nat
    by (by apply subseteq_size, subseteq_difference_l).
  lia.
Qed.

Lemma length_size_NoDup (l : list string) :
  length l = size (list_to_set l : gset string) <-> NoDup l.
Proof.
  split; [|intros H; symmetry; by apply size_list_to_set].
  induction l as [|x l IH]; [constructor|].
  cbn [list_to_set length]. intros Hlen.
  pose proof (size_list_to_set_le l) as Hle.
  destruct (decide (x ∈ l)) as [Hin|Hnin].
  - exfalso.
    assert ({[x]} ∪ list_to_set l = (list_to_set l : gset string)) as Heq.
    { apply subseteq_union_1_L, singleton_subseteq_l.
      by apply elem_of_list_to_set. }
    rewrite Heq in Hlen. lia.
  - constructor; [done|]. apply IH.
    rewrite size_union in Hlen.
    2:{ apply disjoint_singleton_l. by rewrite elem_of_list_to_set. }
    rewrite size_singleton in Hlen. lia.
Qed.

(** The messages that [validate_workspace] adds for one app. *)
Lemma validate_app_spec (app : AppInstance.t) (errors : list string) env w
    r w' :
  ConfigManager.validate_app app errors env w = (r, w') ->
  same_state w w' /\
  (forall errors', r = Ok errors' ->
     exists more, errors' = (errors ++ more)%list /\
                  (more = [] <-> app_well_formed app)) /\
  (forall e, r = Raise e -> exists t, path_exists env t = Raise e) /\
  (paths_answer env -> exists errors', r = Ok errors').
Proof.
  unfold ConfigManager.validate_app. cbv [bind os_call ret].
  assert (forall (b1 b2 b3 b4 : bool) (m1 m2 m3 m4 : string),
    (let e1 := if b1 then (errors ++ [m1])%list else errors in
     let e2 := if b2 then (e1 ++ [m2])%list else e1 in
     let e3 := if b3 then (e2 ++ [m3])%list else e2 in
     if b4 then (e3 ++ [m4])%list else e3) =
    (errors ++ ((if b1 then [m1] else []) ++ (if b2 then [m2] else []) ++
               (if b3 then [m3] else []) ++ (if b4 then [m4] else [])))%list)
    as Hflat.
  { intros [] [] [] [] m1 m2 m3 m4; cbn; by rewrite <- ?app_assoc, ?app_nil_r. }
  assert (forall w1 : World, same_state w w1 ->
    (Ok (let e1 := if ConfigManager.empty_or_blank (AppInstance.id app)
                   then (errors ++ ["App ID cannot be empty"])%list
                   else errors in
         let e2 := if ConfigManager.empty_or_blank (AppInstance.exe app)
                   then (e1 ++ ["App '" +:+ AppInstance.id app
                                +:+ "' has empty executable path"])%list
                   else e1 in
         let e3 := if AppInstance.virtual_desktop app <? 0
                   then (e2 ++ ["App '" +:+ AppInstance.id app
                                +:+ "' has invalid virtual desktop index: "
                                +:+ pretty
                                      (AppInstance.virtual_desktop app)])%list
                   else e2 in
         if (WindowConfig.width (AppInstance.window app) <=? 0)
            || (WindowConfig.height (AppInstance.window app) <=? 0)
         then (e3 ++ ["App '" +:+ AppInstance.id app
                      +:+ "' has invalid window dimensions"])%list
         else e3), w1) = (r, w') ->
    same_state w w' /\
    (forall errors', r = Ok errors' ->
       exists more, errors' = (errors ++ more)%list /\
                    (more = [] <-> app_well_formed app)) /\
    (forall e, r = Raise e -> exists t, path_exists env t = Raise e) /\
    (paths_answer env -> exists errors', r = Ok errors')) as Hend.
  { intros w1 Hsame [= <- <-]. split; [done|]. split; [|split; [done|]].
    2:{ intros _. by eexists. }
    intros errors' [= <-]. rewrite Hflat. eexists. split; [reflexivity|].
    unfold app_well_formed.
    rewrite <- !empty_or_blank_false.
    destruct (ConfigManager.empty_or_blank (AppInstance.id app)),
      (ConfigManager.empty_or_blank (AppInstance.exe app)),
      (Z.ltb_spec (AppInstance.virtual_desktop app) 0),
      (Z.leb_spec (WindowConfig.width (AppInstance.window app)) 0),
      (Z.leb_spec (WindowConfig.height (AppInstance.window app)) 0);
      cbn; split; try done; try (intros (? & ? & ? & ? & ?); (done || lia));
      try (intros _; repeat split; (done || lia)). }
  destruct (path_exists env (tick w)) as [b|e] eqn:Hfirst.
  2:{ intros [= <- <-]. split; [by destruct w|]. split; [done|].
      split; [intros e' [= <-]; by eexists|].
      intros Hans. destruct (Hans (tick w)) as [b Hb]. congruence. }
  destruct (AppInstance.working_dir app) as [wd|].
  2:{ apply Hend. by destruct w. }
  destruct (truthy_str (Some wd)).
  2:{ apply Hend. by destruct w. }
  cbv [bind os_call ret].
  destruct (path_exists env (tick (log_call _ w))) as [b'|e] eqn:Hsecond.
  - apply Hend. by destruct w.
  - intros [= <- <-]. split; [by destruct w|]. split; [done|].
    split; [intros e' [= <-]; by eexists|].
    intros Hans.
    destruct (Hans (tick (log_call (PathExists (AppInstance.exe app)) w)))
      as [b' Hb].
    congruence.
Qed.

Lemma validate_each_app_spec (apps : list AppInstance.t) :
  forall (errors : list string) env w r w',
    ConfigManager.validate_each_app apps errors env w = (r, w') ->
    same_state w w' /\
    (forall errors', r = Ok errors' ->
       exists more, errors' = (errors ++ more)%list /\
                    (more = [] <-> Forall app_well_formed apps)) /\
    (forall e, r = Raise e -> exists t, path_exists env t = Raise e) /\
    (paths_answer env -> exists errors', r = Ok errors').
Proof.
  induction apps as [|app apps IH]; intros errors env w r w'.
  - intros [= <- <-]. split; [apply same_state_refl|].
    split; [|split; [done|by eexists]].
    intros errors' [= <-]. exists []. by rewrite app_nil_r.
  - cbn [ConfigManager.validate_each_app]. unfold bind.
    destruct (ConfigManager.validate_app app errors env w) as [[errors1|e] w1]
      eqn:Happ.
    + apply validate_app_spec in Happ as (Hsame1 & Hok1 & _ & _).
      destruct (Hok1 errors1 eq_refl) as (more1 & -> & Hmore1).
      intros Hrest. apply IH in Hrest as (Hsame & Hok & Hraise & Hans).
      split; [by eapply same_state_trans|].
      split; [|split; [done|done]].
      intros errors' ->. destruct (Hok errors' eq_refl) as (more & -> & Hmore).
      exists (more1 ++ more)%list. split; [by rewrite app_assoc|].
      rewrite Forall_cons, <- Hmore1, <- Hmore. split.
      * by intros [-> ->]%app_eq_nil.
      * by intros [-> ->].
    + intros [= <- <-].
      apply validate_app_spec in Happ as (Hsame1 & _ & Hraise & Hans).
      split; [done|]. split; [done|]. split; [done|].
      intros Hp. by destruct (Hans Hp).
Qed.

Lemma validate_workspace_spec (self : ConfigManager.t)
    (workspace : Workspace.t) (env : Env) (w : World) :
  (forall errors w',
     ConfigManager.validate_workspace self workspace env w = (Ok errors, w') ->
     (errors = [] <-> workspace_well_formed workspace) /\ same_state w w') /\
  (paths_answer env ->
   exists errors w',
     ConfigManager.validate_workspace self workspace env w = (Ok errors, w')) /\
  (forall e w',
     ConfigManager.validate_workspace self workspace env w = (Raise e, w') ->
     exists t, path_exists env t = Raise e).
Proof.
  unfold ConfigManager.validate_workspace.
  set (errors0 :=
    if bool_decide _ then (_ ++ _)%list else _).
  assert (errors0 = [] <->
          ~ blank (Workspace.name workspace) /\
          NoDup (AppInstance.id <$> Workspace.apps workspace)) as Hhead.
  { unfold errors0. rewrite <- empty_or_blank_false, <- length_size_NoDup.
    destruct (ConfigManager.empty_or_blank (Workspace.name workspace));
      case_bool_decide as Hdup; cbn; (split; [done|]); by intros [? ?]. }
  split; [|split].
  - intros errors w' Hrun.
    apply validate_each_app_spec in Hrun as (Hsame & Hok & _).
    split; [|done]. destruct (Hok errors eq_refl) as (more & -> & Hmore).
    unfold workspace_well_formed. rewrite <- Hmore. split.
    + intros [H0 ->]%app_eq_nil. apply Hhead in H0 as [? ?]. done.
    + intros (? & ? & ->). rewrite app_nil_r. by apply Hhead.
  - intros Hans.
    destruct (ConfigManager.validate_each_app (Workspace.apps workspace)
                errors0 env w) as [r w'] eqn:Hrun.
    apply validate_each_app_spec in Hrun as (_ & _ & _ & Hret).
    destruct (Hret Hans) as [errors ->]. by exists errors, w'.
  - intros e w' Hrun.
    apply validate_each_app_spec in Hrun as (_ & _ & Hraise & _).
    by apply Hraise.
Qed.

(** X9. [validate_workspace] reports no error exactly for the well-formed
    workspaces: a name that is not blank, pairwise distinct app ids, and for
    every app an id and an executable that are not blank, a desktop index that
    is not negative and a window of positive width and height. It changes
    neither the files nor the objects of the program; it returns whenever the
    existence checks of the paths are answered, and an exception it raises is
    one raised by such a check. *)
Theorem validate_workspace_accepts_well_formed (self : ConfigManager.t)
    (workspace : Workspace.t) (env : Env) (w : World) :
  (forall errors w',
     ConfigManager.validate_workspace self workspace env w = (Ok errors, w') ->
     (errors = [] <-> workspace_well_formed workspace) /\ same_state w w') /\
  (paths_answer env ->
   exists errors w',
     ConfigManager.validate_workspace self workspace env w = (Ok errors, w')) /\
  (forall e w',
     ConfigManager.validate_workspace self workspace env w = (Raise e, w') ->
     exists t, path_exists env t = Raise e).
Proof. apply validate_workspace_spec. Qed.

Lemma add_workspace_overwrite (self : ConfigManager.t)
    (workspace : Workspace.t) (coll : WorkspaceCollection.t) env w :
  cfg_collection w = Some coll ->
  let replaced :=
    WorkspaceCollection.mk
      (filter (fun ws => Workspace.name ws <> Workspace.name workspace)
         (WorkspaceCollection.workspaces coll) ++ [workspace]) in
  ConfigManager.add_workspace self workspace true env w =
    ConfigManager.save self replaced env
      (set_cfg_collection (Some replaced) w).
Proof.
  intros Hloaded replaced.
  unfold ConfigManager.add_workspace, ConfigManager.loaded_collection.
  cbv [bind get_world]. rewrite Hloaded. cbv [ret]. rewrite andb_false_r.
  cbv [update_world]. rewrite removed_then_added.
  fold replaced. by destruct w.
Qed.

Lemma add_workspace_refused (self : ConfigManager.t)
    (workspace : Workspace.t) (coll : WorkspaceCollection.t) env w :
  cfg_collection w = Some coll ->
  Workspace.name workspace ∈ WorkspaceCollection.list_workspace_names coll ->
  ConfigManager.add_workspace self workspace false env w =
    (Raise (ConfigError
              ("Workspace '" +:+ Workspace.name workspace +:+
               "' already exists. Use --overwrite to replace it.")),
     w).
Proof.
  intros Hloaded Hex%get_workspace_is_Some.
  unfold ConfigManager.add_workspace, ConfigManager.loaded_collection.
  cbv [bind get_world]. rewrite Hloaded. cbv [ret].
  by rewrite bool_decide_eq_true_2.
Qed.

Lemma export_writes (self : ConfigManager.t) (name out : string)
    (coll : WorkspaceCollection.t) (ws : Workspace.t) env w :
  cfg_collection w = Some coll ->
  WorkspaceCollection.get_workspace coll name = Some ws ->
  (forall t, fs_error env t = None) ->
  exists w1,
    ConfigManager.export_workspace self name out env w = (Ok tt, w1) /\
    files w1 !! out = Some (Doc (JDict (Workspace.to_dict ws))) /\
    (forall p, p <> out -> files w1 !! p = files w !! p) /\
    cfg_collection w1 = Some coll /\
    launch_results w1 = launch_results w.
Proof.
  intros Hloaded Hget Hfs. destruct w as [t cs f cc lr]. cbn in Hloaded.
  unfold ConfigManager.export_workspace, ConfigManager.get_workspace,
    ConfigManager.loaded_collection.
  run. rewrite Hloaded, Hget. run. rewrite !Hfs.
  eexists. split; [reflexivity|]. cbn [files cfg_collection launch_results].
  split; [by rewrite lookup_insert_eq|]. split; [|done].
  intros p Hp. by rewrite !lookup_insert_ne by done.
Qed.

(** [import_workspace] on a file that decodes to a workspace: the file is
    read, the workspace validated, and what remains is [add_workspace]. *)
Lemma import_reads (self : ConfigManager.t) (file : string)
    (overwrite : bool) (d : dict) (ws : Workspace.t) env w :
  files w !! file = Some (Doc (JDict d)) ->
  Workspace.from_dict d = Ok ws ->
  fs_error env (tick w) = None ->
  paths_answer env ->
  exists errors w1,
    ConfigManager.validate_workspace self ws env
      (log_call (OpenRead file) w) = (Ok errors, w1) /\
    (errors = [] <-> workspace_well_formed ws) /\
    same_state w w1 /\
    ConfigManager.import_workspace self file overwrite env w =
      match errors with
      | [] =>
          match ConfigManager.add_workspace self ws overwrite env w1 with
          | (Ok a, w') => (Ok a, w')
          | (Raise e, w') =>
              (Raise (ConfigError
                        (if is_FileNotFoundError e
                         then "Import file not found: " +:+ file
                         else if is_JSONDecodeError e
                         then "Invalid JSON in import file: " +:+ str_exn e
                         else "Failed to import workspace: " +:+ str_exn e)),
               w')
          end
      | _ =>
          (Raise (ConfigError
                    ("Failed to import workspace: Invalid workspace: " +:+
                     join ", " errors)), w1)
      end.
Proof.
  intros Hfile Hdec Hfs Hans.
  destruct (proj1 (proj2 (validate_workspace_spec self ws env
              (log_call (OpenRead file) w))) Hans) as (errors & w1 & Hval).
  destruct (proj1 (validate_workspace_spec self ws env
              (log_call (OpenRead file) w)) errors w1 Hval) as [Hnil Hsame].
  exists errors, w1. split; [done|]. split; [done|]. split.
  { eapply same_state_trans; [|exact Hsame]. by destruct w. }
  unfold ConfigManager.import_workspace, try_excepts.
  unfold bind at 1. unfold read_json, fs_op. unfold bind at 1.
  unfold os_call at 1. rewrite Hfs. unfold bind at 1. unfold get_world at 1.
  assert (files (log_call (OpenRead file) w) !! file =
          Some (Doc (JDict d))) as -> by (by destruct w).
  cbv [ret]. unfold bind at 1. unfold lift at 1. cbn [as_subscriptable rbind].
  rewrite Hdec. unfold bind at 1. rewrite Hval.
  destruct errors as [|m errors]; [|done].
  destruct (ConfigManager.add_workspace self ws overwrite env w1)
    as [[[]|e] w2]; [done|].
  cbn [handle_with]. destruct (is_FileNotFoundError e); [done|].
  by destruct (is_JSONDecodeError e).
Qed.

(** X10. Export followed by import gives the workspace back. With a collection
    loaded that holds workspace [ws] under [name], a well-formed [ws], a file
    system without errors and existence checks that are answered: the export
    writes the dictionary form of [ws] to the output file and changes no other
    file and nothing in memory; importing that file with [overwrite] puts [ws]
    back in place of every workspace of its name and saves the result, and
    importing it without [overwrite] is refused with a [ConfigError], the
    collection and the files staying as they were. *)
Theorem export_then_import (self : ConfigManager.t) (name out : string)
    (coll : WorkspaceCollection.t) (ws : Workspace.t) (env : Env)
    (w : World) :
  cfg_collection w = Some coll ->
  WorkspaceCollection.get_workspace coll name = Some ws ->
  workspace_well_formed ws ->
  (forall t, fs_error env t = None) ->
  paths_answer env ->
  let replaced :=
    WorkspaceCollection.mk
      (filter (fun other => Workspace.name other <> Workspace.name ws)
         (WorkspaceCollection.workspaces coll) ++ [ws]) in
  exists w1,
    ConfigManager.export_workspace self name out env w = (Ok tt, w1) /\
    files w1 !! out = Some (Doc (JDict (Workspace.to_dict ws))) /\
    (forall p, p <> out -> files w1 !! p = files w !! p) /\
    cfg_collection w1 = Some coll /\
    (exists w2,
       ConfigManager.import_workspace self out true env w1 = (Ok tt, w2) /\
       cfg_collection w2 = Some replaced /\
       files w2 !! ConfigManager.config_file self =
         Some (Doc (JDict (WorkspaceCollection.to_dict replaced)))) /\
    (exists w2,
       ConfigManager.import_workspace self out false env w1 =
         (Raise (ConfigError
                   ("Failed to import workspace: Workspace '" +:+
                    Workspace.name ws +:+
                    "' already exists. Use --overwrite to replace it.")),
          w2) /\
       cfg_collection w2 = Some coll /\
       files w2 = files w1).
Proof.
  intros Hloaded Hget Hwf Hfs Hans replaced.
  destruct (export_writes self name out coll ws env w Hloaded Hget Hfs)
    as (w1 & Hexp & Hout & Hother & Hcfg & _).
  exists w1. split; [done|]. split; [done|]. split; [done|]. split; [done|].
  assert (Workspace.name ws ∈ WorkspaceCollection.list_workspace_names coll)
    as Hname.
  { apply head_Some_elem_of in Hget.
    apply list_elem_of_filter in Hget as [_ Hin].
    unfold WorkspaceCollection.list_workspace_names.
    apply list_elem_of_fmap. by exists ws. }
  split.
  - destruct (import_reads self out true _ ws env w1 Hout
                (Workspace_round_trip ws) (Hfs _) Hans)
      as (errors & w1' & _ & Hnil & (Hlr & Hcc & Hfiles) & ->).
    apply Hnil in Hwf as ->.
    assert (cfg_collection w1' = Some coll) as Hloaded' by congruence.
    rewrite (add_workspace_overwrite self ws coll env w1' Hloaded').
    fold replaced.
    destruct (save_succeeds self replaced env
                (set_cfg_collection (Some replaced) w1') Hfs)
      as (w2 & -> & Hfile & Hcfg2).
    by exists w2.
  - destruct (import_reads self out false _ ws env w1 Hout
                (Workspace_round_trip ws) (Hfs _) Hans)
      as (errors & w1' & _ & Hnil & (Hlr & Hcc & Hfiles) & ->).
    apply Hnil in Hwf as ->.
    assert (cfg_collection w1' = Some coll) as Hloaded' by congruence.
    rewrite (add_workspace_refused self ws coll env w1' Hloaded' Hname).
    cbn. exists w1'. split; [done|]. by split.
Qed.

Lemma export_then_import_witness :
  let ws :=
    Workspace.mk "dev" ""
      [AppInstance.mk "a" "C:/a.exe" [] None 0 (WindowConfig.mk 0 0 800 600)] in
  exists w1 w2,
    ConfigManager.export_workspace (ConfigManager.mk "workspaces.json") "dev"
      "dev.json" ok_env
      (set_cfg_collection (Some (WorkspaceCollection.mk [ws])) start)
      = (Ok tt, w1) /\
    ConfigManager.import_workspace (ConfigManager.mk "workspaces.json")
      "dev.json" true ok_env w1 = (Ok tt, w2) /\
    cfg_collection w2 = Some (WorkspaceCollection.mk [ws]).
Proof.
  intros ws.
  destruct (export_then_import (ConfigManager.mk "workspaces.json") "dev"
              "dev.json" (WorkspaceCollection.mk [ws]) ws ok_env
              (set_cfg_collection (Some (WorkspaceCollection.mk [ws])) start)
              eq_refl eq_refl
              ltac:(apply (bool_decide_unpack _); by vm_compute)
              (fun _ => eq_refl)
              (fun _ => ex_intro _ true eq_refl))
    as (w1 & Hexp & _ & _ & _ & (w2 & Himp & Hcfg & _) & _).
  exists w1, w2. split; [done|]. split; [done|]. exact Hcfg.
Defined.

(** X11. An import that fails before anything is added leaves the store alone.
    When the file can be opened: a missing file, a file that is not JSON, and a
    file that decodes to a workspace that is not well-formed are each reported
    by a [ConfigError] of their own, and in each case the collection in memory,
    the files and the launch results are as before: when no collection was
    loaded, none is loaded. *)
Theorem import_failures_leave_store (self : ConfigManager.t) (file : string)
    (overwrite : bool) (env : Env) (w : World) :
  fs_error env (tick w) = None ->
  (files w !! file = None ->
   ConfigManager.import_workspace self file overwrite env w =
     (Raise (ConfigError ("Import file not found: " +:+ file)),
      log_call (OpenRead file) w)) /\
  (forall text, files w !! file = Some (Malformed text) ->
     ConfigManager.import_workspace self file overwrite env w =
       (Raise (ConfigError ("Invalid JSON in import file: " +:+ text)),
        log_call (OpenRead file) w)) /\
  (forall d ws,
     files w !! file = Some (Doc (JDict d)) ->
     Workspace.from_dict d = Ok ws ->
     ~ workspace_well_formed ws ->
     paths_answer env ->
     exists errors w',
       errors <> [] /\
       ConfigManager.import_workspace self file overwrite env w =
         (Raise (ConfigError
                   ("Failed to import workspace: Invalid workspace: " +:+
                    join ", " errors)), w') /\
       same_state w w').
Proof.
  intros Hfs. split; [|split].
  - intros Hfile. destruct w as [t cs f cc lr]. cbn in Hfs, Hfile.
    unfold ConfigManager.import_workspace, try_excepts.
    run. by rewrite Hfs, Hfile.
  - intros text Hfile. destruct w as [t cs f cc lr]. cbn in Hfs, Hfile.
    unfold ConfigManager.import_workspace, try_excepts.
    run. by rewrite Hfs, Hfile.
  - intros d ws Hfile Hdec Hbad Hans.
    destruct (import_reads self file overwrite d ws env w Hfile Hdec Hfs Hans)
      as (errors & w1 & Hval & Hnil & Hsame & ->).
    exists errors, w1. split; [by rewrite Hnil|].
    destruct errors as [|m errors]; [by destruct Hbad; apply Hnil|].
    by split.
Qed.

Lemma import_failures_leave_store_witness :
  ConfigManager.import_workspace (ConfigManager.mk "workspaces.json")
    "missing.json" false ok_env start =
  (Raise (ConfigError "Import file not found: missing.json"),
   log_call (OpenRead "missing.json") start).
Proof.
  exact (proj1 (import_failures_leave_store
                  (ConfigManager.mk "workspaces.json") "missing.json" false
                  ok_env start eq_refl) eq_refl).
Defined.

(** *** Counting the calls of a class *)

Section AtMost.

Variable P : call -> bool.

Lemma at_most_weaken {A} (k k' : nat) (m : M A) :
  (k <= k')%nat -> at_most P k m -> at_most P k' m.
Proof.
  intros Hle Hm env w r w' Hrun.
  destruct (Hm env w r w' Hrun) as (made & Hcalls & Hcount).
  exists made. split; [done|lia].
Qed.

Lemma at_most_ret {A} (a : A) (k : nat) : at_most P k (ret a).
Proof.
  intros env w r w' [= <- <-]. exists [].
  by rewrite app_nil_r; cbn; split; [|lia].
Qed.

Lemma at_most_raise {A} (e : exn) (k : nat) : at_most P k (@raise A e).
Proof.
  intros env w r w' [= <- <-]. exists [].
  by rewrite app_nil_r; cbn; split; [|lia].
Qed.

Lemma at_most_ask {A} (f : Env -> A) (k : nat) : at_most P k (ask f).
Proof.
  intros env w r w' [= <- <-]. exists [].
  by rewrite app_nil_r; cbn; split; [|lia].
Qed.

Lemma at_most_lift {A} (x : result A) (k : nat) : at_most P k (lift x).
Proof.
  intros env w r w' [= <- <-]. exists [].
  by rewrite app_nil_r; cbn; split; [|lia].
Qed.

Lemma at_most_get_world (k : nat) : at_most P k get_world.
Proof.
  intros env w r w' [= <- <-]. exists [].
  by rewrite app_nil_r; cbn; split; [|lia].
Qed.

Lemma at_most_update_world (f : World -> World) (k : nat) :
  (forall w, calls (f w) = calls w) -> at_most P k (update_world f).
Proof.
  intros Hf env w r w' [= <- <-]. exists [].
  rewrite app_nil_r, Hf. cbn. split; [done|lia].
Qed.

Lemma at_most_bind {A B} (k1 k2 : nat) (m : M A) (f : A -> M B) :
  at_most P k1 m -> (forall a, at_most P k2 (f a)) ->
  at_most P (k1 + k2) (bind m f).
Proof.
  intros Hm Hf env w r w'. unfold bind.
  destruct (m env w) as [[a|e] w1] eqn:Hrun.
  - intros Hrest.
    destruct (Hm env w _ _ Hrun) as (made1 & Hc1 & Hn1).
    destruct (Hf a env w1 _ _ Hrest) as (made2 & Hc2 & Hn2).
    exists (made1 ++ made2)%list. split; [by rewrite Hc2, Hc1, app_assoc|].
    rewrite filter_app, length_app. lia.
  - intros [= <- <-].
    destruct (Hm env w _ _ Hrun) as (made1 & Hc1 & Hn1).
    exists made1. split; [done|lia].
Qed.

Lemma at_most_try {A} (k1 k2 : nat) (m : M A) (catches : exn -> bool)
    (handler : exn -> M A) :
  at_most P k1 m -> (forall e, at_most P k2 (handler e)) ->
  at_most P (k1 + k2) (try_except m catches handler).
Proof.
  intros Hm Hh env w r w'. unfold try_except.
  destruct (m env w) as [[a|e] w1] eqn:Hrun.
  - intros [= <- <-].
    destruct (Hm env w _ _ Hrun) as (made1 & Hc1 & Hn1).
    exists made1. split; [done|lia].
  - destruct (Hm env w _ _ Hrun) as (made1 & Hc1 & Hn1).
    destruct (catches e).
    + intros Hrest.
      destruct (Hh e env w1 _ _ Hrest) as (made2 & Hc2 & Hn2).
      exists (made1 ++ made2)%list. split; [by rewrite Hc2, Hc1, app_assoc|].
      rewrite filter_app, length_app. lia.
    + intros [= <- <-]. exists made1. split; [done|lia].
Qed.

Lemma at_most_handle_with {A} (k : nat)
    (clauses : list ((exn -> bool) * (exn -> M A))) (e : exn) :
  Forall (fun clause => forall e, at_most P k (snd clause e)) clauses ->
  at_most P k (handle_with clauses e).
Proof.
  induction 1 as [|[c h] clauses Hh _ IH]; cbn [handle_with].
  - apply at_most_raise.
  - destruct (c e); [apply Hh|apply IH].
Qed.

Lemma at_most_try_excepts {A} (k1 k2 : nat) (m : M A)
    (clauses : list ((exn -> bool) * (exn -> M A))) :
  at_most P k1 m ->
  Forall (fun clause => forall e, at_most P k2 (snd clause e)) clauses ->
  at_most P (k1 + k2) (try_excepts m clauses).
Proof.
  intros Hm Hh env w r w'. unfold try_excepts.
  destruct (m env w) as [[a|e] w1] eqn:Hrun.
  - intros [= <- <-].
    destruct (Hm env w _ _ Hrun) as (made1 & Hc1 & Hn1).
    exists made1. split; [done|lia].
  - destruct (Hm env w _ _ Hrun) as (made1 & Hc1 & Hn1).
    intros Hrest.
    destruct (at_most_handle_with k2 clauses e Hh env w1 _ _ Hrest)
      as (made2 & Hc2 & Hn2).
    exists (made1 ++ made2)%list. split; [by rewrite Hc2, Hc1, app_assoc|].
    rewrite filter_app, length_app. lia.
Qed.

Lemma at_most_os_call {A} (c : call) (answer : Env -> nat -> result A) :
  at_most P (if P c then 1 else 0) (os_call c answer).
Proof.
  intros env w r w' [= <- <-]. exists [c]. split; [by destruct w|].
  destruct (P c) eqn:Hc.
  - rewrite filter_cons_True by done. cbn. lia.
  - rewrite filter_cons_False by (by rewrite Hc). cbn. lia.
Qed.

Lemma at_most_os_call_free {A} (c : call) (answer : Env -> nat -> result A)
    (k : nat) :
  P c = false -> at_most P k (os_call c answer).
Proof.
  intros Hc. eapply at_most_weaken; [|apply at_most_os_call].
  rewrite Hc. lia.
Qed.

Lemma at_most_sleep (ms : Z) (k : nat) :
  P (Sleep ms) = false -> at_most P k (sleep ms).
Proof. apply at_most_os_call_free. Qed.

Lemma at_most_bind_free {A B} (k : nat) (m : M A) (f : A -> M B) :
  at_most P 0 m -> (forall a, at_most P k (f a)) -> at_most P k (bind m f).
Proof. intros Hm Hf. by apply (at_most_bind 0 k). Qed.

Lemma at_most_try_free {A} (k : nat) (m : M A) (catches : exn -> bool)
    (handler : exn -> M A) :
  at_most P k m -> (forall e, at_most P 0 (handler e)) ->
  at_most P k (try_except m catches handler).
Proof.
  intros Hm Hh. eapply at_most_weaken; [|by apply (at_most_try k 0)]. lia.
Qed.

Lemma at_most_if {A} (k : nat) (b : bool) (m1 m2 : M A) :
  at_most P k m1 -> at_most P k m2 -> at_most P k (if b then m1 else m2).
Proof. by destruct b. Qed.

Lemma at_most_match_option {A B} (k : nat) (o : option A) (m1 : A -> M B)
    (m2 : M B) :
  (forall a, at_most P k (m1 a)) -> at_most P k m2 ->
  at_most P k (match o with Some a => m1 a | None => m2 end).
Proof. by destruct o. Qed.

Lemma at_most_match_list {A B} (k : nat) (l : list A) (m1 : M B)
    (m2 : A -> list A -> M B) :
  at_most P k m1 -> (forall a l', at_most P k (m2 a l')) ->
  at_most P k (match l with [] => m1 | a :: l' => m2 a l' end).
Proof. by destruct l. Qed.

End AtMost.

(** Decomposes a goal [at_most P 0 m] along the structure of [m]; a call is
    discharged by evaluating [P] on it, or by a hypothesis on [P]. *)
Ltac free_call :=
  first
    [ reflexivity
    | assumption
    | match goal with
      | H : forall c, _ -> _ = false |- _ = false => apply H; reflexivity
      end ].

Ltac quiet :=
  repeat first
    [ apply at_most_ret
    | apply at_most_raise
    | apply at_most_ask
    | apply at_most_lift
    | apply at_most_get_world
    | apply at_most_update_world; by intros []
    | apply at_most_sleep; free_call
    | apply at_most_os_call_free; free_call
    | apply at_most_if
    | apply at_most_match_option; [intros ?|]
    | apply at_most_match_list; [|intros ? ?]
    | apply at_most_try_free; [|intros ?]
    | apply at_most_bind_free; [|intros ?] ].

(** *** Further properties of the virtual-desktop layer
        (virtual_desktops.py) *)

Lemma get_desktop_count_quiet (P : call -> bool)
    (self : VirtualDesktopManager.t) :
  P GetVirtualDesktops = false ->
  at_most P 0 (VirtualDesktopManager.get_desktop_count self).
Proof.
  intros HP. unfold VirtualDesktopManager.get_desktop_count. quiet.
Qed.

Lemma create_desktop_one_attempt (self : VirtualDesktopManager.t) :
  at_most is_desktop_creation 1 (VirtualDesktopManager.create_desktop self).
Proof.
  unfold VirtualDesktopManager.create_desktop.
  apply at_most_if; [apply at_most_ret|].
  apply at_most_try_free; [|intros ?; apply at_most_ret].
  apply at_most_bind_free; [by apply get_desktop_count_quiet|]. intros before.
  apply (at_most_bind _ 1 0).
  - apply (at_most_try _ 1 0).
    + apply (at_most_bind _ 1 0); [apply at_most_os_call|intros ?; quiet].
    + intros e. unfold VirtualDesktopManager.send_win_ctrl_d. quiet.
  - intros _. apply at_most_bind_free; [by apply get_desktop_count_quiet|].
    intros after. apply at_most_ret.
Qed.

Lemma create_desktops_attempts (self : VirtualDesktopManager.t) (total : Z)
    (remaining : nat) :
  forall i,
    at_most is_desktop_creation remaining
      (VirtualDesktopManager.create_desktops self total remaining i).
Proof.
  induction remaining as [|remaining IH]; intros i;
    cbn [VirtualDesktopManager.create_desktops].
  - apply at_most_ret.
  - apply (at_most_bind _ 1 remaining); [apply create_desktop_one_attempt|].
    intros created. apply at_most_if; [apply at_most_ret|].
    apply at_most_bind_free; [quiet|]. intros _. apply IH.
Qed.



(** X13. A desktop index that is too large is refused before anything is done.
    With pyvda available and [n] desktops counted: switching to a desktop [i >=
    n], moving a window to it, or closing it returns false after the one count,
    and so does closing any desktop when at most one is left; no switch, no
    move and no hotkey is issued. An index below [n] is passed on to pyvda as
    desktop number [i + 1] even when it is negative: there is no lower bound
    check. *)
Theorem desktop_index_out_of_range (self : VirtualDesktopManager.t)
    (n : nat) (env : Env) (w : World) :
  VirtualDesktopManager.pyvda_available self = true ->
  get_virtual_desktops env (tick w) = Ok n ->
  (forall i, Z.of_nat n <= i ->
     VirtualDesktopManager.switch_to_desktop self i env w =
       (Ok false, log_call GetVirtualDesktops w)) /\
  (forall h i, Z.of_nat n <= i ->
     VirtualDesktopManager.move_window_to_desktop self h i env w =
       (Ok false, log_call GetVirtualDesktops w)) /\
  (forall i, Z.of_nat n <= 1 \/ Z.of_nat n <= i ->
     VirtualDesktopManager.close_desktop self i env w =
       (Ok false, log_call GetVirtualDesktops w)) /\
  (forall i r w', i < Z.of_nat n ->
     VirtualDesktopManager.switch_to_desktop self i env w = (r, w') ->
     exists rest,
       calls w' =
         (calls w ++
          GetVirtualDesktops :: VirtualDesktopNew (i + 1) :: rest)%list).
Proof.
  intros Hav Hq.
  pose proof (get_desktop_count_cases self env w) as Hcount.
  rewrite Hav, Hq in Hcount.
  split; [|split; [|split]].
  - intros i Hi. unfold VirtualDesktopManager.switch_to_desktop.
    rewrite Hav. cbn [negb]. unfold try_except, bind, os_call. rewrite Hq.
    destruct (Z.leb_spec (Z.of_nat n) i); [done|lia].
  - intros h i Hi. unfold VirtualDesktopManager.move_window_to_desktop.
    rewrite Hav. cbn [negb]. unfold try_except, bind at 1, os_call at 1.
    rewrite Hq.
    destruct (Z.leb_spec (Z.of_nat n) i); [done|lia].
  - intros i Hi. unfold VirtualDesktopManager.close_desktop.
    rewrite Hav. cbn [negb]. unfold try_except, bind at 1. rewrite Hcount.
    destruct (Z.leb_spec (Z.of_nat n) 1); [done|].
    destruct (Z.leb_spec (Z.of_nat n) i); [done|lia].
  - intros i r w' Hi. unfold VirtualDesktopManager.switch_to_desktop.
    rewrite Hav. cbn [negb]. unfold try_except, bind at 1, os_call at 1.
    rewrite Hq.
    destruct (Z.leb_spec (Z.of_nat n) i); [lia|].
    unfold bind at 1, os_call at 1.
    destruct (virtual_desktop_new env _) as [[]|e].
    2:{ cbn. intros [= <- <-]. exists []. destruct w. cbn.
        by rewrite <- app_assoc. }
    destruct (bind _ _ env _) as [[b|e] w1] eqn:Hrest.
    + intros [= <- <-].
      assert (at_most (fun _ => false) 0
                (os_call (VirtualDesktopGo (i + 1)) virtual_desktop_go ;;
                 sleep 200 ;;
                 let* current :=
                   VirtualDesktopManager.get_current_desktop self in
                 ret (current =? i))%M) as Hquiet.
      { unfold VirtualDesktopManager.get_current_desktop. quiet. }
      destruct (Hquiet _ _ _ _ Hrest) as (made & -> & _).
      exists made. destruct w. cbn. by rewrite <- !app_assoc.
    + cbn. intros [= <- <-].
      assert (at_most (fun _ => false) 0
                (os_call (VirtualDesktopGo (i + 1)) virtual_desktop_go ;;
                 sleep 200 ;;
                 let* current :=
                   VirtualDesktopManager.get_current_desktop self in
                 ret (current =? i))%M) as Hquiet.
      { unfold VirtualDesktopManager.get_current_desktop. quiet. }
      destruct (Hquiet _ _ _ _ Hrest) as (made & -> & _).
      exists made. destruct w. cbn. by rewrite <- !app_assoc.
Qed.

Lemma desktop_index_out_of_range_witness :
  VirtualDesktopManager.switch_to_desktop (VirtualDesktopManager.mk true) 3
    ok_env start = (Ok false, log_call GetVirtualDesktops start).
Proof.
  apply (proj1 (desktop_index_out_of_range (VirtualDesktopManager.mk true) 3
                  ok_env start eq_refl eq_refl)).
  lia.
Defined.

(** *** Further properties of the window layer (windows_api.py) *)

Section Queries.

(** A class of calls that contains no query. *)
Variable P : call -> bool.
Hypothesis P_no_query : forall c, is_query c = true -> P c = false.

Lemma is_alt_tab_window_queries (h : Z) :
  at_most P 0 (WindowsApi.is_alt_tab_window h).
Proof.
  unfold WindowsApi.is_alt_tab_window, WindowsApi.get_window_text_safe.
  quiet.
Qed.

Lemma get_process_info_queries (pid : Z) :
  at_most P 0 (WindowsApi.get_process_info pid).
Proof. unfold WindowsApi.get_process_info. quiet. Qed.

Lemma enum_callback_queries (windows : list WindowInfo.t) (h : Z) :
  at_most P 0 (WindowsApi.enum_callback windows h).
Proof.
  unfold WindowsApi.enum_callback.
  apply at_most_try_free; [|intros ?; apply at_most_ret].
  apply at_most_bind_free; [apply is_alt_tab_window_queries|]. intros shown.
  apply at_most_if; [|apply at_most_ret].
  unfold WindowsApi.get_window_text_safe, WindowsApi.get_class_name_safe.
  apply at_most_bind_free; [quiet|]. intros title.
  apply at_most_bind_free; [quiet|]. intros cls.
  apply at_most_bind_free; [quiet|]. intros r.
  apply at_most_bind_free; [quiet|]. intros pid.
  apply at_most_bind_free; [apply get_process_info_queries|]. intros info.
  apply at_most_ret.
Qed.

Lemma enum_callbacks_queries (handles : list Z) :
  forall windows, at_most P 0 (WindowsApi.enum_callbacks windows handles).
Proof.
  induction handles as [|h handles IH]; intros windows;
    cbn [WindowsApi.enum_callbacks]; [apply at_most_ret|].
  apply at_most_bind_free; [apply enum_callback_queries|]. intros ?. apply IH.
Qed.

Lemma enumerate_windows_queries : at_most P 0 WindowsApi.enumerate_windows.
Proof.
  unfold WindowsApi.enumerate_windows.
  apply at_most_bind_free; [quiet|]. intros ?. apply enum_callbacks_queries.
Qed.

Lemma find_window_polls_queries (pid : Z) (hint : option string)
    (polls : nat) :
  at_most P 0 (WindowsApi.find_window_polls pid hint polls).
Proof.
  induction polls as [|polls IH]; cbn [WindowsApi.find_window_polls];
    [apply at_most_ret|].
  apply at_most_bind_free; [apply enumerate_windows_queries|]. intros ws.
  destruct (filter _ ws); [|apply at_most_ret].
  apply at_most_bind_free; [quiet|]. intros _. apply IH.
Qed.

Lemma find_window_by_pid_queries (pid timeout : Z) (hint : option string) :
  at_most P 0 (WindowsApi.find_window_by_pid pid timeout hint).
Proof.
  unfold WindowsApi.find_window_by_pid.
  apply at_most_bind_free; [quiet|]. intros polls.
  apply find_window_polls_queries.
Qed.

Lemma monitor_enum_callbacks_queries (found : list (Z * Rect)) :
  forall monitors,
    at_most P 0 (WindowsApi.monitor_enum_callbacks monitors found).
Proof.
  induction found as [|m found IH]; intros monitors;
    cbn [WindowsApi.monitor_enum_callbacks]; [apply at_most_ret|].
  apply at_most_bind_free; [|intros ?; apply IH].
  unfold WindowsApi.monitor_enum_callback. quiet.
Qed.

Lemma get_monitor_info_queries : at_most P 0 WindowsApi.get_monitor_info.
Proof.
  unfold WindowsApi.get_monitor_info.
  apply at_most_bind_free; [quiet|]. intros ?.
  apply monitor_enum_callbacks_queries.
Qed.

Lemma get_current_desktop_queries (self : VirtualDesktopManager.t) :
  at_most P 0 (VirtualDesktopManager.get_current_desktop self).
Proof. unfold VirtualDesktopManager.get_current_desktop. quiet. Qed.

Lemma get_window_desktop_queries (self : VirtualDesktopManager.t) (h : Z) :
  at_most P 0 (VirtualDesktopManager.get_window_desktop self h).
Proof.
  unfold VirtualDesktopManager.get_window_desktop.
  apply at_most_if; [apply at_most_ret|].
  apply at_most_try_free; [|intros ?; apply at_most_ret].
  apply at_most_try_free; [quiet|]. intros ?.
  apply get_current_desktop_queries.
Qed.

End Queries.

Lemma at_most_none_only_queries {A} (m : M A) :
  at_most (fun c => negb (is_query c)) 0 m -> only_queries m.
Proof.
  intros Hm env w r w' Hrun.
  destruct (Hm env w r w' Hrun) as (made & Hcalls & Hcount).
  exists made. split; [done|].
  apply Forall_forall. intros c Hc.
  destruct (is_query c) eqn:Hq; [done|].
  assert (c ∈ filter (fun c => negb (is_query c) = true) made) as Hin.
  { apply list_elem_of_filter. by rewrite Hq. }
  destruct (filter _ made); [by apply elem_of_nil in Hin|cbn in Hcount; lia].
Qed.

Lemma negb_query_no_query (c : call) :
  is_query c = true -> negb (is_query c) = false.
Proof. by intros ->. Qed.

(** X14. The functions that look for windows, processes, monitors and desktops
    only observe: every call they make is a query. In particular they never
    move, resize, show or close a window, never switch or create a desktop,
    never start a process and never touch a file. *)
Theorem observers_only_query (self : VirtualDesktopManager.t) :
  only_queries WindowsApi.enumerate_windows /\
  (forall pid timeout hint,
     only_queries (WindowsApi.find_window_by_pid pid timeout hint)) /\
  (forall exe, only_queries (WindowsApi.find_windows_by_exe exe)) /\
  (forall h, only_queries (WindowsApi.is_alt_tab_window h)) /\
  (forall h, only_queries (WindowsApi.get_window_rect h)) /\
  (forall pid, only_queries (WindowsApi.get_process_info pid)) /\
  only_queries WindowsApi.get_monitor_info /\
  only_queries WindowsApi.get_primary_monitor_rect /\
  only_queries (VirtualDesktopManager.get_desktop_count self) /\
  only_queries (VirtualDesktopManager.get_current_desktop self) /\
  (forall h, only_queries (VirtualDesktopManager.get_window_desktop self h)) /\
  (forall h, only_queries (VirtualDesktopManager.is_window_pinned self h)).
Proof.
  pose proof negb_query_no_query as HP.
  repeat split; intros; apply at_most_none_only_queries.
  - by apply enumerate_windows_queries.
  - by apply find_window_by_pid_queries.
  - unfold WindowsApi.find_windows_by_exe.
    apply at_most_bind_free; [quiet|]. intros ?.
    apply at_most_bind_free; [by apply enumerate_windows_queries|].
    intros ?. apply at_most_ret.
  - by apply is_alt_tab_window_queries.
  - unfold WindowsApi.get_window_rect. quiet.
  - by apply get_process_info_queries.
  - by apply get_monitor_info_queries.
  - unfold WindowsApi.get_primary_monitor_rect.
    apply at_most_bind_free; [by apply get_monitor_info_queries|].
    intros ms. destruct (filter _ ms); [destruct ms|]; apply at_most_ret.
  - by apply get_desktop_count_quiet.
  - by apply get_current_desktop_queries.
  - by apply get_window_desktop_queries.
  - unfold VirtualDesktopManager.is_window_pinned. quiet.
Qed.

Lemma enum_callback_adds (windows : list WindowInfo.t) (h : Z) env w r w' :
  WindowsApi.enum_callback windows h env w = (r, w') ->
  exists added,
    r = Ok (windows ++ added)%list /\
    (added = [] \/
     exists win, added = [win] /\ WindowInfo.hwnd win = h /\
                 WindowInfo.is_visible win = true).
Proof.
  unfold WindowsApi.enum_callback, try_except.
  destruct (bind _ _ env w) as [[ws|e] w1] eqn:Hbody.
  2:{ cbn. intros [= <- <-]. exists []. rewrite app_nil_r. by split; [|left]. }
  intros [= <- <-].
  apply bind_Ok_inv in Hbody as (shown & w2 & _ & Hbody).
  destruct shown.
  2:{ injection Hbody as <- _. exists []. rewrite app_nil_r.
      by split; [|left]. }
  apply bind_Ok_inv in Hbody as (title & w3 & _ & Hbody).
  apply bind_Ok_inv in Hbody as (cls & w4 & _ & Hbody).
  apply bind_Ok_inv in Hbody as (rect & w5 & _ & Hbody).
  apply bind_Ok_inv in Hbody as (pid & w6 & _ & Hbody).
  apply bind_Ok_inv in Hbody as (info & w7 & _ & Hbody).
  injection Hbody as <- _. eexists. split; [reflexivity|]. right.
  eexists. by split.
Qed.

Lemma enum_callbacks_add (handles : list Z) :
  forall windows env w r w',
    WindowsApi.enum_callbacks windows handles env w = (r, w') ->
    exists added,
      r = Ok (windows ++ added)%list /\
      sublist (WindowInfo.hwnd <$> added) handles /\
      Forall (fun win => WindowInfo.is_visible win = true) added.
Proof.
  induction handles as [|h handles IH]; intros windows env w r w';
    cbn [WindowsApi.enum_callbacks].
  - intros [= <- <-]. exists []. rewrite app_nil_r. by repeat split.
  - unfold bind.
    destruct (WindowsApi.enum_callback windows h env w) as [r1 w1] eqn:Hone.
    apply enum_callback_adds in Hone as (added1 & -> & Hadded1).
    intros Hrest. apply IH in Hrest as (added & -> & Hsub & Hvis).
    exists (added1 ++ added)%list. split; [by rewrite app_assoc|].
    destruct Hadded1 as [->|(win & -> & <- & Hwin)]; cbn.
    + split; [by apply sublist_cons|done].
    + split; [by apply sublist_skip|by constructor].
Qed.

(** X15. [enumerate_windows] lists windows among the handles that [EnumWindows]
    passes to the callback, each at most once and in that order, and marks
    every one of them visible; a window on which a query fails is left out
    without affecting the others. *)
Theorem enumerate_windows_follows_handles (env : Env) (w : World) :
  match WindowsApi.enumerate_windows env w with
  | (Ok windows, _) =>
      sublist (WindowInfo.hwnd <$> windows) (fst (enum_windows env (tick w))) /\
      Forall (fun win => WindowInfo.is_visible win = true) windows
  | (Raise _, _) => False
  end.
Proof.
  destruct (WindowsApi.enumerate_windows env w) as [r w'] eqn:Hrun.
  unfold WindowsApi.enumerate_windows, bind, os_call in Hrun.
  apply enum_callbacks_add in Hrun as (added & -> & Hsub & Hvis).
  by rewrite app_nil_l.
Qed.

Lemma find_window_polls_found (pid : Z) (hint : option string)
    (polls : nat) :
  forall env w r w',
    WindowsApi.find_window_polls pid hint polls env w = (r, w') ->
    match r with
    | Ok (Some h) =>
        exists w0 windows win,
          WindowsApi.enumerate_windows env w0 = (Ok windows, w') /\
          head (filter (fun x => WindowsApi.match_window pid hint x = true)
                  windows) = Some win /\
          WindowInfo.hwnd win = h
    | Ok None =>
        polls = O \/ exists w0, w' = log_call (Sleep 500) w0
    | Raise _ => False
    end.
Proof.
  induction polls as [|polls IH]; intros env w r w';
    cbn [WindowsApi.find_window_polls].
  - intros [= <- <-]. by left.
  - unfold bind at 1.
    destruct (WindowsApi.enumerate_windows env w) as [[windows|e] w1] eqn:Hen.
    2:{ destruct (enumerate_windows_never_raises env w) as (? & ? & ?).
        congruence. }
    destruct (filter _ windows) as [|win rest] eqn:Hfilter.
    + unfold bind, sleep, os_call. intros Hrest.
      specialize (IH _ _ _ _ Hrest). destruct r as [[h|]|e]; [done| |done].
      right. destruct IH as [->|?]; [|done].
      cbn in Hrest. injection Hrest as <-. by eexists.
    + intros [= <- <-]. exists w, windows, win. split; [done|].
      by rewrite Hfilter.
Qed.


(** *** Further properties of the launcher (launcher.py) *)

Lemma group_get_insert (grouped : list (Z * list AppInstance.t))
    (desktop : Z) (app : AppInstance.t) (d : Z) :
  WorkspaceLauncher.group_get
    (WorkspaceLauncher.group_insert grouped desktop app) d =
  if decide (d = desktop)
  then (WorkspaceLauncher.group_get grouped d ++ [app])%list
  else WorkspaceLauncher.group_get grouped d.
Proof.
  induction grouped as [|[k apps] grouped IH]; cbn.
  - destruct (Z.eqb_spec desktop d) as [->|Hne].
    + by rewrite decide_True.
    + by rewrite decide_False by done.
  - destruct (Z.eqb_spec k desktop) as [->|Hk]; cbn.
    + destruct (Z.eqb_spec desktop d) as [->|Hne].
      * by rewrite decide_True.
      * by rewrite decide_False by done.
    + destruct (Z.eqb_spec k d) as [->|Hkd]; [|done].
      by rewrite decide_False.
Qed.

Lemma group_insert_key_elem (grouped : list (Z * list AppInstance.t))
    (desktop : Z) (app : AppInstance.t) (d : Z) :
  d ∈ (fst <$> WorkspaceLauncher.group_insert grouped desktop app) <->
  d = desktop \/ d ∈ (fst <$> grouped).
Proof.
  induction grouped as [|[k apps] grouped IH]; cbn.
  - rewrite list_elem_of_singleton. split; [by left|].
    intros [?|?%elem_of_nil]; done.
  - destruct (Z.eqb_spec k desktop) as [->|Hk]; cbn.
    + rewrite elem_of_cons. split; [by right|]. intros [->|?]; [by left|done].
    + rewrite !elem_of_cons, IH. tauto.
Qed.

Lemma group_fold_get (apps : list AppInstance.t) :
  forall grouped d,
    let folded :=
      foldl (fun g app =>
               WorkspaceLauncher.group_insert g
                 (AppInstance.virtual_desktop app) app)
        grouped apps in
    WorkspaceLauncher.group_get folded d =
      (WorkspaceLauncher.group_get grouped d ++
       filter (fun app => AppInstance.virtual_desktop app = d) apps)%list /\
    (d ∈ (fst <$> folded) <->
     d ∈ (fst <$> grouped) \/
     exists app, app ∈ apps /\ AppInstance.virtual_desktop app = d).
Proof.
  induction apps as [|app apps IH]; intros grouped d; cbn [foldl].
  - cbn. rewrite app_nil_r. split; [done|]. split; [by left|].
    intros [?|(app & ?%elem_of_nil & _)]; done.
  - destruct (IH (WorkspaceLauncher.group_insert grouped
                    (AppInstance.virtual_desktop app) app) d) as [Hget Hkey].
    cbn zeta in Hget, Hkey. split.
    + rewrite Hget, group_get_insert.
      destruct (decide (d = AppInstance.virtual_desktop app)) as [->|Hne].
      * rewrite filter_cons_True by done. by rewrite <- app_assoc.
      * rewrite filter_cons_False by (by intros ?). done.
    + rewrite Hkey, group_insert_key_elem. split.
      * intros [[->|?]|(a & Ha & Hd)]; [right|by left|right].
        -- exists app. split; [by left|done].
        -- exists a. split; [by right|done].
      * intros [?|(a & [->|Ha]%elem_of_cons & Hd)];
          [by left; right|by left; left|right].
        by exists a.
Qed.

(** X17. Grouping by desktop sorts the apps into one group per desktop index in
    use: the group of a desktop holds exactly the apps meant for it, in the
    order in which the workspace declares them, and a desktop has a group
    exactly when some app names it; no desktop has two groups. *)
Theorem group_apps_by_desktop_groups (apps : list AppInstance.t) (d : Z) :
  let grouped := WorkspaceLauncher._group_apps_by_desktop apps in
  WorkspaceLauncher.group_get grouped d =
    filter (fun app => AppInstance.virtual_desktop app = d) apps /\
  (d ∈ (fst <$> grouped) <->
   exists app, app ∈ apps /\ AppInstance.virtual_desktop app = d) /\
  NoDup (fst <$> grouped).
Proof.
  intros grouped.
  destruct (group_fold_get apps [] d) as [Hget Hkey].
  split; [exact Hget|]. split.
  - unfold grouped, WorkspaceLauncher._group_apps_by_desktop.
    rewrite Hkey. split; [|by right]. intros [?%elem_of_nil|?]; done.
  - by destruct (group_fold_spec apps [] NoDup_nil_2) as [Hnd _].
Qed.

Lemma filter_d_args_spec (args : list string) :
  forall skip,
    ("-d" ∉ WorkspaceLauncher.filter_d_args skip args) /\
    sublist (WorkspaceLauncher.filter_d_args skip args) args /\
    ("-d" ∉ args ->
     WorkspaceLauncher.filter_d_args skip args =
       if skip then tail args else args).
Proof.
  induction args as [|arg args IH]; intros skip; cbn.
  - split; [apply not_elem_of_nil|]. split; [constructor|by destruct skip].
  - destruct skip.
    + destruct (IH false) as (Hno & Hsub & Hid). split; [done|].
      split; [by apply sublist_cons|].
      intros [_ Hnot]%not_elem_of_cons. by apply Hid.
    + destruct (String.eqb_spec arg "-d") as [->|Hne].
      * destruct (IH true) as (Hno & Hsub & Hid). split; [done|].
        split; [by apply sublist_cons|].
        intros Hnot. exfalso. apply Hnot. by left.
      * destruct (IH false) as (Hno & Hsub & Hid).
        split; [by apply not_elem_of_cons|].
        split; [by apply sublist_skip|].
        intros [_ Hnot]%not_elem_of_cons. f_equal. by apply Hid.
Qed.

(** X18. The arguments kept for the Windows Terminal command line: every [-d]
    and the argument that follows it are dropped, so that no [-d] is left; what
    is kept is in the original order, and arguments without a [-d] are kept as
    they are. A [-d] in last position is dropped alone, and the argument after
    a [-d] is dropped even when it is itself [-d]. *)
Theorem filter_d_args_drops_d (args : list string) :
  ("-d" ∉ WorkspaceLauncher.filter_d_args false args) /\
  sublist (WorkspaceLauncher.filter_d_args false args) args /\
  ("-d" ∉ args -> WorkspaceLauncher.filter_d_args false args = args) /\
  (forall before path rest,
     "-d" ∉ before ->
     WorkspaceLauncher.filter_d_args false
       (before ++ "-d" :: path :: rest) =
     (before ++ WorkspaceLauncher.filter_d_args false rest)%list) /\
  (forall before,
     "-d" ∉ before ->
     WorkspaceLauncher.filter_d_args false (before ++ ["-d"]) = before).
Proof.
  destruct (filter_d_args_spec args false) as (Hno & Hsub & Hid).
  split; [done|]. split; [done|]. split; [done|]. split.
  - intros before path rest.
    induction before as [|b before IH]; intros Hnot; [done|].
    apply not_elem_of_cons in Hnot as [Hb Hnot]. cbn.
    destruct (String.eqb_spec b "-d") as [->|_]; [done|].
    by rewrite IH.
  - intros before.
    induction before as [|b before IH]; intros Hnot; [done|].
    apply not_elem_of_cons in Hnot as [Hb Hnot]. cbn.
    destruct (String.eqb_spec b "-d") as [->|_]; [done|].
    by rewrite IH.
Qed.

Lemma set_launch_results_twice (l1 l2 : list LaunchResult.t) (w : World) :
  set_launch_results l2 (set_launch_results l1 w) = set_launch_results l2 w.
Proof. by destruct w. Qed.

Lemma launch_results_set (l : list LaunchResult.t) (w : World) :
  launch_results (set_launch_results l w) = l.
Proof. by destruct w. Qed.

Lemma launch_group_dry (self : WorkspaceLauncher.t) (sequential : bool)
    (desktop_idx : Z) (apps : list AppInstance.t) :
  forall env w,
    WorkspaceLauncher.launch_group self true sequential desktop_idx apps
      env w =
    (Ok tt,
     set_launch_results (launch_results w ++ (dry_run_result <$> apps)) w).
Proof.
  induction apps as [|app apps IH]; intros env w.
  - cbn. rewrite app_nil_r. by destruct w.
  - cbn [WorkspaceLauncher.launch_group].
    unfold bind at 1. cbv [ret].
    unfold bind at 1, WorkspaceLauncher.append_result at 1, update_world at 1.
    rewrite andb_false_r. unfold bind at 1. rewrite IH.
    rewrite set_launch_results_twice. f_equal. f_equal.
    destruct w. cbn. by rewrite <- app_assoc.
Qed.

Lemma launch_groups_dry (self : WorkspaceLauncher.t) (sequential : bool)
    (apps_by_desktop : list (Z * list AppInstance.t)) (keys : list Z) :
  forall env w,
    WorkspaceLauncher.launch_groups self true sequential apps_by_desktop keys
      env w =
    (Ok tt,
     set_launch_results
       (launch_results w ++
        (dry_run_result <$>
         concat (WorkspaceLauncher.group_get apps_by_desktop <$> keys))) w).
Proof.
  induction keys as [|key keys IH]; intros env w.
  - cbn. rewrite app_nil_r. by destruct w.
  - cbn [WorkspaceLauncher.launch_groups negb andb].
    unfold bind at 1. cbv [ret]. unfold bind at 1.
    rewrite launch_group_dry, IH, set_launch_results_twice. f_equal. f_equal.
    rewrite fmap_cons. cbn [concat]. rewrite fmap_app.
    destruct w. cbn. by rewrite <- app_assoc.
Qed.



Lemma retry_without_failures (self : WorkspaceLauncher.t)
    (workspace : Workspace.t) env w :
  WorkspaceLauncher.get_failed_apps (launch_results w) = [] ->
  WorkspaceLauncher.retry_failed_apps self workspace env w = (Ok true, w).
Proof.
  intros Hnone. unfold WorkspaceLauncher.retry_failed_apps.
  cbv [bind get_world]. by rewrite Hnone.
Qed.

Lemma no_failure_no_failed_apps (results : list LaunchResult.t) :
  (forall r, r ∈ results -> LaunchResult.success r = true) ->
  WorkspaceLauncher.get_failed_apps results = [].
Proof.
  intros Hall. unfold WorkspaceLauncher.get_failed_apps.
  rewrite filter_none_nil; [done|].
  intros r Hr Hs. specialize (Hall r Hr). congruence.
Qed.


Lemma query_not_popen (c : call) : is_query c = true -> is_popen c = false.
Proof. by destruct c. Qed.

Lemma switch_to_desktop_no_popen (self : VirtualDesktopManager.t) (i : Z) :
  at_most is_popen 0 (VirtualDesktopManager.switch_to_desktop self i).
Proof.
  unfold VirtualDesktopManager.switch_to_desktop,
    VirtualDesktopManager.get_current_desktop.
  quiet.
Qed.

Lemma prepare_launch_no_popen (app : AppInstance.t) :
  at_most is_popen 0 (WorkspaceLauncher.prepare_launch app).
Proof.
  unfold WorkspaceLauncher.prepare_launch.
  apply at_most_bind_free.
  { unfold WorkspaceLauncher.special_exe, WorkspaceLauncher.call_which.
    quiet. }
  intros exe0. apply at_most_bind_free.
  { unfold WorkspaceLauncher.lookup_in_path, WorkspaceLauncher.call_which,
      WorkspaceLauncher.call_exists.
    destruct exe0; quiet. }
  intros exe1. apply at_most_bind_free; [quiet|]. intros exe_str.
  apply at_most_bind_free.
  { unfold WorkspaceLauncher.usable_working_dir,
      WorkspaceLauncher.call_exists. quiet. }
  intros cwd_ok. apply at_most_bind_free; [quiet|]. intros cwd0.
  unfold WorkspaceLauncher.usable_working_dir, WorkspaceLauncher.call_which,
    WorkspaceLauncher.call_exists.
  destruct exe1; quiet.
Qed.

Lemma before_popen_no_popen (self : WorkspaceLauncher.t)
    (app : AppInstance.t) (desktop_index : Z) (skip : bool) :
  at_most is_popen 0
    (WorkspaceLauncher.before_popen self app desktop_index skip).
Proof.
  unfold WorkspaceLauncher.before_popen.
  apply at_most_bind_free; [apply prepare_launch_no_popen|]. intros plan.
  apply at_most_bind_free.
  { apply at_most_if; [|apply at_most_ret].
    apply at_most_bind_free; [apply switch_to_desktop_no_popen|].
    intros ?. quiet. }
  intros _. apply at_most_bind_free.
  { apply enumerate_windows_queries, query_not_popen. }
  intros ?. apply at_most_ret.
Qed.

Lemma find_new_window_no_popen (pid timeout : Z) (before : gset Z)
    (remaining : nat) :
  forall retry hwnd,
    at_most is_popen 0
      (WorkspaceLauncher.find_new_window pid timeout before remaining retry
         hwnd).
Proof.
  induction remaining as [|remaining IH]; intros retry hwnd;
    cbn [WorkspaceLauncher.find_new_window]; [apply at_most_ret|].
  apply at_most_bind_free; [quiet|]. intros _.
  apply at_most_bind_free.
  { apply find_window_by_pid_queries, query_not_popen. }
  intros by_pid. apply at_most_if; [apply at_most_ret|].
  apply at_most_bind_free; [quiet|]. intros _.
  apply at_most_bind_free.
  { apply enumerate_windows_queries, query_not_popen. }
  intros now. destruct (filter _ now); [apply IH|apply at_most_ret].
Qed.

Lemma console_attempts_no_popen (h x y width height tolerance : Z)
    (remaining : nat) :
  forall attempt,
    at_most is_popen 0
      (WindowsApi.console_attempts h x y width height tolerance remaining
         attempt).
Proof.
  induction remaining as [|remaining IH]; intros attempt;
    cbn [WindowsApi.console_attempts]; [apply at_most_ret|].
  do 5 (apply at_most_bind_free; [quiet|]; intros ?).
  apply at_most_bind_free; [quiet|]. intros r.
  apply at_most_if; [apply at_most_ret|apply IH].
Qed.

Lemma move_window_no_popen (h x y width height : Z) :
  at_most is_popen 0 (WindowsApi.move_window h x y width height).
Proof.
  unfold WindowsApi.move_window.
  apply at_most_try_free; [|intros ?; apply at_most_ret].
  apply at_most_bind_free; [|intros ?; apply at_most_ret].
  unfold WindowsApi.move_window_readback, WindowsApi.get_class_name_safe.
  apply at_most_bind_free; [quiet|]. intros cls.
  apply at_most_bind_free; [quiet|]. intros _.
  apply at_most_bind_free; [quiet|]. intros _.
  apply at_most_bind_free.
  { apply at_most_if; [apply console_attempts_no_popen|quiet]. }
  intros _. quiet.
Qed.

Lemma arrange_window_no_popen (self : WorkspaceLauncher.t)
    (app : AppInstance.t) (desktop_index h : Z) :
  at_most is_popen 0
    (WorkspaceLauncher.arrange_window self app desktop_index h).
Proof.
  unfold WorkspaceLauncher.arrange_window.
  apply at_most_bind_free.
  { unfold VirtualDesktopManager.move_window_to_desktop. quiet. }
  intros _. apply at_most_bind_free; [quiet|]. intros _.
  apply at_most_bind_free; [unfold WindowsApi.restore_window; quiet|].
  intros _. apply at_most_bind_free; [quiet|]. intros _.
  apply at_most_bind_free; [apply move_window_no_popen|]. intros _.
  apply at_most_bind_free; [unfold WindowsApi.is_window_responding; quiet|].
  intros _. apply at_most_ret.
Qed.

Lemma launch_app_one_popen (self : WorkspaceLauncher.t) (app : AppInstance.t)
    (desktop_index : Z) (skip : bool) :
  at_most is_popen 1
    (WorkspaceLauncher._launch_app self app desktop_index skip).
Proof.
  unfold WorkspaceLauncher._launch_app.
  apply at_most_try_free; [|intros ?; apply at_most_ret].
  apply at_most_bind_free; [apply before_popen_no_popen|]. intros prepared.
  apply (at_most_bind _ 1 0).
  { unfold WorkspaceLauncher.start_process. apply at_most_os_call. }
  intros pid. apply at_most_bind_free.
  { apply find_new_window_no_popen. }
  intros hwnd. destruct hwnd as [h|]; [|apply at_most_ret].
  apply at_most_if; [|apply at_most_ret].
  apply at_most_bind_free; [apply arrange_window_no_popen|].
  intros _. apply at_most_ret.
Qed.

Lemma launch_group_popens (self : WorkspaceLauncher.t)
    (dry_run sequential : bool) (desktop_idx : Z)
    (apps : list AppInstance.t) :
  at_most is_popen (length apps)
    (WorkspaceLauncher.launch_group self dry_run sequential desktop_idx apps).
Proof.
  induction apps as [|app apps IH]; cbn [WorkspaceLauncher.launch_group length];
    [apply at_most_ret|].
  apply (at_most_bind _ 1 (length apps)).
  { apply at_most_if; [apply at_most_ret|apply launch_app_one_popen]. }
  intros result. apply at_most_bind_free.
  { unfold WorkspaceLauncher.append_result. quiet. }
  intros _. apply at_most_bind_free; [quiet|]. intros _. apply IH.
Qed.

Lemma launch_groups_popens (self : WorkspaceLauncher.t)
    (dry_run sequential : bool)
    (apps_by_desktop : list (Z * list AppInstance.t)) (keys : list Z) :
  at_most is_popen
    (length (concat (WorkspaceLauncher.group_get apps_by_desktop <$> keys)))
    (WorkspaceLauncher.launch_groups self dry_run sequential apps_by_desktop
       keys).
Proof.
  induction keys as [|key keys IH];
    cbn [WorkspaceLauncher.launch_groups]; [apply at_most_ret|].
  rewrite fmap_cons. cbn [concat]. rewrite length_app.
  apply at_most_bind_free.
  { apply at_most_if; [|apply at_most_ret].
    apply at_most_bind_free; [apply switch_to_desktop_no_popen|].
    intros ?. quiet. }
  intros _. apply at_most_bind; [apply launch_group_popens|].
  intros _. apply IH.
Qed.

Lemma create_desktops_no_popen (self : VirtualDesktopManager.t) (total : Z)
    (remaining : nat) :
  forall i,
    at_most is_popen 0
      (VirtualDesktopManager.create_desktops self total remaining i).
Proof.
  induction remaining as [|remaining IH]; intros i;
    cbn [VirtualDesktopManager.create_desktops]; [apply at_most_ret|].
  apply at_most_bind_free.
  { unfold VirtualDesktopManager.create_desktop,
      VirtualDesktopManager.get_desktop_count,
      VirtualDesktopManager.send_win_ctrl_d.
    quiet. }
  intros created. apply at_most_if; [apply at_most_ret|].
  apply at_most_bind_free; [quiet|]. intros _. apply IH.
Qed.

Lemma ensure_desktop_count_no_popen (self : VirtualDesktopManager.t)
    (required : Z) :
  at_most is_popen 0
    (VirtualDesktopManager.ensure_desktop_count self required).
Proof.
  unfold VirtualDesktopManager.ensure_desktop_count.
  apply at_most_if; [apply at_most_ret|].
  apply at_most_try_free; [|intros ?; apply at_most_raise].
  apply at_most_bind_free; [by apply get_desktop_count_quiet|].
  intros current. apply at_most_if; [apply at_most_ret|].
  apply at_most_bind_free; [apply create_desktops_no_popen|].
  intros created. apply at_most_if; [apply at_most_ret|].
  apply at_most_bind_free; [by apply get_desktop_count_quiet|].
  intros ?. apply at_most_ret.
Qed.

Lemma retry_apps_popens (self : WorkspaceLauncher.t)
    (apps : list AppInstance.t) :
  forall all_success,
    at_most is_popen (length apps)
      (WorkspaceLauncher.retry_apps self apps all_success).
Proof.
  induction apps as [|app apps IH]; intros all_success;
    cbn [WorkspaceLauncher.retry_apps length]; [apply at_most_ret|].
  apply (at_most_bind _ 1 (length apps)); [apply launch_app_one_popen|].
  intros result. apply at_most_bind_free.
  { unfold WorkspaceLauncher.append_result. quiet. }
  intros _. apply at_most_bind_free; [quiet|]. intros _. apply IH.
Qed.

(** X21. No app is started twice. A launch of one app starts at most one
    process; [launch_workspace] starts at most one process per app of the
    workspace; and a retry pass starts at most one process per app whose id is
    among the failed ones. *)
Theorem one_process_per_app (self : WorkspaceLauncher.t)
    (workspace : Workspace.t) :
  (forall app desktop_index skip,
     at_most is_popen 1
       (WorkspaceLauncher._launch_app self app desktop_index skip)) /\
  (forall dry_run sequential,
     at_most is_popen (length (Workspace.apps workspace))
       (WorkspaceLauncher.launch_workspace self workspace dry_run
          sequential)) /\
  (forall env w r w',
     WorkspaceLauncher.retry_failed_apps self workspace env w = (r, w') ->
     exists made,
       calls w' = (calls w ++ made)%list /\
       (length (filter (fun c => is_popen c = true) made) <=
        length
          (filter
             (fun app =>
                AppInstance.id app ∈
                WorkspaceLauncher.get_failed_apps (launch_results w))
             (Workspace.apps workspace)))%nat).
Proof.
  split; [intros; apply launch_app_one_popen|]. split.
  - intros dry_run sequential. unfold WorkspaceLauncher.launch_workspace.
    destruct (Workspace.apps workspace) as [|app apps] eqn:Happs;
      [apply at_most_ret|].
    rewrite <- Happs.
    apply at_most_bind_free; [quiet|]. intros _.
    apply at_most_bind_free.
    { apply at_most_if; [|apply at_most_ret].
      apply at_most_bind_free; [apply ensure_desktop_count_no_popen|].
      intros ?. apply at_most_ret. }
    intros _.
    rewrite <- (Permutation_length
                  (launch_order_Permutation (Workspace.apps workspace))).
    eapply at_most_weaken; cycle 1.
    { eapply (at_most_bind _ _ 0); [apply launch_groups_popens|].
      intros _. quiet. }
    lia.
  - intros env w r w'. unfold WorkspaceLauncher.retry_failed_apps.
    unfold bind at 1, get_world at 1.
    destruct (WorkspaceLauncher.get_failed_apps (launch_results w))
      as [|i ids] eqn:Hids.
    + intros [= <- <-]. exists []. rewrite app_nil_r. split; [done|]. cbn. lia.
    + rewrite <- Hids. unfold bind, update_world. intros Hrun.
      apply retry_apps_popens in Hrun as (made & Hcalls & Hcount).
      exists made. split; [|done]. rewrite Hcalls. by destruct w.
Qed.

(** *** Properties of the capture (capture.py) *)

Lemma pretty_N_go_digits (x : N) :
  forall s,
    "_"%char ∉ String.list_ascii_of_string s ->
    "_"%char ∉ String.list_ascii_of_string (pretty_N_go x s).
Proof.
  induction (N.lt_wf_0 x) as [x _ IH]; intros s Hs.
  assert (x = 0 \/ 0 < x)%N as [->|Hpos] by lia.
  - by rewrite pretty_N_go_0.
  - rewrite pretty_N_go_step by done. apply IH; [by apply N.div_lt|].
    cbn. apply not_elem_of_cons. split; [|done].
    unfold pretty_N_char. by repeat case_match.
Qed.

Lemma pretty_nat_no_underscore (n : nat) :
  "_"%char ∉ String.list_ascii_of_string (pretty n).
Proof.
  unfold pretty, pretty_nat, pretty, pretty_N.
  case_decide.
  - cbn. by intros [?|?%elem_of_nil]%elem_of_cons.
  - apply pretty_N_go_digits. apply not_elem_of_nil.
Qed.

Lemma list_ascii_of_string_app (s1 s2 : string) :
  String.list_ascii_of_string (s1 +:+ s2) =
  (String.list_ascii_of_string s1 ++ String.list_ascii_of_string s2)%list.
Proof.
  induction s1 as [|c s1 IH]; [done|].
  change (String c s1 +:+ s2) with (String c (s1 +:+ s2)).
  cbn. f_equal. apply IH.
Qed.

(** A suffix without underscore is determined by the whole string. *)
Lemma underscore_suffix_inj (s1 s2 d1 d2 : string) :
  "_"%char ∉ String.list_ascii_of_string d1 ->
  "_"%char ∉ String.list_ascii_of_string d2 ->
  s1 +:+ "_" +:+ d1 = s2 +:+ "_" +:+ d2 -> d1 = d2.
Proof.
  intros Hd1 Hd2. revert s2.
  induction s1 as [|c s1 IH]; intros [|c' s2];
    repeat first
      [ progress change ("" +:+ ?t) with t
      | progress change (String ?c ?s +:+ ?t) with (String c (s +:+ t)) ].
  - by intros [= ->].
  - intros [= <- ->]. exfalso. apply Hd1.
    rewrite list_ascii_of_string_app. apply elem_of_app. right. by left.
  - intros [= -> <-]. exfalso. apply Hd2.
    rewrite list_ascii_of_string_app. apply elem_of_app. right. by left.
  - intros [= _ Heq]. by apply (IH s2).
Qed.

Lemma capture_app_spec (path_stem : string -> string)
    (self : WorkspaceCapturer.t) (idx : nat) (window : WindowInfo.t) env w
    r w' :
  WorkspaceCapturer.capture_app path_stem self idx window env w = (r, w') ->
  match r with
  | Ok app =>
      AppInstance.window app =
        WindowConfig.mk (left (WindowInfo.rect window))
          (top (WindowInfo.rect window))
          (right (WindowInfo.rect window) - left (WindowInfo.rect window))
          (bottom (WindowInfo.rect window) - top (WindowInfo.rect window)) /\
      AppInstance.exe app <> "" /\
      (forall p, WindowInfo.exe_path window = Some p -> p <> "" ->
                 AppInstance.exe app = p) /\
      AppInstance.virtual_desktop app <> -1 /\
      exists stem, AppInstance.id app = stem +:+ "_" +:+ pretty idx
  | Raise e =>
      WindowsApi.is_psutil_access_error e = false /\
      exists t, psutil_process env t = Raise e
  end.
Proof.
  unfold WorkspaceCapturer.capture_app. unfold bind at 1.
  destruct (VirtualDesktopManager.get_window_desktop _ _ env w)
    as [[desktop|e] w1] eqn:Hdesk.
  2:{ destruct (proj1 (proj2 (proj2 (virtual_desktops_never_raise
         (WorkspaceCapturer.vd_manager self)))) (WindowInfo.hwnd window)
         env w) as (? & ? & ?). congruence. }
  unfold bind at 1.
  destruct (WindowsApi.get_process_info _ env w1) as [[info|e] w2] eqn:Hinfo.
  2:{ intros [= <- <-].
      assert (raises (WindowsApi.get_process_info (WindowInfo.pid window))
                env w1 e) as Hraise by (by exists w2).
      apply get_process_info_raises in Hraise as [? ?]. split; [done|].
      by eexists. }
  cbv [ret]. intros [= <- <-]. cbn.
  split; [done|]. split; [|split; [|split]].
  - unfold WorkspaceCapturer.captured_exe, truthy_str.
    destruct (WindowInfo.exe_path window) as [p|].
    + destruct (String.eqb_spec p "") as [->|Hp]; cbn [negb].
      * destruct info as [i|]; cbn; [|done].
        by destruct (String.eqb_spec (proc_exe i) "").
      * by destruct (String.eqb_spec p "").
    + destruct info as [i|]; cbn; [|done].
      by destruct (String.eqb_spec (proc_exe i) "").
  - intros p Hp Hne. unfold WorkspaceCapturer.captured_exe, truthy_str.
    rewrite Hp. cbn [negb].
    destruct (String.eqb_spec p "") as [?|_]; [done|]. cbn [negb].
    by destruct (String.eqb_spec p "").
  - unfold WorkspaceCapturer.known_desktop.
    destruct (Z.eqb_spec desktop (-1)); [done|done].
  - by eexists.
Qed.

Lemma capture_apps_spec (path_stem : string -> string)
    (self : WorkspaceCapturer.t) (windows : list WindowInfo.t) :
  forall idx workspace env w r w',
    WorkspaceCapturer.capture_apps path_stem self idx windows workspace env w
      = (r, w') ->
    match r with
    | Ok captured =>
        Workspace.name captured = Workspace.name workspace /\
        Workspace.description captured = Workspace.description workspace /\
        exists new,
          Workspace.apps captured = (Workspace.apps workspace ++ new)%list /\
          length new = length windows /\
          forall i window, windows !! i = Some window ->
            exists app,
              new !! i = Some app /\
              AppInstance.window app =
                WindowConfig.mk (left (WindowInfo.rect window))
                  (top (WindowInfo.rect window))
                  (right (WindowInfo.rect window) -
                   left (WindowInfo.rect window))
                  (bottom (WindowInfo.rect window) -
                   top (WindowInfo.rect window)) /\
              AppInstance.exe app <> "" /\
              (forall p, WindowInfo.exe_path window = Some p -> p <> "" ->
                         AppInstance.exe app = p) /\
              AppInstance.virtual_desktop app <> -1 /\
              exists stem,
                AppInstance.id app = stem +:+ "_" +:+ pretty (idx + i)%nat
    | Raise e =>
        WindowsApi.is_psutil_access_error e = false /\
        exists t, psutil_process env t = Raise e
    end.
Proof.
  induction windows as [|window windows IH]; intros idx workspace env w r w';
    cbn [WorkspaceCapturer.capture_apps].
  - intros [= <- <-]. split; [done|]. split; [done|]. exists [].
    rewrite app_nil_r. split; [done|]. split; [done|]. by intros i ? ?.
  - unfold bind.
    destruct (WorkspaceCapturer.capture_app path_stem self idx window env w)
      as [[app|e] w1] eqn:Happ;
      apply capture_app_spec in Happ.
    2:{ by intros [= <- <-]. }
    intros Hrest. apply IH in Hrest. destruct r as [captured|e]; [|done].
    destruct Hrest as (Hname & Hdesc & new & Happs & Hlen & Hnew).
    split; [done|]. split; [done|]. exists (app :: new). split.
    { rewrite Happs. cbn. by rewrite <- app_assoc. }
    split; [cbn; lia|].
    intros [|i] window' Hlook.
    + injection Hlook as <-. exists app. split; [done|].
      by rewrite Nat.add_0_r.
    + destruct (Hnew i window' Hlook) as (app' & Hlook' & Hrest).
      exists app'. split; [done|].
      by rewrite Nat.add_succ_r.
Qed.


Section CaptureQueries.

Variable P : call -> bool.
Hypothesis P_no_query : forall c, is_query c = true -> P c = false.

Lemma capture_apps_queries (path_stem : string -> string)
    (self : WorkspaceCapturer.t) (windows : list WindowInfo.t) :
  forall idx workspace,
    at_most P 0
      (WorkspaceCapturer.capture_apps path_stem self idx windows workspace).
Proof.
  induction windows as [|window windows IH]; intros idx workspace;
    cbn [WorkspaceCapturer.capture_apps]; [apply at_most_ret|].
  apply at_most_bind_free; [|intros ?; apply IH].
  unfold WorkspaceCapturer.capture_app.
  apply at_most_bind_free; [by apply get_window_desktop_queries|]. intros ?.
  apply at_most_bind_free; [by apply get_process_info_queries|]. intros ?.
  apply at_most_ret.
Qed.

Lemma capture_workspace_queries (path_stem : string -> string)
    (self : WorkspaceCapturer.t) (workspace_name : option string)
    (prompted : string) (include_all : bool) :
  at_most P 0
    (WorkspaceCapturer.capture_workspace path_stem self workspace_name
       prompted include_all).
Proof.
  unfold WorkspaceCapturer.capture_workspace.
  destruct (if truthy_str workspace_name then workspace_name
            else Some prompted) as [name|] eqn:Hname; [|apply at_most_ret].
  apply at_most_if; [apply at_most_ret|].
  apply at_most_bind_free; [by apply enumerate_windows_queries|].
  intros captured. destruct captured as [|c cs]; [apply at_most_ret|].
  apply at_most_bind_free; [apply at_most_ask|]. intros env'.
  destruct (if include_all then _ else _); [apply at_most_ret|].
  apply at_most_bind_free; [apply capture_apps_queries|]. intros ?.
  apply at_most_ret.
Qed.

Lemma group_windows_queries (self : WorkspaceCapturer.t)
    (windows : list WindowInfo.t) :
  forall grouped,
    at_most P 0 (WorkspaceCapturer.group_windows self windows grouped).
Proof.
  induction windows as [|window windows IH]; intros grouped;
    cbn [WorkspaceCapturer.group_windows]; [apply at_most_ret|].
  apply at_most_bind_free; [by apply get_window_desktop_queries|].
  intros ?. apply IH.
Qed.

End CaptureQueries.

(** The name that [capture_workspace] works with: the one given, or the one
    typed at the prompt when none is given. *)
Lemma capture_name_cases (workspace_name : option string)
    (prompted : string) :
  let name :=
    if truthy_str workspace_name then default "" workspace_name
    else prompted in
  (if truthy_str workspace_name then workspace_name else Some prompted)
    = Some name /\
  truthy_str (Some name) = negb (String.eqb name "").
Proof.
  unfold truthy_str. destruct workspace_name as [n|]; cbn; [|done].
  by destruct (String.eqb n "").
Qed.

Lemma capture_workspace_spec (path_stem : string -> string)
    (self : WorkspaceCapturer.t) (workspace_name : option string)
    (prompted : string) (include_all : bool) (env : Env) (w : World) :
  let name :=
    if truthy_str workspace_name then default "" workspace_name
    else prompted in
  let run :=
    WorkspaceCapturer.capture_workspace path_stem self workspace_name
      prompted include_all in
  only_queries run /\
  (name = "" -> run env w = (Ok (None, self), w)) /\
  (name <> "" ->
   exists captured w1,
     WindowsApi.enumerate_windows env w = (Ok captured, w1) /\
     let selected :=
       if include_all then captured
       else WorkspaceCapturer._filter_system_windows env captured in
     match run env w with
     | (Ok (None, self'), w') =>
         selected = [] /\ w' = w1 /\
         WorkspaceCapturer.captured_windows self' = captured
     | (Ok (Some workspace, self'), w') =>
         selected <> [] /\
         WorkspaceCapturer.captured_windows self' = captured /\
         WorkspaceCapturer.selected_windows self' = selected /\
         Workspace.name workspace = name /\
         Workspace.description workspace = "" /\
         length (Workspace.apps workspace) = length selected
     | (Raise e, _) =>
         WindowsApi.is_psutil_access_error e = false /\
         exists t, psutil_process env t = Raise e
     end).
Proof.
  intros name run.
  split.
  { apply at_most_none_only_queries, capture_workspace_queries,
      negb_query_no_query. }
  destruct (capture_name_cases workspace_name prompted) as [Hname Htruthy].
  fold name in Hname, Htruthy.
  unfold run, WorkspaceCapturer.capture_workspace.
  rewrite Hname, Htruthy.
  split.
  { intros ->. done. }
  intros Hne. destruct (String.eqb_spec name "") as [?|_]; [done|].
  cbn [negb].
  destruct (enumerate_windows_never_raises env w) as (captured & w1 & Henum).
  exists captured, w1. split; [done|].
  unfold bind at 1. rewrite Henum.
  destruct captured as [|c cs].
  { cbv [ret]. by destruct include_all. }
  unfold bind at 1, ask at 1.
  set (captured := c :: cs).
  set (selected := if include_all then captured else _).
  destruct selected as [|s ss] eqn:Hsel; [done|].
  rewrite <- Hsel.
  unfold bind at 1.
  destruct (WorkspaceCapturer._create_workspace_from_windows _ _ _ _ _ env w1)
    as [[workspace|e] w2] eqn:Hrun.
  - cbv [ret]. cbn.
    unfold WorkspaceCapturer._create_workspace_from_windows in Hrun.
    apply capture_apps_spec in Hrun.
    destruct Hrun as (Hn & Hd & new & Happs & Hlen & _).
    cbn in Hn, Hd, Happs. subst new.
    rewrite Hsel at 1. done.
  - unfold WorkspaceCapturer._create_workspace_from_windows in Hrun.
    by apply capture_apps_spec in Hrun.
Qed.


Lemma window_group_insert_keys (grouped : list (Z * list WindowInfo.t))
    (desktop : Z) (window : WindowInfo.t) :
  (WorkspaceCapturer.window_group_insert grouped desktop window).*1 =
  if bool_decide (desktop ∈ grouped.*1) then grouped.*1
  else (grouped.*1 ++ [desktop])%list.
Proof.
  induction grouped as [|[d windows] grouped IH]; [done|].
  cbn [WorkspaceCapturer.window_group_insert].
  destruct (Z.eqb_spec d desktop) as [->|Hne].
  - cbn. rewrite bool_decide_eq_true_2; [done|]. apply elem_of_cons. by left.
  - rewrite !fmap_cons. cbn [fst]. rewrite IH.
    case_bool_decide as Hin.
    + rewrite bool_decide_eq_true_2; [done|]. apply elem_of_cons. by right.
    + rewrite bool_decide_eq_false_2; [done|].
      intros [?|?]%elem_of_cons; [congruence|done].
Qed.

Lemma window_group_insert_concat (grouped : list (Z * list WindowInfo.t))
    (desktop : Z) (window : WindowInfo.t) :
  concat (WorkspaceCapturer.window_group_insert grouped desktop window).*2
    ≡ₚ (concat grouped.*2 ++ [window])%list.
Proof.
  induction grouped as [|[d windows] grouped IH]; [done|].
  cbn [WorkspaceCapturer.window_group_insert].
  destruct (d =? desktop).
  - cbn. rewrite <- !(assoc_L app).
    apply Permutation_app_head, Permutation_app_comm.
  - rewrite !fmap_cons. cbn [snd concat]. rewrite IH.
    by rewrite (assoc_L app).
Qed.

Lemma window_group_insert_groups (grouped : list (Z * list WindowInfo.t))
    (desktop : Z) (window : WindowInfo.t) (seen : list WindowInfo.t) :
  Forall (fun g => g.2 <> [] /\ sublist g.2 seen) grouped ->
  Forall (fun g => g.2 <> [] /\ sublist g.2 (seen ++ [window])%list)
    (WorkspaceCapturer.window_group_insert grouped desktop window).
Proof.
  induction grouped as [|[d windows] grouped IH]; intros Hall.
  - cbn. apply Forall_singleton. cbn. split; [done|].
    by apply sublist_inserts_l.
  - apply Forall_cons in Hall as [[Hne Hsub] Hall]. cbn in Hne, Hsub.
    cbn [WorkspaceCapturer.window_group_insert].
    destruct (d =? desktop).
    + apply Forall_cons. split.
      * cbn. split; [by destruct windows|]. by apply sublist_app.
      * eapply Forall_impl; [done|]. intros g [? ?]. split; [done|].
        by apply sublist_inserts_r.
    + apply Forall_cons. split; [|by apply IH].
      cbn. split; [done|]. by apply sublist_inserts_r.
Qed.

(** What the loop of [_group_windows_by_desktop] keeps true of the groups
    made from the windows seen so far. *)
Lemma group_windows_spec (self : WorkspaceCapturer.t)
    (windows : list WindowInfo.t) :
  forall grouped seen env w,
    NoDup grouped.*1 -> ((-1) ∉ grouped.*1) ->
    concat grouped.*2 ≡ₚ seen ->
    Forall (fun g => g.2 <> [] /\ sublist g.2 seen) grouped ->
    exists grouped' w',
      WorkspaceCapturer.group_windows self windows grouped env w
        = (Ok grouped', w') /\
      NoDup grouped'.*1 /\ ((-1) ∉ grouped'.*1) /\
      concat grouped'.*2 ≡ₚ (seen ++ windows)%list /\
      Forall (fun g => g.2 <> [] /\ sublist g.2 (seen ++ windows)%list)
        grouped'.
Proof.
  induction windows as [|window windows IH];
    intros grouped seen env w Hkeys Hunknown Hall Hgroups.
  - exists grouped, w. rewrite (right_id_L [] app). by cbn.
  - cbn [WorkspaceCapturer.group_windows]. unfold bind at 1.
    destruct (proj1 (proj2 (proj2 (virtual_desktops_never_raise
                (WorkspaceCapturer.vd_manager self))))
                (WindowInfo.hwnd window) env w) as (desktop & w1 & ->).
    set (d := WorkspaceCapturer.known_desktop desktop).
    assert (d <> -1) as Hd.
    { unfold d, WorkspaceCapturer.known_desktop.
      by destruct (Z.eqb_spec desktop (-1)). }
    destruct (IH (WorkspaceCapturer.window_group_insert grouped d window)
                (seen ++ [window])%list env w1)
      as (grouped' & w' & Hrun & ? & ? & Hperm & Hsub).
    + rewrite window_group_insert_keys. case_bool_decide as Hin; [done|].
      apply NoDup_app. split; [done|]. split; [|apply NoDup_singleton].
      intros x Hx ->%list_elem_of_singleton. done.
    + rewrite window_group_insert_keys. case_bool_decide; [done|].
      intros [?|?%list_elem_of_singleton]%elem_of_app; [done|]. congruence.
    + rewrite window_group_insert_concat. by rewrite Hall.
    + by apply window_group_insert_groups.
    + exists grouped', w'. rewrite <- (assoc_L app) in Hperm, Hsub. done.
Qed.

Lemma group_windows_one_desktop (self : WorkspaceCapturer.t)
    (windows : list WindowInfo.t) :
  VirtualDesktopManager.pyvda_available (WorkspaceCapturer.vd_manager self)
    = false ->
  forall seen env w,
    seen <> [] ->
    WorkspaceCapturer.group_windows self windows [(0, seen)] env w
      = (Ok [(0, (seen ++ windows)%list)], w).
Proof.
  intros Hoff. induction windows as [|window windows IH];
    intros seen env w Hseen.
  - by rewrite (right_id_L [] app).
  - cbn [WorkspaceCapturer.group_windows]. unfold bind at 1.
    unfold VirtualDesktopManager.get_window_desktop. rewrite Hoff.
    cbn. rewrite IH; [|by destruct seen]. by rewrite <- (assoc_L app).
Qed.

(** X24. [_group_windows_by_desktop] never raises and splits the captured
    windows into groups: every window is in one group, the desktop indexes of
    the groups are pairwise distinct and none of them is -1, no group is empty,
    and each group lists its windows in the order of the capture. Without pyvda
    all the windows are in the one group of desktop 0. *)
Theorem group_windows_by_desktop_partition (self : WorkspaceCapturer.t)
    (env : Env) (w : World) :
  exists grouped w',
    WorkspaceCapturer._group_windows_by_desktop self env w
      = (Ok grouped, w') /\
    NoDup grouped.*1 /\ ((-1) ∉ grouped.*1) /\
    concat grouped.*2 ≡ₚ WorkspaceCapturer.captured_windows self /\
    Forall (fun g => g.2 <> [] /\
                     sublist g.2 (WorkspaceCapturer.captured_windows self))
      grouped /\
    (VirtualDesktopManager.pyvda_available (WorkspaceCapturer.vd_manager self)
       = false ->
     WorkspaceCapturer.captured_windows self <> [] ->
     grouped = [(0, WorkspaceCapturer.captured_windows self)]).
Proof.
  unfold WorkspaceCapturer._group_windows_by_desktop.
  destruct (group_windows_spec self (WorkspaceCapturer.captured_windows self)
              [] [] env w)
    as (grouped & w' & Hrun & ? & ? & ? & ?);
    [apply NoDup_nil_2|apply not_elem_of_nil|done|done|].
  exists grouped, w'. do 5 (split; [done|]).
  intros Hoff Hne.
  destruct (WorkspaceCapturer.captured_windows self) as [|c cs]; [done|].
  cbn [WorkspaceCapturer.group_windows] in Hrun. unfold bind at 1 in Hrun.
  unfold VirtualDesktopManager.get_window_desktop in Hrun.
  rewrite Hoff in Hrun. cbn in Hrun.
  rewrite (group_windows_one_desktop self cs Hoff [c]) in Hrun; [|done].
  by injection Hrun as <- _.
Qed.

(** *** Properties of the commands (cli.py) *)

Lemma load_sets_collection (self : ConfigManager.t) env w c w' :
  ConfigManager.load self env w = (Ok c, w') -> cfg_collection w' = Some c.
Proof.
  unfold ConfigManager.load, try_excepts.
  destruct (bind _ _ env w) as [[c0|e] w1] eqn:Hbody.
  - intros [= -> ->].
    apply bind_Ok_inv in Hbody as (? & w2 & _ & Hbody).
    apply bind_Ok_inv in Hbody as (data & w3 & _ & Hbody).
    destruct data; try done.
    apply bind_Ok_inv in Hbody as (env' & w4 & _ & Hbody).
    apply bind_Ok_inv in Hbody as (? & w5 & _ & Hbody).
    apply bind_Ok_inv in Hbody as (c1 & w6 & _ & Hbody).
    cbv [bind update_world ret] in Hbody. by injection Hbody as -> <-.
  - cbn [handle_with].
    by destruct (is_FileNotFoundError e); [|destruct (is_JSONDecodeError e)].
Qed.

Lemma loaded_collection_sets (self : ConfigManager.t) env w c w' :
  ConfigManager.loaded_collection self env w = (Ok c, w') ->
  cfg_collection w' = Some c.
Proof.
  unfold ConfigManager.loaded_collection. cbv [bind get_world].
  destruct (cfg_collection w) as [c0|] eqn:Hc.
  - by intros [= <- <-].
  - apply load_sets_collection.
Qed.

Lemma get_workspace_sets (self : ConfigManager.t) (name : string) env w
    found w' :
  ConfigManager.get_workspace self name env w = (Ok found, w') ->
  exists c,
    cfg_collection w' = Some c /\
    found = WorkspaceCollection.get_workspace c name.
Proof.
  unfold ConfigManager.get_workspace. intros Hrun.
  apply bind_Ok_inv in Hrun as (c & w1 & Hload & [= <- <-]).
  exists c. split; [|done]. by apply loaded_collection_sets in Hload.
Qed.

Lemma bind_run {A B} (m : M A) (k : A -> M B) env w :
  bind m k env w =
  match m env w with
  | (Ok a, w') => k a env w'
  | (Raise e, w') => (Raise e, w')
  end.
Proof. done. Qed.

(** [try: m except Exception: return c]. *)
Lemma try_any_run {A} (m : M A) (c : A) env w :
  try_except m any_exception (fun _ => ret c) env w =
  match m env w with
  | (Ok a, w') => (Ok a, w')
  | (Raise _, w') => (Ok c, w')
  end.
Proof. unfold try_except. by destruct (m env w) as [[a|e] w']. Qed.

(** After a lookup that found nothing, the suggestion of similar names
    changes nothing, whether it returns or fails on an empty name. *)
Lemma suggest_similar_same_world (self : ConfigManager.t) (name : string) env
    w c :
  cfg_collection w = Some c ->
  exists r,
    WorkspaceCLI._suggest_similar_workspace self name env w = (r, w).
Proof.
  intros Hc. unfold WorkspaceCLI._suggest_similar_workspace,
    ConfigManager.list_workspaces, ConfigManager.loaded_collection.
  cbv [bind get_world ret]. rewrite Hc.
  destruct (WorkspaceCollection.list_workspace_names c); [by eexists|].
  unfold lift. by eexists.
Qed.


Lemma validate_workspace_same_state (self : ConfigManager.t)
    (workspace : Workspace.t) env w r w' :
  ConfigManager.validate_workspace self workspace env w = (r, w') ->
  same_state w w'.
Proof.
  unfold ConfigManager.validate_workspace. intros Hrun.
  by apply validate_each_app_spec in Hrun as [? _].
Qed.

Lemma validate_all_spec (self : ConfigManager.t)
    (workspaces : list Workspace.t) :
  forall (all_valid : bool) env w r w',
    WorkspaceCLI.validate_all self workspaces all_valid env w = (r, w') ->
    same_state w w' /\
    (forall b, r = Ok b ->
       (b = true <->
        all_valid = true /\ Forall workspace_well_formed workspaces)) /\
    (paths_answer env -> exists b, r = Ok b).
Proof.
  induction workspaces as [|workspace workspaces IH];
    intros all_valid env w r w'.
  - intros [= <- <-]. split; [apply same_state_refl|]. split; [|by eexists].
    intros b [= <-]. split; [done|by intros [? _]].
  - cbn [WorkspaceCLI.validate_all]. rewrite bind_run.
    destruct (validate_workspace_spec self workspace env w)
      as (Hok & Hruns & _).
    destruct (ConfigManager.validate_workspace self workspace env w)
      as [[errors|e] w1] eqn:Hrun.
    + destruct (Hok errors w1 eq_refl) as [Hiff Hsame]. intros Hrest.
      apply IH in Hrest as (Hsame' & Hb & Hall).
      split; [by eapply same_state_trans|]. split; [|done].
      intros b Hr. rewrite (Hb b Hr), Forall_cons, <- Hiff.
      destruct errors; [tauto|]. split; [by intros [[=] _]|].
      by intros (_ & [=] & _).
    + intros [= <- <-].
      split; [by eapply validate_workspace_same_state|].
      split; [done|]. intros Hpaths.
      by destruct (Hruns Hpaths) as (? & ? & [=]).
Qed.


Lemma save_Ok_file (self : ConfigManager.t)
    (collection : WorkspaceCollection.t) env w w' :
  ConfigManager.save self collection env w = (Ok tt, w') ->
  files w' !! ConfigManager.config_file self =
    Some (Doc (JDict (WorkspaceCollection.to_dict collection))) /\
  cfg_collection w' = Some collection.
Proof.
  intros Hrun.
  assert (exists others,
            files w' =
              <[ConfigManager.config_file self :=
                  Doc (JDict (WorkspaceCollection.to_dict collection))]>
                others /\
            cfg_collection w' = Some collection) as (others & -> & ->).
  { revert Hrun. destruct w as [t cs f cc lr].
    unfold ConfigManager.save. run.
    repeat
      (match goal with
       | |- context [fs_error ?e ?t] => destruct (fs_error e t) eqn:?
       | |- context [bool_decide ?P] => destruct (bool_decide P) eqn:?
       | |- context [@lookup _ _ _ _ ?k ?m] => destruct (m !! k) eqn:?
       end; run);
      intros [= <-]; cbn [cfg_collection files]; by eexists. }
  by rewrite lookup_insert_eq.
Qed.

Lemma add_workspace_Ok (self : ConfigManager.t) (workspace : Workspace.t)
    (overwrite : bool) env w w' :
  ConfigManager.add_workspace self workspace overwrite env w = (Ok tt, w') ->
  exists collection,
    cfg_collection w' = Some collection /\
    files w' !! ConfigManager.config_file self =
      Some (Doc (JDict (WorkspaceCollection.to_dict collection))) /\
    WorkspaceCollection.get_workspace collection (Workspace.name workspace)
      = Some workspace.
Proof.
  unfold ConfigManager.add_workspace. intros Hrun.
  apply bind_Ok_inv in Hrun as (c & w1 & _ & Hrun).
  destruct (bool_decide _ && negb overwrite); [done|].
  cbv [bind update_world] in Hrun. rewrite removed_then_added in Hrun.
  apply save_Ok_file in Hrun as [Hfile Hc].
  eexists. split; [done|]. split; [done|].
  unfold WorkspaceCollection.get_workspace. cbn.
  rewrite filter_app, list_filter_filter.
  rewrite filter_none_nil by (by intros ws _ [? ?]).
  rewrite app_nil_l. by rewrite filter_cons_True.
Qed.

Lemma export_workspace_Ok (self : ConfigManager.t) (name output : string)
    env w w' :
  ConfigManager.export_workspace self name output env w = (Ok tt, w') ->
  exists collection workspace,
    cfg_collection w' = Some collection /\
    WorkspaceCollection.get_workspace collection name = Some workspace /\
    files w' !! output = Some (Doc (JDict (Workspace.to_dict workspace))).
Proof.
  unfold ConfigManager.export_workspace. intros Hrun.
  apply bind_Ok_inv in Hrun as (found & w1 & Hget & Hrun).
  apply get_workspace_sets in Hget as (c & Hc & ->).
  destruct (WorkspaceCollection.get_workspace c name) as [ws|] eqn:Hws;
    [|done].
  exists c, ws. revert Hrun. destruct w1 as [t cs f cc lr]. cbn in Hc.
  subst cc. run.
  repeat
    (match goal with
     | |- context [fs_error ?e ?t] => destruct (fs_error e t) eqn:?
     end; run);
    intros [= <-]; cbn [cfg_collection files]; try done.
  by rewrite lookup_insert_eq.
Qed.

Lemma import_workspace_Ok (self : ConfigManager.t) (file : string)
    (overwrite : bool) env w w' :
  ConfigManager.import_workspace self file overwrite env w = (Ok tt, w') ->
  exists collection workspace d,
    files w !! file = Some (Doc (JDict d)) /\
    Workspace.from_dict d = Ok workspace /\
    workspace_well_formed workspace /\
    cfg_collection w' = Some collection /\
    files w' !! ConfigManager.config_file self =
      Some (Doc (JDict (WorkspaceCollection.to_dict collection))) /\
    WorkspaceCollection.get_workspace collection (Workspace.name workspace)
      = Some workspace.
Proof.
  unfold ConfigManager.import_workspace, try_excepts.
  destruct (bind _ _ env w) as [[[]|e] w1] eqn:Hbody.
  2:{ cbn [handle_with].
      by destruct (is_FileNotFoundError e);
        [|destruct (is_JSONDecodeError e)]. }
  intros [= ->].
  apply bind_Ok_inv in Hbody as (data & w2 & Hread & Hbody).
  apply bind_Ok_inv in Hbody as (workspace & w3 & Hdecode & Hbody).
  apply bind_Ok_inv in Hbody as (errors & w4 & Hvalid & Hbody).
  destruct errors; [|done].
  apply add_workspace_Ok in Hbody as (collection & ? & ? & ?).
  destruct (validate_workspace_spec self workspace env w3) as (Hok & _).
  destruct (Hok [] w4 Hvalid) as [Hwf _].
  unfold lift in Hdecode. injection Hdecode as Hdecode <-.
  destruct data as [| | | | |d]; try done. cbn in Hdecode.
  exists collection, workspace, d. split; [|by rewrite <- Hwf].
  revert Hread. destruct w as [t cs f cc lr]. run.
  destruct (fs_error env t); [done|].
  destruct (f !! file) as [[j|?]|]; [|done..]. by intros [= -> _].
Qed.


(** *** The files that the configuration store touches *)

Section StoreFiles.

Variable env : Env.
Variable own : list string.

Lemma other_files_kept_refl (w : World) : other_files_kept own w w.
Proof. by intros p _. Qed.

Lemma other_files_kept_trans (w1 w2 w3 : World) :
  other_files_kept own w1 w2 -> other_files_kept own w2 w3 ->
  other_files_kept own w1 w3.
Proof. intros H1 H2 p Hp. by rewrite H2, H1. Qed.

Lemma kept_ret {A} (a : A) : touches_only env own (ret a).
Proof. intros w r w' [= _ <-]. apply other_files_kept_refl. Qed.

Lemma kept_raise {A} (e : exn) : touches_only env own (@raise A e).
Proof. intros w r w' [= _ <-]. apply other_files_kept_refl. Qed.

Lemma kept_ask {A} (f : Env -> A) : touches_only env own (ask f).
Proof. intros w r w' [= _ <-]. apply other_files_kept_refl. Qed.

Lemma kept_lift {A} (r : result A) : touches_only env own (lift r).
Proof. intros w r' w' [= _ <-]. apply other_files_kept_refl. Qed.

Lemma kept_get_world : touches_only env own get_world.
Proof. intros w r w' [= _ <-]. apply other_files_kept_refl. Qed.

Lemma kept_file_exists (p : string) : touches_only env own (file_exists p).
Proof. intros w r w' [= _ <-]. apply other_files_kept_refl. Qed.

Lemma kept_os_call {A} (c : call) (answer : Env -> nat -> result A) :
  touches_only env own (os_call c answer).
Proof. by intros w r w' [= _ <-] p _. Qed.

Lemma kept_fs_op (c : call) : touches_only env own (fs_op c).
Proof. apply kept_os_call. Qed.

Lemma kept_set_cfg_collection (c : option WorkspaceCollection.t) :
  touches_only env own (update_world (set_cfg_collection c)).
Proof. by intros w r w' [= _ <-] p _. Qed.

Lemma kept_bind {A B} (m : M A) (k : A -> M B) :
  touches_only env own m -> (forall a, touches_only env own (k a)) ->
  touches_only env own (bind m k).
Proof.
  intros Hm Hk w r w'. rewrite bind_run.
  destruct (m env w) as [[a|e] w1] eqn:Hrun.
  - intros Hrun'.
    eapply other_files_kept_trans; [by eapply Hm|by eapply Hk].
  - intros [= _ <-]. by eapply Hm.
Qed.

Lemma kept_bind_ask {A B} (f : Env -> A) (k : A -> M B) :
  touches_only env own (k (f env)) -> touches_only env own (bind (ask f) k).
Proof. intros Hk w r w'. rewrite bind_run. apply Hk. Qed.

Lemma kept_try {A} (m : M A) (catches : exn -> bool) (handler : exn -> M A) :
  touches_only env own m -> (forall e, touches_only env own (handler e)) ->
  touches_only env own (try_except m catches handler).
Proof.
  intros Hm Hh w r w'. unfold try_except.
  destruct (m env w) as [[a|e] w1] eqn:Hrun.
  - intros [= _ <-]. by eapply Hm.
  - destruct (catches e).
    + intros Hrun'.
      eapply other_files_kept_trans; [by eapply Hm|by eapply Hh].
    + intros [= _ <-]. by eapply Hm.
Qed.

Lemma kept_handle_with {A} (clauses : list ((exn -> bool) * (exn -> M A)))
    (e : exn) :
  Forall (fun clause => forall e, touches_only env own (clause.2 e)) clauses ->
  touches_only env own (handle_with clauses e).
Proof.
  induction 1 as [|[catches handler] clauses Hh _ IH];
    cbn [handle_with]; [apply kept_raise|].
  destruct (catches e); [apply Hh|apply IH].
Qed.

Lemma kept_try_excepts {A} (m : M A)
    (clauses : list ((exn -> bool) * (exn -> M A))) :
  touches_only env own m ->
  Forall (fun clause => forall e, touches_only env own (clause.2 e))
    clauses ->
  touches_only env own (try_excepts m clauses).
Proof.
  intros Hm Hh w r w'. unfold try_excepts.
  destruct (m env w) as [[a|e] w1] eqn:Hrun.
  - intros [= _ <-]. by eapply Hm.
  - intros Hrun'. eapply other_files_kept_trans; [by eapply Hm|].
    by eapply kept_handle_with.
Qed.

Lemma kept_path_replace (src dst : string) :
  src ∈ own -> dst ∈ own -> touches_only env own (path_replace src dst).
Proof.
  intros Hsrc Hdst [t cs f cc lr] r w'. unfold path_replace. run.
  destruct (fs_error env t); [by intros [= _ <-] p _|].
  destruct (f !! src); intros [= _ <-] p Hp; cbn; [|done].
  rewrite lookup_insert_ne, lookup_delete_ne; [done|..]; by intros ->.
Qed.

Lemma kept_open_write (p : string) :
  p ∈ own -> touches_only env own (open_write p).
Proof.
  intros Hin [t cs f cc lr] r w'. unfold open_write. run.
  destruct (fs_error env t); intros [= _ <-] q Hq; cbn; [done|].
  rewrite lookup_insert_ne; [done|]. by intros ->.
Qed.

Lemma kept_json_dump (p : string) (data : json) :
  p ∈ own -> touches_only env own (json_dump p data).
Proof.
  intros Hin [t cs f cc lr] r w'. unfold json_dump. run.
  destruct (fs_error env t); intros [= _ <-] q Hq; cbn;
    (rewrite lookup_insert_ne; [done|]); by intros ->.
Qed.

Lemma kept_read_json (p : string) : touches_only env own (read_json p).
Proof.
  intros [t cs f cc lr] r w'. unfold read_json. run.
  destruct (fs_error env t); [by intros [= _ <-] q _|].
  by destruct (f !! p) as [[]|]; intros [= _ <-] q _.
Qed.

End StoreFiles.

(** Decomposes a goal [touches_only env own m] along the structure of
    [m]. *)
Ltac store_files :=
  repeat first
    [ apply kept_ret
    | apply kept_raise
    | apply kept_lift
    | apply kept_get_world
    | apply kept_file_exists
    | apply kept_fs_op
    | apply kept_os_call
    | apply kept_set_cfg_collection
    | apply kept_read_json
    | apply kept_path_replace; [assumption|assumption]
    | apply kept_open_write; assumption
    | apply kept_json_dump; assumption
    | apply kept_bind_ask
    | apply kept_ask
    | apply kept_try; [|intros ?]
    | apply kept_bind; [|intros ?]
    | match goal with
      | |- touches_only _ _ (if ?b then _ else _) => destruct b
      | |- touches_only _ _ (match ?o with Some _ => _ | None => _ end) =>
          destruct o
      end ].

Section StoreTouches.

Variable self : ConfigManager.t.
Variable env : Env.
Variable own : list string.
Hypothesis own_config : ConfigManager.config_file self ∈ own.
Hypothesis own_backup :
  with_suffix env (ConfigManager.config_file self) ".json.bak" ∈ own.

Lemma save_touches (collection : WorkspaceCollection.t) :
  touches_only env own (ConfigManager.save self collection).
Proof. unfold ConfigManager.save, ConfigManager.backup_file. store_files. Qed.

Lemma load_touches : touches_only env own (ConfigManager.load self).
Proof.
  unfold ConfigManager.load. apply kept_try_excepts.
  - apply kept_bind.
    { unfold ConfigManager.ensure_config_exists.
      apply kept_bind; [apply kept_file_exists|]. intros present.
      destruct (negb present); [apply save_touches|apply kept_ret]. }
    intros _. apply kept_bind; [apply kept_read_json|]. intros data.
    destruct data; store_files.
  - repeat (apply List.Forall_cons; [intros e; apply kept_raise|]).
    apply List.Forall_nil.
Qed.

Lemma loaded_collection_touches :
  touches_only env own (ConfigManager.loaded_collection self).
Proof.
  unfold ConfigManager.loaded_collection.
  intros w r w'. rewrite bind_run. unfold get_world.
  destruct (cfg_collection w); [apply kept_ret|apply load_touches].
Qed.

Lemma add_workspace_touches (workspace : Workspace.t) (overwrite : bool) :
  touches_only env own
    (ConfigManager.add_workspace self workspace overwrite).
Proof.
  unfold ConfigManager.add_workspace.
  apply kept_bind; [apply loaded_collection_touches|]. intros collection.
  destruct (_ && _); [apply kept_raise|].
  apply kept_bind; [apply kept_set_cfg_collection|]. intros _.
  apply kept_bind; [apply kept_set_cfg_collection|]. intros _.
  apply save_touches.
Qed.

Lemma remove_workspace_touches (name : string) :
  touches_only env own (ConfigManager.remove_workspace self name).
Proof.
  unfold ConfigManager.remove_workspace.
  apply kept_bind; [apply loaded_collection_touches|]. intros collection.
  apply kept_bind; [apply kept_set_cfg_collection|]. intros _.
  destruct (snd _); [|apply kept_ret].
  apply kept_bind; [apply save_touches|]. intros _. apply kept_ret.
Qed.

Lemma validate_workspace_touches (workspace : Workspace.t) :
  touches_only env own (ConfigManager.validate_workspace self workspace).
Proof.
  intros w r w' Hrun p _.
  by apply validate_workspace_same_state in Hrun as (_ & _ & ->).
Qed.

Lemma import_workspace_touches (file : string) (overwrite : bool) :
  touches_only env own
    (ConfigManager.import_workspace self file overwrite).
Proof.
  unfold ConfigManager.import_workspace. apply kept_try_excepts.
  - apply kept_bind; [apply kept_read_json|]. intros data.
    apply kept_bind; [apply kept_lift|]. intros workspace.
    apply kept_bind; [apply validate_workspace_touches|]. intros errors.
    destruct errors; [apply add_workspace_touches|apply kept_raise].
  - repeat (apply List.Forall_cons; [intros e; apply kept_raise|]).
    apply List.Forall_nil.
Qed.

Lemma export_workspace_touches (name output : string) :
  output ∈ own ->
  touches_only env own (ConfigManager.export_workspace self name output).
Proof.
  intros Hout. unfold ConfigManager.export_workspace.
  apply kept_bind.
  { unfold ConfigManager.get_workspace.
    apply kept_bind; [apply loaded_collection_touches|]. intros ?.
    apply kept_ret. }
  intros found. destruct found; [|apply kept_raise]. store_files.
Qed.

End StoreTouches.

(** X28. The configuration store writes to no file but its own. Whatever the
    file system does, [save], [load], [add_workspace], [remove_workspace],
    [get_workspace], [list_workspaces] and [import_workspace] leave every file
    other than the configuration file and its backup as it was, and
    [export_workspace] every file other than these two and the output file. *)
Theorem store_touches_only_its_files (self : ConfigManager.t) (env : Env) :
  let own :=
    [ConfigManager.config_file self;
     with_suffix env (ConfigManager.config_file self) ".json.bak"] in
  (forall collection,
     touches_only env own (ConfigManager.save self collection)) /\
  touches_only env own (ConfigManager.load self) /\
  (forall workspace overwrite,
     touches_only env own
       (ConfigManager.add_workspace self workspace overwrite)) /\
  (forall name,
     touches_only env own (ConfigManager.remove_workspace self name)) /\
  (forall name,
     touches_only env own (ConfigManager.get_workspace self name)) /\
  touches_only env own (ConfigManager.list_workspaces self) /\
  (forall file overwrite,
     touches_only env own
       (ConfigManager.import_workspace self file overwrite)) /\
  (forall name output,
     touches_only env (output :: own)
       (ConfigManager.export_workspace self name output)).
Proof.
  intros own.
  assert (ConfigManager.config_file self ∈ own) as Hc
    by (apply elem_of_cons; by left).
  assert (with_suffix env (ConfigManager.config_file self) ".json.bak"
            ∈ own) as Hb
    by (apply elem_of_cons; right; apply elem_of_cons; by left).
  split; [intros; by apply save_touches|].
  split; [by apply load_touches|].
  split; [intros; by apply add_workspace_touches|].
  split; [intros; by apply remove_workspace_touches|].
  split.
  { intros name. unfold ConfigManager.get_workspace.
    apply kept_bind; [by apply loaded_collection_touches|]. intros ?.
    apply kept_ret. }
  split.
  { unfold ConfigManager.list_workspaces.
    apply kept_bind; [by apply loaded_collection_touches|]. intros ?.
    apply kept_ret. }
  split; [intros; by apply import_workspace_touches|].
  intros name output.
  apply export_workspace_touches;
    [apply elem_of_cons; by right..|apply elem_of_cons; by left].
Qed.

(** *** Monitors (windows_api.py) *)

Lemma monitor_enum_callbacks_spec (found : list (Z * Rect)) :
  forall monitors env w,
    exists more w',
      WindowsApi.monitor_enum_callbacks monitors found env w
        = (Ok (monitors ++ more)%list, w') /\
      sublist
        ((fun m => (WindowsApi.handle m, WindowsApi.monitor_rect m)) <$> more)
        found.
Proof.
  induction found as [|[hmon r] found IH]; intros monitors env w.
  - exists [], w. by rewrite app_nil_r.
  - cbn [WindowsApi.monitor_enum_callbacks]. rewrite bind_run.
    unfold WindowsApi.monitor_enum_callback at 1.
    unfold try_except. rewrite bind_run. unfold os_call at 1. cbn [fst snd].
    destruct (get_monitor_info_call env (tick w)) as [info|e].
    + cbv [ret any_exception].
      destruct (IH (monitors ++
                    [WindowsApi.mkMonitor hmon r (fst (fst info))
                       (snd (fst info) =? 1) (snd info)])%list
                  env (log_call (GetMonitorInfo hmon) w))
        as (more & w' & -> & Hsub).
      eexists (_ :: more), w'. rewrite <- (assoc_L app). split; [done|].
      cbn. by apply sublist_skip.
    + cbv [ret any_exception].
      destruct (IH monitors env (log_call (GetMonitorInfo hmon) w))
        as (more & w' & -> & Hsub).
      exists more, w'. split; [done|]. by apply sublist_cons.
Qed.

Lemma filter_first {A} (P : A -> Prop) `{forall x, Decision (P x)}
    (l : list A) (a : A) (rest : list A) :
  filter P l = a :: rest ->
  exists before after,
    l = (before ++ a :: after)%list /\ Forall (fun x => ~ P x) before /\ P a.
Proof.
  induction l as [|x l IH]; [done|].
  destruct (decide (P x)) as [HP|HP].
  - rewrite filter_cons_True by done. intros [= -> _].
    by exists [], l.
  - rewrite filter_cons_False by done. intros Hf.
    destruct (IH Hf) as (before & after & -> & Hb & Ha).
    exists (x :: before), after. split; [done|]. split; [|done].
    by apply Forall_cons.
Qed.


Section CaptureFiles.

Variable env : Env.
Variable own : list string.

Lemma enum_callbacks_touches (handles : list Z) :
  forall windows,
    touches_only env own (WindowsApi.enum_callbacks windows handles).
Proof.
  induction handles as [|h handles IH]; intros windows;
    cbn [WindowsApi.enum_callbacks]; [apply kept_ret|].
  apply kept_bind; [|intros ?; apply IH].
  unfold WindowsApi.enum_callback, WindowsApi.is_alt_tab_window,
    WindowsApi.get_window_text_safe, WindowsApi.get_class_name_safe,
    WindowsApi.get_process_info.
  store_files.
Qed.

Lemma capture_apps_touches (path_stem : string -> string)
    (self : WorkspaceCapturer.t) (windows : list WindowInfo.t) :
  forall idx workspace,
    touches_only env own
      (WorkspaceCapturer.capture_apps path_stem self idx windows workspace).
Proof.
  induction windows as [|window windows IH]; intros idx workspace;
    cbn [WorkspaceCapturer.capture_apps]; [apply kept_ret|].
  apply kept_bind; [|intros ?; apply IH].
  unfold WorkspaceCapturer.capture_app,
    VirtualDesktopManager.get_window_desktop,
    VirtualDesktopManager.get_current_desktop, WindowsApi.get_process_info.
  store_files.
Qed.

Lemma capture_workspace_touches (path_stem : string -> string)
    (self : WorkspaceCapturer.t) (workspace_name : option string)
    (prompted : string) (include_all : bool) :
  touches_only env own
    (WorkspaceCapturer.capture_workspace path_stem self workspace_name
       prompted include_all).
Proof.
  unfold WorkspaceCapturer.capture_workspace.
  destruct (if truthy_str workspace_name then workspace_name
            else Some prompted) as [name|]; [|apply kept_ret].
  destruct (negb _); [apply kept_ret|].
  apply kept_bind.
  { unfold WindowsApi.enumerate_windows.
    apply kept_bind; [apply kept_os_call|]. intros ?.
    apply enum_callbacks_touches. }
  intros captured. destruct captured as [|c cs]; [apply kept_ret|].
  apply kept_bind_ask.
  destruct (if include_all then _ else _); [apply kept_ret|].
  apply kept_bind; [apply capture_apps_touches|]. intros ?. apply kept_ret.
Qed.

End CaptureFiles.

